(** * ECS CLI: task-parameter normalisation and configuration store

    A shallow embedding of
    - [ecs-cli/modules/utils/compose/ecs_params_reader.go] (package [utils]:
      the ecs-params.yml reader, the health check unmarshaler and the network
      configuration extractor), and
    - the [config] package's YAML read/writer ([GetConfigs], [SaveProfile],
      [SaveCluster], [SetDefaultProfile], [SetDefaultCluster], [saveToFile]).

    Conventions of the embedding:
    - a Go pointer [*T] is an [option T] ([nil] is [None]);
    - a Go [error] value is its message, and a function returning
      [(T, error)] returns a pair whose second component is [None] for a
      [nil] error;
    - [int64] values are integers of [Z]; a number the YAML decoder accepts
      for an [int64] field is of [Go.int64], an integer within the bounds;
    - a function that can panic returns a [Config.run]: its result or
      [Panics];
    - Go strings are byte strings ([string]). *)

From Stdlib Require Import ZArith Ascii String List Lia Bool.
From stdpp Require Import base option gmap strings list fin_maps.

Local Open Scope string_scope.
Local Open Scope Z_scope.

(** A Go [error]: its message. *)
Definition error : Type := string.

(** ** Go standard library functions used by the readers *)

Module Go.

Definition is_digit (c : ascii) : bool :=
  ((48 <=? nat_of_ascii c) && (nat_of_ascii c <=? 57))%nat.

Definition digit_value (c : ascii) : Z := Z.of_nat (nat_of_ascii c) - 48.

Definition maxInt64 : Z := 2 ^ 63 - 1.

(** The values of [int64], as integers. *)
Definition in_int64 (z : Z) : bool := (- 2 ^ 63 <=? z) && (z <? 2 ^ 63).

Definition int64 : Type := { z : Z | Is_true (in_int64 z) }.

Definition int64_val (v : int64) : Z := proj1_sig v.

(** The digits loop of [strconv.ParseUint] in base 10: every byte must be a
    decimal digit. The accumulated value is kept unbounded here; the range
    test is made once by the caller, which gives the same verdict as the
    cut-off tests inside the loop. *)
Fixpoint digits_value (acc : Z) (s : string) : option Z :=
  match s with
  | EmptyString => Some acc
  | String c r =>
      if is_digit c then digits_value (10 * acc + digit_value c) r else None
  end.

(** [strconv.ParseInt(s, 10, 64)]: an optional sign, then at least one
    decimal digit; a value outside of [-2^63, 2^63 - 1] is a range error.
    [None] stands for a non-nil error. *)
Definition ParseInt (s : string) : option Z :=
  match s with
  | EmptyString => None
  | String c r =>
      let neg := Ascii.eqb c "-" in
      let body := if Ascii.eqb c "+" || neg then r else s in
      match body with
      | EmptyString => None
      | _ =>
          match digits_value 0 body with
          | None => None
          | Some un =>
              if negb neg && (2 ^ 63 <=? un) then None
              else if neg && (2 ^ 63 <? un) then None
              else Some (if neg then - un else un)
          end
      end
  end.

(** *** [time.ParseDuration]

    The function as it is in the Go releases of the time of the source, which
    accumulate in [int64] and take a negative value for an overflow. The
    values are kept in [Z] here and an overflow is a value above [maxInt64];
    the two tests agree, since no step adds more than [maxInt64] to a value
    that is at most [maxInt64]. *)

(** [leadingInt]: consumes the leading digits of [s]; fails when the value
    leaves [int64]. Returns the value and the rest of the string. *)
Fixpoint leadingInt_from (x : Z) (s : string) : option (Z * string) :=
  match s with
  | EmptyString => Some (x, s)
  | String c r =>
      if is_digit c then
        if maxInt64 / 10 <? x then None
        else
          let x' := x * 10 + digit_value c in
          if maxInt64 <? x' then None else leadingInt_from x' r
      else Some (x, s)
  end.

Definition leadingInt (s : string) : option (Z * string) := leadingInt_from 0 s.

(** [leadingFraction]: consumes the leading digits of [s]; digits that would
    overflow are skipped. Returns the value, the number of digits kept (the
    source's [scale] is ten to that power) and the rest of the string. *)
Fixpoint leadingFraction_from (x : Z) (kept : nat) (overflow : bool) (s : string)
  : Z * nat * string :=
  match s with
  | EmptyString => (x, kept, s)
  | String c r =>
      if is_digit c then
        if overflow then leadingFraction_from x kept true r
        else if maxInt64 / 10 <? x then leadingFraction_from x kept true r
        else
          let y := x * 10 + digit_value c in
          if maxInt64 <? y then leadingFraction_from x kept true r
          else leadingFraction_from y (S kept) false r
      else (x, kept, s)
  end.

Definition leadingFraction (s : string) : Z * nat * string :=
  leadingFraction_from 0 0%nat false s.

(** The unit of a duration term: the longest prefix without ['.'] and
    digits. *)
Fixpoint unit_span (s : string) : string * string :=
  match s with
  | EmptyString => (EmptyString, EmptyString)
  | String c r =>
      if Ascii.eqb c "." || is_digit c then (EmptyString, s)
      else let '(u, rest) := unit_span r in (String c u, rest)
  end.

Definition micro_sign_s : string :=
  String (ascii_of_nat 194) (String (ascii_of_nat 181) "s").
Definition greek_mu_s : string :=
  String (ascii_of_nat 206) (String (ascii_of_nat 188) "s").

(** [unitMap], in nanoseconds. *)
Definition unitMap (u : string) : option Z :=
  if String.eqb u "ns" then Some 1
  else if String.eqb u "us" then Some 1000
  else if String.eqb u micro_sign_s then Some 1000
  else if String.eqb u greek_mu_s then Some 1000
  else if String.eqb u "ms" then Some 1000000
  else if String.eqb u "s" then Some 1000000000
  else if String.eqb u "m" then Some 60000000000
  else if String.eqb u "h" then Some 3600000000000
  else None.

Inductive outcome (A : Type) : Type :=
| Done (r : option A)      (* [Some v]: value with nil error; [None]: error *)
| OutOfFuel.
Arguments Done {A} r.
Arguments OutOfFuel {A}.

Section ParseDuration.

(** [frac_ns f kept unit] is the source's
    [int64(float64(f) * (float64(unit) / scale))] with [scale = 10^kept]:
    the nanoseconds of the fractional part of a term. The binary64
    computation is not modelled; what is proved holds for every such
    function. *)
Variable frac_ns : Z -> nat -> Z -> Z.

(** The body of the [for s != ""] loop: one iteration parses one term
    (digits, an optional point and digits, then a unit) and adds it to
    [d]. Every iteration
    consumes at least one byte, so [fuel] of the length of [s] is never
    used up ([ParseDuration_loop_fuel]). *)
Fixpoint ParseDuration_loop (fuel : nat) (s : string) (d : Z) : outcome Z :=
  match s with
  | EmptyString => Done (Some d)
  | String c0 _ =>
      match fuel with
      | O => OutOfFuel
      | S fuel' =>
          if negb (Ascii.eqb c0 "." || is_digit c0) then Done None
          else
            match leadingInt s with
            | None => Done None
            | Some (v, s1) =>
                let pre := negb (Nat.eqb (String.length s) (String.length s1)) in
                let '(f, kept, post, s2) :=
                  match s1 with
                  | String c1 r1 =>
                      if Ascii.eqb c1 "." then
                        let '(f, kept, s2) := leadingFraction r1 in
                        (f, kept,
                         negb (Nat.eqb (String.length r1) (String.length s2)), s2)
                      else (0, O, false, s1)
                  | EmptyString => (0, O, false, s1)
                  end in
                if negb pre && negb post then Done None
                else
                  let '(u, s3) := unit_span s2 in
                  match u with
                  | EmptyString => Done None       (* missing unit *)
                  | _ =>
                      match unitMap u with
                      | None => Done None          (* unknown unit *)
                      | Some unit =>
                          if maxInt64 / unit <? v then Done None
                          else
                            let v1 := v * unit in
                            let v2 := if 0 <? f then v1 + frac_ns f kept unit else v1 in
                            if maxInt64 <? v2 then Done None
                            else
                              let d' := d + v2 in
                              if maxInt64 <? d' then Done None
                              else ParseDuration_loop fuel' s3 d'
                      end
                  end
            end
      end
  end.

(** [time.ParseDuration]: an optional sign, then one or more terms; the
    value in nanoseconds. The literal 0 needs no unit. *)
Definition ParseDuration_outcome (s : string) : outcome Z :=
  let '(neg, body) :=
    match s with
    | String c r =>
        if Ascii.eqb c "-" then (true, r)
        else if Ascii.eqb c "+" then (false, r)
        else (false, s)
    | EmptyString => (false, s)
    end in
  if String.eqb body "0" then Done (Some 0)
  else if String.eqb body "" then Done None
  else
    match ParseDuration_loop (String.length body) body 0 with
    | Done (Some d) => Done (Some (if neg then - d else d))
    | r => r
    end.

Definition ParseDuration (s : string) : option Z :=
  match ParseDuration_outcome s with
  | Done r => r
  | OutOfFuel => None
  end.

End ParseDuration.

End Go.

(** ** Package [utils]: the ecs-params.yml reader *)

Module Utils.

(** *** Types of the AWS SDK ([aws], [ecs]) *)

Definition aws_String (s : string) : option string := Some s.
Definition aws_StringSlice (l : list string) : list (option string) :=
  map aws_String l.

(** [ecs.HealthCheck]: every field is a pointer, [Command] a slice of
    pointers. *)
Record ecs_HealthCheck : Type := mk_ecs_HealthCheck {
  hc_Command : list (option string);
  hc_Interval : option Z;
  hc_Retries : option Z;
  hc_StartPeriod : option Z;
  hc_Timeout : option Z
}.

(** [ecs.AwsVpcConfiguration] and [ecs.NetworkConfiguration]. *)
Record ecs_AwsVpcConfiguration : Type := mk_ecs_AwsVpcConfiguration {
  ecs_AssignPublicIp : option string;
  ecs_SecurityGroups : list (option string);
  ecs_Subnets : list (option string)
}.

Record ecs_NetworkConfiguration : Type := mk_ecs_NetworkConfiguration {
  ecs_AwsvpcConfiguration : option ecs_AwsVpcConfiguration
}.

(** *** Types of the package *)

(** [HealthCheck] embeds [ecs.HealthCheck]. *)
Record HealthCheck : Type := mk_HealthCheck {
  embedded : ecs_HealthCheck
}.

(** [healthCheckFormat]: [Test] and [Command] are [libYaml.Stringorslice],
    a slice of strings. *)
Record healthCheckFormat : Type := mk_healthCheckFormat {
  Test : list string;
  Command : list string;
  Timeout : string;
  Interval : string;
  Retries : Z;
  StartPeriod : string
}.

Record ContainerDef : Type := mk_ContainerDef {
  Essential : bool;
  Cpu : Z;
  Memory : Z;
  MemoryReservation : Z;
  cd_HealthCheck : HealthCheck
}.

Record TaskSize : Type := mk_TaskSize {
  ts_Cpu : string;
  ts_Memory : string
}.

Record EcsTaskDef : Type := mk_EcsTaskDef {
  NetworkMode : string;
  TaskRoleArn : string;
  ContainerDefinitions : gmap string ContainerDef;
  ExecutionRole : string;
  td_TaskSize : TaskSize
}.

(** [AssignPublicIp] is a string type with the constants [Enabled] and
    [Disabled]. *)
Definition AssignPublicIp : Type := string.
Definition Enabled : AssignPublicIp := "ENABLED".
Definition Disabled : AssignPublicIp := "DISABLED".

Record AwsVpcConfiguration : Type := mk_AwsVpcConfiguration {
  Subnets : list string;
  SecurityGroups : list string;
  vpc_AssignPublicIp : AssignPublicIp
}.

Record NetworkConfiguration : Type := mk_NetworkConfiguration {
  nc_AwsVpcConfiguration : AwsVpcConfiguration
}.

Record RunParams : Type := mk_RunParams {
  rp_NetworkConfiguration : NetworkConfiguration
}.

Record ECSParams : Type := mk_ECSParams {
  Version : string;
  TaskDefinition : EcsTaskDef;
  ecs_RunParams : RunParams
}.

(** *** The YAML node of a health check

    What the decoder of [gopkg.in/yaml.v2] is handed, when it accepts it for
    the schema: [test] and [command] a string or a sequence of strings, the
    time fields a scalar (decoded into a Go string as its text), [retries] an
    integer of [int64]. A key can also be absent, or hold null: the decoder
    then assigns the zero value of the field. For [test], [command] and the
    time fields the zero value is what the field starts with, so that null
    and absent are one case ([SSAbsent], [None]); for [retries], which starts
    at 3, they are two. A value of another shape is refused by the decoder,
    see [healthcheck_yaml]. *)
Inductive stringorslice_node : Type :=
| SSAbsent
| SSString (s : string)
| SSSequence (l : list string).

Inductive retries_node : Type :=
| RetriesAbsent
| RetriesNull
| RetriesValue (v : Go.int64).

Record healthCheckNode : Type := mk_healthCheckNode {
  node_test : stringorslice_node;
  node_command : stringorslice_node;
  node_timeout : option string;
  node_interval : option string;
  node_retries : retries_node;
  node_start_period : option string
}.

(** [libYaml.Stringorslice]'s unmarshaler: a string becomes the slice of
    that one string, a sequence is taken as it is; an absent key leaves the
    field as it was. *)
Definition Stringorslice_decode (n : stringorslice_node) (old : list string)
  : list string :=
  match n with
  | SSAbsent => old
  | SSString s => [s]
  | SSSequence l => l
  end.

(** The decoder on [retries]: an absent key leaves the field, null sets it to
    zero, an integer is assigned. *)
Definition retries_decode (n : retries_node) (old : Z) : Z :=
  match n with
  | RetriesAbsent => old
  | RetriesNull => 0
  | RetriesValue v => Go.int64_val v
  end.

(** The [unmarshal] callback yaml.v2 passes to [UnmarshalYAML], for a node it
    accepts: it fills the fields whose keys are present and leaves the
    others. *)
Definition yaml_unmarshal (n : healthCheckNode) (raw : healthCheckFormat)
  : healthCheckFormat * option error :=
  ({| Test := Stringorslice_decode (node_test n) (Test raw);
      Command := Stringorslice_decode (node_command n) (Command raw);
      Timeout := default (Timeout raw) (node_timeout n);
      Interval := default (Interval raw) (node_interval n);
      Retries := retries_decode (node_retries n) (Retries raw);
      StartPeriod := default (StartPeriod raw) (node_start_period n) |},
   None).

(** The value of a [healthcheck] key: one the decoder accepts, described by
    its node, or one it refuses (an integer outside of [int64] or a string
    under [retries], a mapping under a time field, a sequence that holds
    something else than strings, ...), with the error the decoder returns. *)
Inductive healthcheck_yaml : Type :=
| HealthcheckAccepted (n : healthCheckNode)
| HealthcheckRejected (err : error).

(** The [unmarshal] callback for a value of the [healthcheck] key. *)
Definition unmarshal_healthcheck (y : healthcheck_yaml) (raw : healthCheckFormat)
  : healthCheckFormat * option error :=
  match y with
  | HealthcheckAccepted n => yaml_unmarshal n raw
  | HealthcheckRejected err => (raw, Some err)
  end.

(** *** Setters of [ecs.HealthCheck], through the embedding *)

Definition SetCommand (v : list (option string)) (h : HealthCheck) : HealthCheck :=
  let e := embedded h in
  {| embedded := {| hc_Command := v; hc_Interval := hc_Interval e;
                    hc_Retries := hc_Retries e;
                    hc_StartPeriod := hc_StartPeriod e;
                    hc_Timeout := hc_Timeout e |} |}.

Definition SetRetries (v : Z) (h : HealthCheck) : HealthCheck :=
  let e := embedded h in
  {| embedded := {| hc_Command := hc_Command e; hc_Interval := hc_Interval e;
                    hc_Retries := Some v;
                    hc_StartPeriod := hc_StartPeriod e;
                    hc_Timeout := hc_Timeout e |} |}.

Definition set_Timeout (v : option Z) (h : HealthCheck) : HealthCheck :=
  let e := embedded h in
  {| embedded := {| hc_Command := hc_Command e; hc_Interval := hc_Interval e;
                    hc_Retries := hc_Retries e;
                    hc_StartPeriod := hc_StartPeriod e;
                    hc_Timeout := v |} |}.

Definition set_StartPeriod (v : option Z) (h : HealthCheck) : HealthCheck :=
  let e := embedded h in
  {| embedded := {| hc_Command := hc_Command e; hc_Interval := hc_Interval e;
                    hc_Retries := hc_Retries e;
                    hc_StartPeriod := v;
                    hc_Timeout := hc_Timeout e |} |}.

Definition set_Interval (v : option Z) (h : HealthCheck) : HealthCheck :=
  let e := embedded h in
  {| embedded := {| hc_Command := hc_Command e; hc_Interval := v;
                    hc_Retries := hc_Retries e;
                    hc_StartPeriod := hc_StartPeriod e;
                    hc_Timeout := hc_Timeout e |} |}.

(** [HealthCheck{}]. *)
Definition empty_HealthCheck : HealthCheck :=
  {| embedded := {| hc_Command := []; hc_Interval := None; hc_Retries := None;
                    hc_StartPeriod := None; hc_Timeout := None |} |}.

(** Modelled from the spec: [adapter.ConvertToTimeInSeconds] is declared in
    the [adapter] package, which is not among the sources; a duration
    (nanoseconds) is turned into its whole seconds, a nil duration stays
    nil. *)
Definition ConvertToTimeInSeconds (d : option Z) : option Z :=
  match d with
  | None => None
  | Some ns => Some (Z.quot ns 1000000000)
  end.

(** [parseHealthCheckCommand] *)
Definition parseHealthCheckCommand (command : list string) (healthCheck : HealthCheck)
  : HealthCheck :=
  match command with
  | [c0] => SetCommand (aws_StringSlice ["CMD-SHELL"; c0]) healthCheck
  | _ => SetCommand (aws_StringSlice command) healthCheck
  end.

Definition time_field_error (field : string) : error :=
  "Could not parse " ++ field ++ " either as an integer or a duration (ex: 1m30s)".

Definition conflict_error : error :=
  "healthcheck.test and healthcheck.command can not both be specified".

Section HealthCheckParsing.

(** [time.ParseDuration] (nanoseconds) and [strconv.ParseInt] in base 10
    and 64 bits; [None] is a non-nil error. *)
Variable time_ParseDuration : string -> option Z.
Variable strconv_ParseInt : string -> option Z.

(** [parseHealthCheckTimeField] *)
Definition parseHealthCheckTimeField (field : string) : option Z * option error :=
  if negb (String.eqb field "") then
    match time_ParseDuration field with
    | Some duration => (ConvertToTimeInSeconds (Some duration), None)
    | None =>
        match strconv_ParseInt field with
        | Some val => (Some val, None)
        | None => (None, Some (time_field_error field))
        end
    end
  else (None, None).

(** [HealthCheck.UnmarshalYAML], on the receiver [h]: the new value of the
    receiver and the error. [*h] is assigned on the last line only. *)
Definition UnmarshalYAML (h : HealthCheck)
    (unmarshal : healthCheckFormat -> healthCheckFormat * option error)
  : HealthCheck * option error :=
  let healthCheck := empty_HealthCheck in
  let rawHealthCheck :=
    {| Test := []; Command := []; Timeout := ""; Interval := "";
       Retries := 3; StartPeriod := "" |} in
  match unmarshal rawHealthCheck with
  | (_, Some err) => (h, Some err)
  | (rawHealthCheck, None) =>
      if (0 <? length (Command rawHealthCheck))%nat
         && (0 <? length (Test rawHealthCheck))%nat
      then (h, Some conflict_error)
      else
        let healthCheck :=
          if (0 <? length (Command rawHealthCheck))%nat
          then parseHealthCheckCommand (Command rawHealthCheck) healthCheck
          else healthCheck in
        let healthCheck :=
          if (0 <? length (Test rawHealthCheck))%nat
          then parseHealthCheckCommand (Test rawHealthCheck) healthCheck
          else healthCheck in
        let healthCheck := SetRetries (Retries rawHealthCheck) healthCheck in
        match parseHealthCheckTimeField (Timeout rawHealthCheck) with
        | (_, Some err) => (h, Some err)
        | (timeout, None) =>
            let healthCheck := set_Timeout timeout healthCheck in
            match parseHealthCheckTimeField (StartPeriod rawHealthCheck) with
            | (_, Some err) => (h, Some err)
            | (startPeriod, None) =>
                let healthCheck := set_StartPeriod startPeriod healthCheck in
                match parseHealthCheckTimeField (Interval rawHealthCheck) with
                | (_, Some err) => (h, Some err)
                | (interval, None) =>
                    let healthCheck := set_Interval interval healthCheck in
                    (healthCheck, None)
                end
            end
        end
  end.

(** Parsing a health check node into a fresh [HealthCheck]. *)
Definition parse_healthcheck (n : healthCheckNode) : HealthCheck * option error :=
  UnmarshalYAML empty_HealthCheck (yaml_unmarshal n).

(** Parsing the value of a [healthcheck] key, accepted by the decoder or not,
    into a fresh [HealthCheck]. *)
Definition parse_healthcheck_yaml (y : healthcheck_yaml) : HealthCheck * option error :=
  UnmarshalYAML empty_HealthCheck (unmarshal_healthcheck y).

End HealthCheckParsing.

(** [ConvertToECSNetworkConfiguration] *)
Definition ConvertToECSNetworkConfiguration (ecsParams : option ECSParams)
  : option ecs_NetworkConfiguration * option error :=
  match ecsParams with
  | None => (None, None)
  | Some ecsParams =>
      let networkMode := NetworkMode (TaskDefinition ecsParams) in
      if negb (String.eqb networkMode "awsvpc") then (None, None)
      else
        let awsvpcConfig :=
          nc_AwsVpcConfiguration (rp_NetworkConfiguration (ecs_RunParams ecsParams)) in
        let subnets := Subnets awsvpcConfig in
        if (length subnets <? 1)%nat then
          (None, Some "at least one subnet is required in the network configuration")
        else
          let securityGroups := SecurityGroups awsvpcConfig in
          let assignPublicIp : string := vpc_AssignPublicIp awsvpcConfig in
          let ecsSubnets := map aws_String subnets in
          let ecsSecurityGroups := map aws_String securityGroups in
          let ecsAwsVpcConfig :=
            {| ecs_AssignPublicIp :=
                 if negb (String.eqb assignPublicIp "")
                 then aws_String assignPublicIp else None;
               ecs_SecurityGroups := ecsSecurityGroups;
               ecs_Subnets := ecsSubnets |} in
          (Some {| ecs_AwsvpcConfiguration := Some ecsAwsVpcConfig |}, None)
  end.

(** *** The files the reader sees *)

(** A path of the file system holds a file whose bytes can be read, or
    something [ioutil.ReadFile] fails on (a directory, a file without read
    permission). Paths are the ones the program uses, relative to the
    working directory. *)
Inductive file : Type :=
| Readable (bytes : string)
| Unreadable (err : error).

(** [os.Stat] reports no error exactly for a path that exists. *)
Definition os_Stat_ok (fs : gmap string file) (path : string) : bool :=
  match fs !! path with Some _ => true | None => false end.

Definition ioutil_ReadFile (fs : gmap string file) (path : string)
  : string * option error :=
  match fs !! path with
  | Some (Readable bytes) => (bytes, None)
  | Some (Unreadable err) => ("", Some err)
  | None => ("", Some ("open " ++ path ++ ": no such file or directory"))
  end.

Section ReadECSParams.

(** [os.ExpandEnv] over the environment of the process, and
    [yaml.Unmarshal] into a [**ECSParams]: the pointer after decoding and
    the error. *)
Variable os_ExpandEnv : string -> string.
Variable yaml_Unmarshal : string -> option ECSParams -> option ECSParams * option error.

Definition zero_ECSParams : ECSParams :=
  {| Version := "";
     TaskDefinition :=
       {| NetworkMode := ""; TaskRoleArn := ""; ContainerDefinitions := ∅;
          ExecutionRole := "";
          td_TaskSize := {| ts_Cpu := ""; ts_Memory := "" |} |};
     ecs_RunParams :=
       {| rp_NetworkConfiguration :=
            {| nc_AwsVpcConfiguration :=
                 {| Subnets := []; SecurityGroups := [];
                    vpc_AssignPublicIp := "" |} |} |} |}.

(** [errors.Wrapf(err, format, args...)]: the message, a colon, the
    cause. *)
Definition errors_Wrapf (err : error) (msg : string) : error :=
  msg ++ ": " ++ err.

(** [ReadECSParams] *)
Definition ReadECSParams (fs : gmap string file) (filename : string)
  : option ECSParams * option error :=
  let resolved :=
    if String.eqb filename "" then
      let defaultFilename := "ecs-params.yml" in
      if os_Stat_ok fs defaultFilename then Some defaultFilename else None
    else Some filename in
  match resolved with
  | None => (None, None)
  | Some filename =>
      match ioutil_ReadFile fs filename with
      | (_, Some err) =>
          (None, Some (errors_Wrapf err ("Error reading file '" ++ filename ++ "'")))
      | (ecsParamsData, None) =>
          let ecsParamsData := os_ExpandEnv ecsParamsData in
          match yaml_Unmarshal ecsParamsData (Some zero_ECSParams) with
          | (_, Some err) =>
              (None,
               Some (errors_Wrapf err
                       ("Error unmarshalling yaml data from ECS params file: "
                          ++ filename)))
          | (ecsParams, None) => (ecsParams, None)
          end
      end
  end.

End ReadECSParams.

(** *** The other health check formats *)

(** [healthCheckECSFormat] *)
Record healthCheckECSFormat : Type := mk_healthCheckECSFormat {
  ecsf_Command : list (option string);
  ecsf_Timeout : option Z;
  ecsf_Interval : option Z;
  ecsf_Retries : option Z;
  ecsf_StartPeriod : option Z
}.

(** [healthCheckWithTestAsString] *)
Record healthCheckWithTestAsString : Type := mk_healthCheckWithTestAsString {
  str_Test : string
}.

Definition set_Retries (v : option Z) (h : HealthCheck) : HealthCheck :=
  let e := embedded h in
  {| embedded := {| hc_Command := hc_Command e; hc_Interval := hc_Interval e;
                    hc_Retries := v;
                    hc_StartPeriod := hc_StartPeriod e;
                    hc_Timeout := hc_Timeout e |} |}.

(** A pointer that is neither nil nor at zero: [p != nil && *p != 0]. *)
Definition set_and_nonzero (p : option Z) : bool :=
  match p with
  | Some v => negb (v =? 0)
  | None => false
  end.

(** [(h *healthCheckECSFormat) toHealthCheck]: the fields are assigned in the
    order command, interval, retries, start period, timeout. *)
Definition healthCheckECSFormat_toHealthCheck (h : healthCheckECSFormat)
    (healthCheck : HealthCheck) : HealthCheck :=
  let healthCheck :=
    if (0 <? length (ecsf_Command h))%nat
    then SetCommand (ecsf_Command h) healthCheck else healthCheck in
  let healthCheck :=
    if set_and_nonzero (ecsf_Interval h)
    then set_Interval (ecsf_Interval h) healthCheck else healthCheck in
  let healthCheck :=
    if set_and_nonzero (ecsf_Retries h)
    then set_Retries (ecsf_Retries h) healthCheck else healthCheck in
  let healthCheck :=
    if set_and_nonzero (ecsf_StartPeriod h)
    then set_StartPeriod (ecsf_StartPeriod h) healthCheck else healthCheck in
  if set_and_nonzero (ecsf_Timeout h)
  then set_Timeout (ecsf_Timeout h) healthCheck else healthCheck.

(** [(h *healthCheckWithTestAsString) toHealthCheck] *)
Definition healthCheckWithTestAsString_toHealthCheck (h : healthCheckWithTestAsString)
    (healthCheck : HealthCheck) : HealthCheck :=
  if negb (String.eqb (str_Test h) "") then
    let command := ["CMD-SHELL"; str_Test h] in
    SetCommand (aws_StringSlice command) healthCheck
  else healthCheck.

(** *** The container definition *)

(** [ContainerDef.UnmarshalYAML], on the receiver [cd]: [raw] starts with
    [Essential] at true and the other fields at zero. *)
Definition ContainerDef_UnmarshalYAML (cd : ContainerDef)
    (unmarshal : ContainerDef -> ContainerDef * option error)
  : ContainerDef * option error :=
  let raw :=
    {| Essential := true; Cpu := 0; Memory := 0; MemoryReservation := 0;
       cd_HealthCheck := empty_HealthCheck |} in
  match unmarshal raw with
  | (_, Some err) => (cd, Some err)
  | (raw, None) => (raw, None)
  end.

(** The YAML node of a container definition, when the decoder accepts it: a
    key is absent, or null (the zero value is assigned), or holds a value of
    the shape the schema asks for. The numbers are of [int64]; the memory
    fields are taken after [libYaml.MemStringorInt] has turned them into a
    number. Null and absent differ for [essential] only, which starts at
    true. *)
Inductive essential_node : Type :=
| EssentialAbsent
| EssentialNull
| EssentialValue (b : bool).

Record containerDefNode : Type := mk_containerDefNode {
  node_essential : essential_node;
  node_cpu_shares : option Go.int64;
  node_mem_limit : option Go.int64;
  node_mem_reservation : option Go.int64;
  node_healthcheck : option healthCheckNode
}.

Definition essential_decode (n : essential_node) (old : bool) : bool :=
  match n with
  | EssentialAbsent => old
  | EssentialNull => false
  | EssentialValue b => b
  end.

(** The value of a container definition: one the decoder accepts, or one it
    refuses somewhere (a number outside of [int64], a memory string that
    [MemStringorInt] cannot read, a value of the wrong shape, also inside the
    health check), with the error it returns. *)
Inductive container_yaml : Type :=
| ContainerAccepted (n : containerDefNode)
| ContainerRejected (err : error).

Section ContainerDefParsing.

Variable time_ParseDuration : string -> option Z.
Variable strconv_ParseInt : string -> option Z.

(** The [unmarshal] callback yaml.v2 passes to [ContainerDef.UnmarshalYAML],
    for a node it accepts: the fields whose keys are present are filled; the
    health check is decoded by [HealthCheck.UnmarshalYAML], whose error is the
    error of the callback. What the callback leaves in [raw] with an error is
    not looked at. *)
Definition yaml_unmarshal_ContainerDef (n : containerDefNode) (raw : ContainerDef)
  : ContainerDef * option error :=
  let '(healthCheck, err) :=
    match node_healthcheck n with
    | Some hn =>
        UnmarshalYAML time_ParseDuration strconv_ParseInt (cd_HealthCheck raw)
          (yaml_unmarshal hn)
    | None => (cd_HealthCheck raw, None)
    end in
  ({| Essential := essential_decode (node_essential n) (Essential raw);
      Cpu := from_option Go.int64_val (Cpu raw) (node_cpu_shares n);
      Memory := from_option Go.int64_val (Memory raw) (node_mem_limit n);
      MemoryReservation :=
        from_option Go.int64_val (MemoryReservation raw) (node_mem_reservation n);
      cd_HealthCheck := healthCheck |},
   err).

(** The [unmarshal] callback for a value of a container definition. *)
Definition unmarshal_container (y : container_yaml) (raw : ContainerDef)
  : ContainerDef * option error :=
  match y with
  | ContainerAccepted n => yaml_unmarshal_ContainerDef n raw
  | ContainerRejected err => (raw, Some err)
  end.

(** Parsing a container definition into a receiver. *)
Definition parse_ContainerDef (cd : ContainerDef) (y : container_yaml)
  : ContainerDef * option error :=
  ContainerDef_UnmarshalYAML cd (unmarshal_container y).

End ContainerDefParsing.

End Utils.

(** ** Package [config]: the YAML read/writer

    Calls to [logrus] only print and are left out. *)

Module Config.

(** *** Documents

    What [yaml.Unmarshal] puts into an [interface{}]. A Go
    [map[interface{}]interface{}] is a finite map; the documents are keyed
    by strings. Indexing a map at a missing key gives the nil interface,
    [VNil]. *)
#[warnings="-register-all"] Inductive value : Type :=
| VNil
| VString (s : string)
| VInt (z : Z)
| VBool (b : bool)
| VSeq (l : list value)
| VMap (m : gmap string value).

(** [m[k]] *)
Definition index (m : gmap string value) (k : string) : value :=
  default VNil (m !! k).

(** [v.(string)] in its two-result form: the zero value and [false] when the
    assertion fails. *)
Definition assert_string (v : value) : string * bool :=
  match v with
  | VString s => (s, true)
  | _ => ("", false)
  end.

(** [v.(map[interface{}]interface{})] in its two-result form; a nil map
    reads as the empty map. *)
Definition assert_map (v : value) : gmap string value * bool :=
  match v with
  | VMap m => (m, true)
  | _ => (∅, false)
  end.

(** A call either returns or panics (a failed type assertion in its
    one-result form, an assignment to an entry of a nil map). *)
Inductive run (A : Type) : Type :=
| Returns (a : A)
| Panics.
Arguments Returns {A} a.
Arguments Panics {A}.

(** *** Declarations of the package that the read/writer uses *)

(** Modelled from the spec: the keys of the configuration entries are
    constants of the package declared outside of the sources; they are the
    entry fields of the cluster and profile documents, with the names of the
    sample configuration in the comment on [YamlReadWriter]. *)
Definition clusterKey : string := "cluster".
Definition regionKey : string := "region".
Definition awsAccessKey : string := "aws_access_key_id".
Definition awsSecretKey : string := "aws_secret_access_key".
Definition composeProjectNamePrefixKey : string := "compose-project-name-prefix".
Definition composeServiceNamePrefixKey : string := "compose-service-name-prefix".
Definition cfnStackNamePrefixKey : string := "cfn-stack-name-prefix".

Definition clusterConfigFileName : string := "config.yml".
Definition profileConfigFileName : string := "profile.yml".
Definition configFileMode : Z := 384.   (* 0600 *)

(** Modelled from the spec: [CliConfig] (with its embedded [SectionKeys]) is
    declared outside of the sources; it is the resolved configuration, with
    the fields the read/writer and the configure command assign. *)
Record CliConfig : Type := mk_CliConfig {
  Cluster : string;
  AwsProfile : string;
  Region : string;
  AwsAccessKey : string;
  AwsSecretKey : string;
  ComposeProjectNamePrefix : string;
  ComposeServiceNamePrefix : string;
  CFNStackNamePrefix : string
}.

(** [&CliConfig{SectionKeys: new(SectionKeys)}] *)
Definition new_CliConfig : CliConfig :=
  {| Cluster := ""; AwsProfile := ""; Region := ""; AwsAccessKey := "";
     AwsSecretKey := ""; ComposeProjectNamePrefix := "";
     ComposeServiceNamePrefix := ""; CFNStackNamePrefix := "" |}.

Definition set_AwsAccessKey (v : string) (c : CliConfig) : CliConfig :=
  {| Cluster := Cluster c; AwsProfile := AwsProfile c; Region := Region c;
     AwsAccessKey := v; AwsSecretKey := AwsSecretKey c;
     ComposeProjectNamePrefix := ComposeProjectNamePrefix c;
     ComposeServiceNamePrefix := ComposeServiceNamePrefix c;
     CFNStackNamePrefix := CFNStackNamePrefix c |}.

Definition set_AwsSecretKey (v : string) (c : CliConfig) : CliConfig :=
  {| Cluster := Cluster c; AwsProfile := AwsProfile c; Region := Region c;
     AwsAccessKey := AwsAccessKey c; AwsSecretKey := v;
     ComposeProjectNamePrefix := ComposeProjectNamePrefix c;
     ComposeServiceNamePrefix := ComposeServiceNamePrefix c;
     CFNStackNamePrefix := CFNStackNamePrefix c |}.

Definition set_Cluster (v : string) (c : CliConfig) : CliConfig :=
  {| Cluster := v; AwsProfile := AwsProfile c; Region := Region c;
     AwsAccessKey := AwsAccessKey c; AwsSecretKey := AwsSecretKey c;
     ComposeProjectNamePrefix := ComposeProjectNamePrefix c;
     ComposeServiceNamePrefix := ComposeServiceNamePrefix c;
     CFNStackNamePrefix := CFNStackNamePrefix c |}.

Definition set_Region (v : string) (c : CliConfig) : CliConfig :=
  {| Cluster := Cluster c; AwsProfile := AwsProfile c; Region := v;
     AwsAccessKey := AwsAccessKey c; AwsSecretKey := AwsSecretKey c;
     ComposeProjectNamePrefix := ComposeProjectNamePrefix c;
     ComposeServiceNamePrefix := ComposeServiceNamePrefix c;
     CFNStackNamePrefix := CFNStackNamePrefix c |}.

Definition set_ComposeProjectNamePrefix (v : string) (c : CliConfig) : CliConfig :=
  {| Cluster := Cluster c; AwsProfile := AwsProfile c; Region := Region c;
     AwsAccessKey := AwsAccessKey c; AwsSecretKey := AwsSecretKey c;
     ComposeProjectNamePrefix := v;
     ComposeServiceNamePrefix := ComposeServiceNamePrefix c;
     CFNStackNamePrefix := CFNStackNamePrefix c |}.

Definition set_ComposeServiceNamePrefix (v : string) (c : CliConfig) : CliConfig :=
  {| Cluster := Cluster c; AwsProfile := AwsProfile c; Region := Region c;
     AwsAccessKey := AwsAccessKey c; AwsSecretKey := AwsSecretKey c;
     ComposeProjectNamePrefix := ComposeProjectNamePrefix c;
     ComposeServiceNamePrefix := v;
     CFNStackNamePrefix := CFNStackNamePrefix c |}.

Definition set_CFNStackNamePrefix (v : string) (c : CliConfig) : CliConfig :=
  {| Cluster := Cluster c; AwsProfile := AwsProfile c; Region := Region c;
     AwsAccessKey := AwsAccessKey c; AwsSecretKey := AwsSecretKey c;
     ComposeProjectNamePrefix := ComposeProjectNamePrefix c;
     ComposeServiceNamePrefix := ComposeServiceNamePrefix c;
     CFNStackNamePrefix := v |}.

(** Modelled from the spec: [Destination] is declared outside of the
    sources; it is the directory of the configuration files and the mode the
    directory is created with. *)
Record Destination : Type := mk_Destination {
  Path : string;
  Mode : Z
}.

Record YamlReadWriter : Type := mk_YamlReadWriter {
  destination : Destination
}.

Record ProfileConfiguration : Type := mk_ProfileConfiguration {
  profileName : string;
  pc_awsAccessKey : string;
  pc_awsSecretKey : string
}.

Record ClusterConfiguration : Type := mk_ClusterConfiguration {
  clusterName : string;
  cc_cluster : string;
  cc_region : string
}.

(** *** The file system

    The bytes of a file are what [yaml.Unmarshal] makes of them: a mapping
    (the empty one for bytes without a document, as those of an empty file),
    the null document, or an error. A file can exist and refuse to be read.
    [os.MkdirAll], [os.Chmod] and the two steps of [ioutil.WriteFile] succeed
    or fail as the world says; a file is created with the bits of its mode
    that the umask of the process leaves. *)
Inductive bytes : Type :=
| Yaml (doc : gmap string value)
| YamlNull
| NotYaml (err : error).

Record file : Type := mk_file {
  perm : Z;
  read_error : option error;
  data : bytes
}.

Record World : Type := mk_World {
  files : gmap string file;
  umask : Z;
  mkdir_error : string -> option error;
  chmod_error : string -> option error;
  open_error : string -> option error;    (* opening a file for writing *)
  write_error : string -> option error    (* writing into the opened file *)
}.

Definition with_files (fs : gmap string file) (w : World) : World :=
  {| files := fs; umask := umask w; mkdir_error := mkdir_error w;
     chmod_error := chmod_error w; open_error := open_error w;
     write_error := write_error w |}.

(** [filepath.Join], for a clean directory path. *)
Definition filepath_Join (dir name : string) : string := dir ++ "/" ++ name.

Definition os_Stat_ok (w : World) (path : string) : bool :=
  match files w !! path with Some _ => true | None => false end.

(** [ioutil.ReadFile]: on an error the data are nil, which read as the empty
    document. *)
Definition ioutil_ReadFile (w : World) (path : string) : bytes * option error :=
  match files w !! path with
  | None => (Yaml ∅, Some ("open " ++ path ++ ": no such file or directory"))
  | Some f =>
      match read_error f with
      | Some err => (Yaml ∅, Some err)
      | None => (data f, None)
      end
  end.

(** [yaml.Unmarshal(dat, &m)]: the keys of the document are written into
    [m]; the null document sets [m] to the nil map, [None]. *)
Definition yaml_Unmarshal (dat : bytes) (m : gmap string value)
  : option (gmap string value) * option error :=
  match dat with
  | Yaml doc => (Some (doc ∪ m), None)
  | YamlNull => (None, None)
  | NotYaml err => (Some m, Some err)
  end.

(** Reading from a map: the nil map reads as the empty map. *)
Definition read_map (m : option (gmap string value)) : gmap string value :=
  default ∅ m.

(** [os.Chmod(path, mode)] *)
Definition os_Chmod (w : World) (path : string) (mode : Z) : World * option error :=
  match chmod_error w path with
  | Some err => (w, Some err)
  | None =>
      match files w !! path with
      | None => (w, Some ("chmod " ++ path ++ ": no such file or directory"))
      | Some f =>
          (with_files (<[path := {| perm := mode; read_error := read_error f;
                                    data := data f |}]> (files w)) w, None)
      end
  end.

(** [ioutil.WriteFile(path, data, perm)]. The file is opened for writing,
    created with [perm] less the umask if it does not exist and truncated
    otherwise; then the data are written. When the open fails the file is as
    it was; when the write fails the file is left empty (a write that fails
    is taken to have written nothing). *)
Definition ioutil_WriteFile (w : World) (path : string) (dat : bytes) (mode : Z)
  : World * option error :=
  match open_error w path with
  | Some err => (w, Some err)
  | None =>
      let opened :=
        match files w !! path with
        | Some old =>
            {| perm := perm old; read_error := read_error old; data := Yaml ∅ |}
        | None =>
            {| perm := Z.ldiff mode (umask w); read_error := None; data := Yaml ∅ |}
        end in
      match write_error w path with
      | Some err => (with_files (<[path := opened]> (files w)) w, Some err)
      | None =>
          (with_files
             (<[path := {| perm := perm opened; read_error := read_error opened;
                           data := dat |}]> (files w)) w,
           None)
      end
  end.

Definition profileConfigPath (dest : Destination) : string :=
  filepath_Join (Path dest) profileConfigFileName.

Definition clusterConfigPath (dest : Destination) : string :=
  filepath_Join (Path dest) clusterConfigFileName.

Definition format_error_profile : error :=
  "Format issue with profile config file; expected key not found.".

Definition format_error_cluster : error :=
  "Format issue with cluster config file; expected key not found.".

Definition format_error_profile_cluster : error :=
  "Format issue with profile cluster file; expected key not found.".

(** *** Resolution *)

(** [processProfileMap]. [configMap] and [cliConfig] are shared with the
    caller: what is assigned before an error is returned stays assigned. The
    assertion on [profileMap["ecs_profiles"]] has one result and panics when
    it fails. *)
Definition processProfileMap (profileKey : string) (profileMap : gmap string value)
    (configMap : gmap string value) (cliConfig : CliConfig)
  : run (gmap string value * CliConfig * option error) :=
  let '(profileKey, ok) :=
    if String.eqb profileKey "" then assert_string (index profileMap "default")
    else (profileKey, true) in
  if negb ok then Returns (configMap, cliConfig, Some format_error_profile)
  else
    match index profileMap "ecs_profiles" with
    | VMap profiles =>
        let '(profile, ok) := assert_map (index profiles profileKey) in
        if negb ok then Returns (configMap, cliConfig, Some format_error_profile)
        else
          let configMap := <[awsAccessKey := index profile awsAccessKey]> configMap in
          let configMap := <[awsSecretKey := index profile awsSecretKey]> configMap in
          let '(v, ok) := assert_string (index profile awsAccessKey) in
          let cliConfig := set_AwsAccessKey v cliConfig in
          if negb ok then Returns (configMap, cliConfig, Some format_error_profile)
          else
            let '(v, ok) := assert_string (index profile awsSecretKey) in
            let cliConfig := set_AwsSecretKey v cliConfig in
            if negb ok then Returns (configMap, cliConfig, Some format_error_profile)
            else Returns (configMap, cliConfig, None)
    | _ => Panics
    end.

(** One optional prefix of [processClusterMap]: copied when the key is
    present; the result is the state and whether the assertion held. *)
Definition copy_prefix (key : string) (set : string -> CliConfig -> CliConfig)
    (cluster : gmap string value) (configMap : gmap string value)
    (cliConfig : CliConfig)
  : gmap string value * CliConfig * bool :=
  match cluster !! key with
  | Some _ =>
      let configMap := <[key := index cluster key]> configMap in
      let '(v, ok) := assert_string (index cluster key) in
      (configMap, set v cliConfig, ok)
  | None => (configMap, cliConfig, true)
  end.

(** [processClusterMap] *)
Definition processClusterMap (clusterConfigKey : string) (clusterMap : gmap string value)
    (configMap : gmap string value) (cliConfig : CliConfig)
  : run (gmap string value * CliConfig * option error) :=
  let '(clusterConfigKey, ok) :=
    if String.eqb clusterConfigKey "" then assert_string (index clusterMap "default")
    else (clusterConfigKey, true) in
  if negb ok then Returns (configMap, cliConfig, Some format_error_cluster)
  else
    match index clusterMap "clusters" with
    | VMap clusters =>
        let '(cluster, ok) := assert_map (index clusters clusterConfigKey) in
        if negb ok then Returns (configMap, cliConfig, Some format_error_cluster)
        else
          let configMap := <[clusterKey := index cluster clusterKey]> configMap in
          let configMap := <[regionKey := index cluster regionKey]> configMap in
          let '(v, ok) := assert_string (index cluster clusterKey) in
          let cliConfig := set_Cluster v cliConfig in
          if negb ok then Returns (configMap, cliConfig, Some format_error_cluster)
          else
            let '(v, ok) := assert_string (index cluster regionKey) in
            let cliConfig := set_Region v cliConfig in
            if negb ok then Returns (configMap, cliConfig, Some format_error_cluster)
            else
              let '(configMap, cliConfig, ok) :=
                copy_prefix composeProjectNamePrefixKey set_ComposeProjectNamePrefix
                  cluster configMap cliConfig in
              if negb ok then Returns (configMap, cliConfig, Some format_error_cluster)
              else
                let '(configMap, cliConfig, ok) :=
                  copy_prefix composeServiceNamePrefixKey set_ComposeServiceNamePrefix
                    cluster configMap cliConfig in
                if negb ok then Returns (configMap, cliConfig, Some format_error_cluster)
                else
                  let '(configMap, cliConfig, ok) :=
                    copy_prefix cfnStackNamePrefixKey set_CFNStackNamePrefix
                      cluster configMap cliConfig in
                  if negb ok
                  then Returns (configMap, cliConfig, Some format_error_profile_cluster)
                  else Returns (configMap, cliConfig, None)
    | _ => Panics
    end.

(** Modelled from the spec: the Legacy Format Reader. The ini read/writer
    ([NewIniReadWriter], its [GetConfig]) and the name of the ini file are
    declared outside of the sources; resolution delegates to it and returns
    its result unchanged. *)
Record LegacyReader : Type := mk_LegacyReader {
  iniConfigFileName : string;
  IniReadWriter : Type;
  NewIniReadWriter : Destination -> World -> IniReadWriter * option error;
  ini_GetConfig :
    IniReadWriter -> World ->
    option CliConfig * option (gmap string value) * option error
}.

Section ReadWriter.

Variable legacy : LegacyReader.

(** [yaml.Marshal] of a document, as the bytes it gives (what
    [yaml.Unmarshal] makes of them). Reading back what was written need not
    give the document: a key ["<<"] is written plain and read as a merge
    key. *)
Variable yaml_Marshal : gmap string value -> bytes.

Definition iniConfigPath (dest : Destination) : string :=
  filepath_Join (Path dest) (iniConfigFileName legacy).

(** [GetConfigs]. The errors [processProfileMap] and [processClusterMap]
    return are not looked at. *)
Definition GetConfigs (rdwr : YamlReadWriter) (clusterConfig profileConfig : string)
    (w : World)
  : run (option CliConfig * option (gmap string value) * option error) :=
  let cliConfig := new_CliConfig in
  let configMap : gmap string value := ∅ in
  let iniPath := iniConfigPath (destination rdwr) in
  let profilePath := profileConfigPath (destination rdwr) in
  let clusterPath := clusterConfigPath (destination rdwr) in
  let err_nil := os_Stat_ok w iniPath in
  let yamlErr_nil := os_Stat_ok w clusterPath in
  if err_nil && negb yamlErr_nil then
    match NewIniReadWriter legacy (destination rdwr) w with
    | (_, Some err) => Returns (None, None, Some err)
    | (iniReadWriter, None) =>
        match ini_GetConfig legacy iniReadWriter w with
        | (_, _, Some err) => Returns (None, None, Some err)
        | (cliConfig, configMap, None) => Returns (cliConfig, configMap, None)
        end
    end
  else
    let clusterMap : gmap string value := ∅ in
    let profileMap : gmap string value := ∅ in
    match ioutil_ReadFile w clusterPath with
    | (_, Some err) => Returns (None, None, Some err)
    | (dat, None) =>
        match yaml_Unmarshal dat clusterMap with
        | (_, Some err) => Returns (None, None, Some err)
        | (clusterMap, None) =>
            match ioutil_ReadFile w profilePath with
            | (_, Some err) => Returns (None, None, Some err)
            | (dat, None) =>
                match yaml_Unmarshal dat profileMap with
                | (_, Some err) => Returns (None, None, Some err)
                | (profileMap, None) =>
                    match processProfileMap profileConfig (read_map profileMap)
                            configMap cliConfig with
                    | Panics => Panics
                    | Returns (configMap, cliConfig, _) =>
                        match processClusterMap clusterConfig (read_map clusterMap)
                                configMap cliConfig with
                        | Panics => Panics
                        | Returns (configMap, cliConfig, _) =>
                            Returns (Some cliConfig, Some configMap, None)
                        end
                    end
                end
            end
        end
    end.

(** *** The write path *)

(** [saveToFile]. The error of [yaml.Marshal] is overwritten by the one of
    [ioutil.WriteFile]. *)
Definition saveToFile (rdwr : YamlReadWriter) (path : string)
    (config : gmap string value) (w : World) : World * option error :=
  match mkdir_error w (Path (destination rdwr)) with
  | Some err => (w, Some err)
  | None =>
      let '(w, err) :=
        if os_Stat_ok w path then os_Chmod w path configFileMode else (w, None) in
      match err with
      | Some err => (w, Some err)
      | None =>
          let dat := yaml_Marshal config in
          match ioutil_WriteFile w path dat configFileMode with
          | (w, Some err) => (w, Some err)
          | (w, None) => (w, None)
          end
      end
  end.

(** [SetDefaultProfile]. The result of [saveToFile] is not looked at. After a
    null document the map is nil, and the assignment to its entry panics. *)
Definition SetDefaultProfile (rdwr : YamlReadWriter) (profile : string) (w : World)
  : run (World * option error) :=
  let profileMap : gmap string value := ∅ in
  let profilePath := profileConfigPath (destination rdwr) in
  match ioutil_ReadFile w profilePath with
  | (_, Some err) => Returns (w, Some err)
  | (dat, None) =>
      match yaml_Unmarshal dat profileMap with
      | (_, Some err) => Returns (w, Some err)
      | (None, None) => Panics
      | (Some profileMap, None) =>
          let profileMap := <["default" := VString profile]> profileMap in
          let '(w, _) := saveToFile rdwr profilePath profileMap w in
          Returns (w, None)
      end
  end.

(** [SetDefaultCluster] *)
Definition SetDefaultCluster (rdwr : YamlReadWriter) (cluster : string) (w : World)
  : run (World * option error) :=
  let clusterMap : gmap string value := ∅ in
  let clusterPath := clusterConfigPath (destination rdwr) in
  match ioutil_ReadFile w clusterPath with
  | (_, Some err) => Returns (w, Some err)
  | (dat, None) =>
      match yaml_Unmarshal dat clusterMap with
      | (_, Some err) => Returns (w, Some err)
      | (None, None) => Panics
      | (Some clusterMap, None) =>
          let clusterMap := <["default" := VString cluster]> clusterMap in
          let '(w, _) := saveToFile rdwr clusterPath clusterMap w in
          Returns (w, None)
      end
  end.

(** The document [SaveProfile] hands to [saveToFile]. [profiles] is the map
    stored under ["ecs_profiles"], not a copy of it: the entry assigned
    into [profiles] is seen through [profileMap]. *)
Definition SaveProfile_document (profile : ProfileConfiguration)
    (profileMap profiles : gmap string value) : gmap string value :=
  let profileMap :=
    if (size profiles =? 0)%nat
    then <["default" := VString (profileName profile)]> profileMap
    else profileMap in
  let newProfile : gmap string value := ∅ in
  let newProfile := <[awsAccessKey := VString (pc_awsAccessKey profile)]> newProfile in
  let newProfile := <[awsSecretKey := VString (pc_awsSecretKey profile)]> newProfile in
  let profiles := <[profileName profile := VMap newProfile]> profiles in
  <["ecs_profiles" := VMap profiles]> profileMap.

(** [SaveProfile]. The result of [saveToFile] is not looked at. *)
Definition SaveProfile (rdwr : YamlReadWriter) (profile : ProfileConfiguration)
    (w : World) : World * option error :=
  let profileMap : gmap string value := ∅ in
  let profilePath := profileConfigPath (destination rdwr) in
  match ioutil_ReadFile w profilePath with
  | (_, Some err) => (w, Some err)
  | (dat, None) =>
      match yaml_Unmarshal dat profileMap with
      | (_, Some err) => (w, Some err)
      | (profileMap, None) =>
          match assert_map (index (read_map profileMap) "ecs_profiles") with
          | (_, false) => (w, Some format_error_profile)
          | (profiles, true) =>
              let profileMap :=
                SaveProfile_document profile (read_map profileMap) profiles in
              let '(w, _) := saveToFile rdwr profilePath profileMap w in
              (w, None)
          end
      end
  end.

(** The document [SaveCluster] hands to [saveToFile]; [clusters] is the map
    stored under ["clusters"]. *)
Definition SaveCluster_document (cluster : ClusterConfiguration)
    (clusterMap clusters : gmap string value) : gmap string value :=
  let clusterMap :=
    if (size clusters =? 0)%nat
    then <["default" := VString (clusterName cluster)]> clusterMap
    else clusterMap in
  let newCluster : gmap string value := ∅ in
  let newCluster := <[clusterKey := VString (cc_cluster cluster)]> newCluster in
  let newCluster := <[regionKey := VString (cc_region cluster)]> newCluster in
  let clusters := <[clusterName cluster := VMap newCluster]> clusters in
  <["clusters" := VMap clusters]> clusterMap.

(** [SaveCluster] *)
Definition SaveCluster (rdwr : YamlReadWriter) (cluster : ClusterConfiguration)
    (w : World) : World * option error :=
  let clusterMap : gmap string value := ∅ in
  let clusterPath := clusterConfigPath (destination rdwr) in
  match ioutil_ReadFile w clusterPath with
  | (_, Some err) => (w, Some err)
  | (dat, None) =>
      match yaml_Unmarshal dat clusterMap with
      | (_, Some err) => (w, Some err)
      | (clusterMap, None) =>
          match assert_map (index (read_map clusterMap) "clusters") with
          | (_, false) => (w, Some format_error_cluster)
          | (clusters, true) =>
              let clusterMap :=
                SaveCluster_document cluster (read_map clusterMap) clusters in
              let '(w, _) := saveToFile rdwr clusterPath clusterMap w in
              (w, None)
          end
      end
  end.

End ReadWriter.

End Config.

(** ** Package [configure]: the configuration from the command line *)

Module Configure.

(** The names of the flags, constants of the [command] package, which is
    outside of the sources. *)
Record Flags : Type := mk_Flags {
  AccessKeyFlag : string;
  SecretKeyFlag : string;
  RegionFlag : string;
  ProfileFlag : string;
  ClusterFlag : string;
  ComposeProjectNamePrefixFlag : string;
  ComposeServiceNamePrefixFlag : string;
  CFNStackNamePrefixFlag : string
}.

(** A [cli.Context], through [context.String]: the value of a flag, empty when
    the flag is not set. *)
Definition Context : Type := string -> string.

Definition set_AwsProfile (v : string) (c : Config.CliConfig) : Config.CliConfig :=
  {| Config.Cluster := Config.Cluster c; Config.AwsProfile := v;
     Config.Region := Config.Region c;
     Config.AwsAccessKey := Config.AwsAccessKey c;
     Config.AwsSecretKey := Config.AwsSecretKey c;
     Config.ComposeProjectNamePrefix := Config.ComposeProjectNamePrefix c;
     Config.ComposeServiceNamePrefix := Config.ComposeServiceNamePrefix c;
     Config.CFNStackNamePrefix := Config.CFNStackNamePrefix c |}.

Section CreateConfig.

Variable command : Flags.

(** [config.NewCliConfig], declared outside of the sources. *)
Variable NewCliConfig : string -> Config.CliConfig.

(** [createECSConfigFromCli] *)
Definition createECSConfigFromCli (context : Context)
  : option Config.CliConfig * option error :=
  let accessKey := context (AccessKeyFlag command) in
  let secretKey := context (SecretKeyFlag command) in
  let region := context (RegionFlag command) in
  let profile := context (ProfileFlag command) in
  let cluster := context (ClusterFlag command) in
  if String.eqb cluster "" then
    (None, Some ("Missing required argument '" ++ ClusterFlag command ++ "'"))
  else
    let isProfileSpecified := negb (String.eqb profile "") in
    let isAccessKeySpecified :=
      negb (String.eqb accessKey "") || negb (String.eqb secretKey "") in
    if isProfileSpecified && isAccessKeySpecified then
      (None,
       Some "Both AWS Access/Secret Keys and Profile were provided; only one of the two can be specified")
    else
      let ecsConfig := NewCliConfig cluster in
      let ecsConfig := set_AwsProfile profile ecsConfig in
      let ecsConfig := Config.set_AwsAccessKey accessKey ecsConfig in
      let ecsConfig := Config.set_AwsSecretKey secretKey ecsConfig in
      let ecsConfig := Config.set_Region region ecsConfig in
      let ecsConfig :=
        Config.set_ComposeProjectNamePrefix
          (context (ComposeProjectNamePrefixFlag command)) ecsConfig in
      let ecsConfig :=
        Config.set_ComposeServiceNamePrefix
          (context (ComposeServiceNamePrefixFlag command)) ecsConfig in
      let ecsConfig :=
        Config.set_CFNStackNamePrefix
          (context (CFNStackNamePrefixFlag command)) ecsConfig in
      (Some ecsConfig, None).

End CreateConfig.

End Configure.

(** ** Concrete inputs used by the examples *)

Module Samples.

(** The nanoseconds of a fractional part computed exactly, for where a
    concrete function is needed. *)
Definition frac_ns_exact (f : Z) (kept : nat) (unit : Z) : Z :=
  f * unit / 10 ^ Z.of_nat kept.

Definition ParseDuration : string -> option Z := Go.ParseDuration frac_ns_exact.

(** [command: ["echo"]] *)
Definition command_one_element : Utils.healthCheckNode :=
  {| Utils.node_test := Utils.SSAbsent;
     Utils.node_command := Utils.SSSequence ["echo"];
     Utils.node_timeout := None; Utils.node_interval := None;
     Utils.node_retries := Utils.RetriesAbsent; Utils.node_start_period := None |}.

(** [test: ["CMD", "curl", "-f", "http://x"]], [interval: 1m30s],
    [timeout: 45] *)
Definition test_sequence : Utils.healthCheckNode :=
  {| Utils.node_test := Utils.SSSequence ["CMD"; "curl"; "-f"; "http://x"];
     Utils.node_command := Utils.SSAbsent;
     Utils.node_timeout := Some "45"; Utils.node_interval := Some "1m30s";
     Utils.node_retries := Utils.RetriesAbsent; Utils.node_start_period := None |}.

(** [test: "curl -f http://x"] *)
Definition test_string : Utils.healthCheckNode :=
  {| Utils.node_test := Utils.SSString "curl -f http://x";
     Utils.node_command := Utils.SSAbsent;
     Utils.node_timeout := None; Utils.node_interval := None;
     Utils.node_retries := Utils.RetriesAbsent; Utils.node_start_period := None |}.

(** [command: ["a", "b"]], [test: ["c"]] *)
Definition command_and_test : Utils.healthCheckNode :=
  {| Utils.node_test := Utils.SSSequence ["c"];
     Utils.node_command := Utils.SSSequence ["a"; "b"];
     Utils.node_timeout := None; Utils.node_interval := None;
     Utils.node_retries := Utils.RetriesAbsent; Utils.node_start_period := None |}.

Definition zero_int64 : Go.int64 := exist _ 0 I.

Definition hundred_int64 : Go.int64 := exist _ 100 I.

(** [test: ["CMD", "true"]], [retries: 0] *)
Definition retries_zero : Utils.healthCheckNode :=
  {| Utils.node_test := Utils.SSSequence ["CMD"; "true"];
     Utils.node_command := Utils.SSAbsent;
     Utils.node_timeout := None; Utils.node_interval := None;
     Utils.node_retries := Utils.RetriesValue zero_int64; Utils.node_start_period := None |}.

Definition params (mode : string) (subnets groups : list string) (ip : string)
  : Utils.ECSParams :=
  {| Utils.Version := "1";
     Utils.TaskDefinition :=
       {| Utils.NetworkMode := mode; Utils.TaskRoleArn := "";
          Utils.ContainerDefinitions := ∅; Utils.ExecutionRole := "";
          Utils.td_TaskSize := {| Utils.ts_Cpu := ""; Utils.ts_Memory := "" |} |};
     Utils.ecs_RunParams :=
       {| Utils.rp_NetworkConfiguration :=
            {| Utils.nc_AwsVpcConfiguration :=
                 {| Utils.Subnets := subnets; Utils.SecurityGroups := groups;
                    Utils.vpc_AssignPublicIp := ip |} |} |} |}.

(** A decoder that leaves the document as it is; enough where the file is
    never read. *)
Definition decode_nothing (bytes : string) (p : option Utils.ECSParams)
  : option Utils.ECSParams * option error := (p, None).

(** The command [parseHealthCheckCommand] sets: a single element is wrapped
    for the shell, anything else is taken as it is. *)
Definition canonical_command (l : list string) : list (option string) :=
  match l with
  | [e] => [Some "CMD-SHELL"; Some e]
  | _ => map Some l
  end.

(** *** Configuration documents *)

Definition dest : Config.Destination :=
  {| Config.Path := "/home/user/.ecs"; Config.Mode := 448 |}.

Definition rdwr : Config.YamlReadWriter := {| Config.destination := dest |}.

Definition yaml_file (doc : gmap string Config.value) : Config.file :=
  {| Config.perm := 384; Config.read_error := None; Config.data := Config.Yaml doc |}.

Definition entry (fields : list (string * string)) : Config.value :=
  Config.VMap (list_to_map (map (fun kv => (fst kv, Config.VString (snd kv))) fields)).

(** [default: p1], [ecs_profiles: {p1: {aws_access_key_id: AKID}}]: the
    secret key of the entry is missing. *)
Definition profiles_without_secret : gmap string Config.value :=
  <["default" := Config.VString "p1"]>
    (<["ecs_profiles" :=
         Config.VMap (<["p1" := entry [("aws_access_key_id", "AKID")]]> ∅)]> ∅).

(** [default: c1], [clusters: {c1: {cluster: prod, region: us-west-2}}] *)
Definition one_cluster : gmap string Config.value :=
  <["default" := Config.VString "c1"]>
    (<["clusters" :=
         Config.VMap (<["c1" := entry [("cluster", "prod"); ("region", "us-west-2")]]> ∅)]>
       ∅).

(** [ecs_profiles: {}] *)
Definition no_profiles : gmap string Config.value :=
  <["ecs_profiles" := Config.VMap ∅]> ∅.

(** [clusters: {}] *)
Definition no_clusters : gmap string Config.value :=
  <["clusters" := Config.VMap ∅]> ∅.

Definition no_fault (path : string) : option error := None.

Definition world_of (profileDoc clusterDoc : gmap string Config.value)
    (write_error : string -> option error) : Config.World :=
  {| Config.files :=
       <["/home/user/.ecs/profile.yml" := yaml_file profileDoc]>
         (<["/home/user/.ecs/config.yml" := yaml_file clusterDoc]> ∅);
     Config.umask := 18;
     Config.mkdir_error := no_fault;
     Config.chmod_error := no_fault;
     Config.open_error := no_fault;
     Config.write_error := write_error |}.

(** Both documents are read; the profile entry lacks its secret key. *)
Definition world_without_secret : Config.World :=
  world_of profiles_without_secret one_cluster no_fault.

(** The disk is full: every [ioutil.WriteFile] fails. *)
Definition disk_full (path : string) : option error :=
  Some ("write " ++ path ++ ": no space left on device").

Definition world_disk_full : Config.World := world_of no_profiles no_clusters disk_full.

(** The same world with the profile file empty, and with the cluster file
    empty. *)
Definition world_profiles_emptied : Config.World := world_of ∅ no_clusters disk_full.

Definition world_clusters_emptied : Config.World := world_of no_profiles ∅ disk_full.

(** Two fresh documents, and nothing fails. *)
Definition world_fresh : Config.World := world_of no_profiles no_clusters no_fault.

Definition profile_p1 : Config.ProfileConfiguration :=
  {| Config.profileName := "p1"; Config.pc_awsAccessKey := "AKID";
     Config.pc_awsSecretKey := "SECRET" |}.

Definition cluster_c1 : Config.ClusterConfiguration :=
  {| Config.clusterName := "c1"; Config.cc_cluster := "prod";
     Config.cc_region := "us-west-2" |}.

(** The permission change is refused: [os.Chmod] fails. *)
Definition chmod_denied (path : string) : option error :=
  Some ("chmod " ++ path ++ ": operation not permitted").

Definition world_chmod_denied : Config.World :=
  {| Config.files := Config.files world_fresh;
     Config.umask := 18;
     Config.mkdir_error := no_fault;
     Config.chmod_error := chmod_denied;
     Config.open_error := no_fault;
     Config.write_error := no_fault |}.

(** ecs-params.yml is not there; another file is. *)
Definition other_file_only : gmap string Utils.file :=
  <["docker-compose.yml" := Utils.Readable "version: '3'"]> ∅.

(** The key a selector stands for in a document: the selector itself, or the
    document's default when the selector is empty. *)
Definition selects (selector : string) (doc : gmap string Config.value) (key : string)
  : Prop :=
  (selector <> "" /\ key = selector) \/
  (selector = "" /\ doc !! "default" = Some (Config.VString key)).

(** *** More inputs *)

(** [command: ["CMD", "curl", "-f", "http://x"]], [interval: 1m30s],
    [timeout: 45]: [test_sequence] with the sequence under [command]. *)
Definition command_sequence : Utils.healthCheckNode :=
  {| Utils.node_test := Utils.SSAbsent;
     Utils.node_command := Utils.SSSequence ["CMD"; "curl"; "-f"; "http://x"];
     Utils.node_timeout := Some "45"; Utils.node_interval := Some "1m30s";
     Utils.node_retries := Utils.RetriesAbsent; Utils.node_start_period := None |}.

(** A health check with most fields set. *)
Definition health_check_set : Utils.HealthCheck :=
  {| Utils.embedded :=
       {| Utils.hc_Command := [Some "CMD-SHELL"; Some "exit 0"];
          Utils.hc_Interval := Some 10; Utils.hc_Retries := Some 5;
          Utils.hc_StartPeriod := None; Utils.hc_Timeout := Some 2 |} |}.

(** An ECS format value with a command, an interval and a zero timeout. *)
Definition ecs_format_sample : Utils.healthCheckECSFormat :=
  {| Utils.ecsf_Command := [Some "CMD"; Some "true"];
     Utils.ecsf_Timeout := Some 0; Utils.ecsf_Interval := Some 30;
     Utils.ecsf_Retries := None; Utils.ecsf_StartPeriod := None |}.

Definition container_receiver : Utils.ContainerDef :=
  {| Utils.Essential := false; Utils.Cpu := 7; Utils.Memory := 0;
     Utils.MemoryReservation := 0; Utils.cd_HealthCheck := health_check_set |}.

(** [cpu_shares: 100], [healthcheck: {test: "curl -f http://x"}] *)
Definition container_web : Utils.containerDefNode :=
  {| Utils.node_essential := Utils.EssentialAbsent;
     Utils.node_cpu_shares := Some hundred_int64;
     Utils.node_mem_limit := None; Utils.node_mem_reservation := None;
     Utils.node_healthcheck := Some test_string |}.

(** [essential: false], [healthcheck: {command: ["a", "b"], test: ["c"]}] *)
Definition container_conflict : Utils.containerDefNode :=
  {| Utils.node_essential := Utils.EssentialValue false; Utils.node_cpu_shares := None;
     Utils.node_mem_limit := None; Utils.node_mem_reservation := None;
     Utils.node_healthcheck := Some command_and_test |}.

(** ecs-params.yml is there. *)
Definition default_file_only : gmap string Utils.file :=
  <["ecs-params.yml" := Utils.Readable "version: 1"]> ∅.

(** params.yml is there and cannot be read. *)
Definition unreadable_file_only : gmap string Utils.file :=
  <["params.yml" := Utils.Unreadable "read params.yml: permission denied"]> ∅.

Definition credentials_p1 : gmap string Config.value :=
  <["aws_secret_access_key" := Config.VString "SECRET"]>
    (<["aws_access_key_id" := Config.VString "AKID"]> ∅).

Definition profiles_container : gmap string Config.value :=
  <["p1" := Config.VMap credentials_p1]> ∅.

(** [default: p1], [ecs_profiles: {p1: {aws_access_key_id: AKID,
    aws_secret_access_key: SECRET}}] *)
Definition one_profile : gmap string Config.value :=
  <["default" := Config.VString "p1"]>
    (<["ecs_profiles" := Config.VMap profiles_container]> ∅).

Definition cluster_c1_prefixed : gmap string Config.value :=
  <["compose-project-name-prefix" := Config.VString "proj-"]>
    (<["region" := Config.VString "us-west-2"]>
       (<["cluster" := Config.VString "prod"]> ∅)).

Definition clusters_container : gmap string Config.value :=
  <["c1" := Config.VMap cluster_c1_prefixed]> ∅.

(** [default: c1], [clusters: {c1: {cluster: prod, region: us-west-2,
    compose-project-name-prefix: proj-}}] *)
Definition one_cluster_prefixed : gmap string Config.value :=
  <["default" := Config.VString "c1"]>
    (<["clusters" := Config.VMap clusters_container]> ∅).

(** Both documents are well formed, and nothing fails. *)
Definition world_resolved : Config.World := world_of one_profile one_cluster no_fault.

(** An empty home directory. *)
Definition world_empty : Config.World :=
  {| Config.files := ∅; Config.umask := 18; Config.mkdir_error := no_fault;
     Config.chmod_error := no_fault; Config.open_error := no_fault;
     Config.write_error := no_fault |}.

(** Only the ini file of the legacy format is there. *)
Definition world_legacy : Config.World :=
  {| Config.files :=
       <["/home/user/.ecs/config" :=
           {| Config.perm := 384; Config.read_error := None;
              Config.data := Config.NotYaml "yaml: not a mapping" |}]> ∅;
     Config.umask := 18;
     Config.mkdir_error := no_fault;
     Config.chmod_error := no_fault; Config.open_error := no_fault;
     Config.write_error := no_fault |}.

Definition ini_config : Config.CliConfig :=
  Config.set_Region "eu-west-1" (Config.set_Cluster "legacy" Config.new_CliConfig).

(** A legacy reader that reads the ini file into [ini_config]. *)
Definition legacy : Config.LegacyReader :=
  {| Config.iniConfigFileName := "config";
     Config.IniReadWriter := unit;
     Config.NewIniReadWriter := fun _ _ => (tt, None);
     Config.ini_GetConfig := fun _ _ => (Some ini_config, Some ∅, None) |}.

(** A legacy reader that cannot be made. *)
Definition legacy_broken : Config.LegacyReader :=
  {| Config.iniConfigFileName := "config";
     Config.IniReadWriter := unit;
     Config.NewIniReadWriter := fun _ _ => (tt, Some "no ini file");
     Config.ini_GetConfig := fun _ _ => (None, None, Some "no ini file") |}.

Definition flags : Configure.Flags :=
  {| Configure.AccessKeyFlag := "access-key";
     Configure.SecretKeyFlag := "secret-key";
     Configure.RegionFlag := "region";
     Configure.ProfileFlag := "aws-profile";
     Configure.ClusterFlag := "cluster";
     Configure.ComposeProjectNamePrefixFlag := "compose-project-name-prefix";
     Configure.ComposeServiceNamePrefixFlag := "compose-service-name-prefix";
     Configure.CFNStackNamePrefixFlag := "cfn-stack-name-prefix" |}.

Definition NewCliConfig (cluster : string) : Config.CliConfig :=
  Config.set_Cluster cluster Config.new_CliConfig.

(** [--cluster prod --region us-west-2 --access-key AKID --secret-key SECRET] *)
Definition context_keys : Configure.Context :=
  fun flag =>
    if String.eqb flag "cluster" then "prod"
    else if String.eqb flag "region" then "us-west-2"
    else if String.eqb flag "access-key" then "AKID"
    else if String.eqb flag "secret-key" then "SECRET"
    else "".

(** [--cluster prod --aws-profile dev --access-key AKID] *)
Definition context_profile_and_key : Configure.Context :=
  fun flag =>
    if String.eqb flag "cluster" then "prod"
    else if String.eqb flag "aws-profile" then "dev"
    else if String.eqb flag "access-key" then "AKID"
    else "".

(** *** Inputs at the edges of the decoder *)

(** [test: ["CMD", "true"]], [retries:] with no value, which is null. *)
Definition retries_null : Utils.healthCheckNode :=
  {| Utils.node_test := Utils.SSSequence ["CMD"; "true"];
     Utils.node_command := Utils.SSAbsent;
     Utils.node_timeout := None; Utils.node_interval := None;
     Utils.node_retries := Utils.RetriesNull; Utils.node_start_period := None |}.

(** [retries: 9223372036854775808], which the decoder refuses. *)
Definition retries_beyond_int64 : Utils.healthcheck_yaml :=
  Utils.HealthcheckRejected
    "yaml: unmarshal errors: line 2: cannot unmarshal !!int `9223372036854775808` into int64".

(** [yaml.Marshal] on the documents of these examples: none of them has a
    key ["<<"], and the bytes written for them read back as the document.
    Nothing is said with it of other documents. *)
Definition marshal (doc : gmap string Config.value) : Config.bytes := Config.Yaml doc.

(** [cpu_shares: 9223372036854775808], which the decoder refuses. *)
Definition container_cpu_beyond_int64 : Utils.container_yaml :=
  Utils.ContainerRejected
    "yaml: unmarshal errors: line 2: cannot unmarshal !!int `9223372036854775808` into int64".

(** Two fresh documents, nothing fails, and the umask takes the write
    permission of the owner too (0277). *)
Definition world_umask_write : Config.World :=
  {| Config.files := Config.files world_fresh;
     Config.umask := 191;
     Config.mkdir_error := no_fault;
     Config.chmod_error := no_fault; Config.open_error := no_fault;
     Config.write_error := no_fault |}.

(** The ini file and both documents are there. *)
Definition world_both_formats : Config.World :=
  {| Config.files :=
       <["/home/user/.ecs/config" :=
           {| Config.perm := 384; Config.read_error := None;
              Config.data := Config.NotYaml "yaml: not a mapping" |}]>
         (Config.files world_resolved);
     Config.umask := 18;
     Config.mkdir_error := no_fault;
     Config.chmod_error := no_fault; Config.open_error := no_fault;
     Config.write_error := no_fault |}.

(** The profile document is the null document. *)
Definition world_null_profiles : Config.World :=
  {| Config.files :=
       <["/home/user/.ecs/profile.yml" :=
           {| Config.perm := 384; Config.read_error := None;
              Config.data := Config.YamlNull |}]> ∅;
     Config.umask := 18;
     Config.mkdir_error := no_fault;
     Config.chmod_error := no_fault; Config.open_error := no_fault;
     Config.write_error := no_fault |}.

End Samples.

(** * Go's duration parser always answers *)

Lemma leadingInt_from_length x s v rest :
  Go.leadingInt_from x s = Some (v, rest) -> (String.length rest <= String.length s)%nat.
Proof.
  revert x. induction s as [|c r IH]; intros x H; simpl in H.
  - inversion H. simpl. lia.
  - destruct (Go.is_digit c).
    + destruct (Go.maxInt64 / 10 <? x); [discriminate|].
      destruct (Go.maxInt64 <? x * 10 + Go.digit_value c); [discriminate|].
      apply IH in H. simpl. lia.
    + inversion H. simpl. lia.
Qed.

Lemma leadingFraction_from_length x k o s :
  (String.length (snd (Go.leadingFraction_from x k o s)) <= String.length s)%nat.
Proof.
  revert x k o. induction s as [|c r IH]; intros x k o; simpl; [lia|].
  destruct (Go.is_digit c); [|simpl; lia].
  destruct o; [specialize (IH x k true); lia|].
  destruct (Go.maxInt64 / 10 <? x); [specialize (IH x k true); lia|].
  destruct (Go.maxInt64 <? x * 10 + Go.digit_value c).
  - specialize (IH x k true). lia.
  - specialize (IH (x * 10 + Go.digit_value c) (S k) false). lia.
Qed.

Lemma unit_span_length s :
  (String.length (fst (Go.unit_span s)) + String.length (snd (Go.unit_span s))
   = String.length s)%nat.
Proof.
  induction s as [|c r IH]; simpl; [reflexivity|].
  destruct (Ascii.eqb c "." || Go.is_digit c); simpl; [reflexivity|].
  destruct (Go.unit_span r) as [u rest]. simpl in *. lia.
Qed.

Lemma ParseDuration_loop_fuel frac_ns fuel :
  forall s d, (String.length s <= fuel)%nat ->
    Go.ParseDuration_loop frac_ns fuel s d <> Go.OutOfFuel.
Proof.
  induction fuel as [|fuel IH]; intros s d Hlen.
  - destruct s; simpl in *; [discriminate|lia].
  - destruct s as [|c0 r0]; [simpl; discriminate|].
    cbn [Go.ParseDuration_loop].
    destruct (negb _); [discriminate|].
    destruct (Go.leadingInt (String c0 r0)) as [[v s1]|] eqn:Hint; [|discriminate].
    apply leadingInt_from_length in Hint.
    set (frac := match s1 with
                 | String c1 r1 => _
                 | EmptyString => _
                 end).
    assert (Hs2 : (String.length (snd frac) <= String.length s1)%nat).
    { subst frac. destruct s1 as [|c1 r1]; simpl; [lia|].
      destruct (Ascii.eqb c1 "."); simpl; [|lia].
      pose proof (leadingFraction_from_length 0 0 false r1) as Hf.
      unfold Go.leadingFraction.
      destruct (Go.leadingFraction_from 0 0 false r1) as [[f k] s2]. simpl in *. lia. }
    destruct frac as [[[f kept] post] s2]. simpl in Hs2.
    destruct (negb _ && negb post); [discriminate|].
    pose proof (unit_span_length s2) as Hu.
    destruct (Go.unit_span s2) as [u s3]. simpl in Hu.
    destruct u as [|cu ru]; [discriminate|].
    destruct (Go.unitMap _); [|discriminate].
    destruct (_ <? v); [discriminate|].
    destruct (Go.maxInt64 <? _); [discriminate|].
    destruct (Go.maxInt64 <? _); [discriminate|].
    apply IH. simpl in *. lia.
Qed.

(** [time.ParseDuration] returns on every string: the fuel of the model is
    never used up. *)
Lemma ParseDuration_returns frac_ns s :
  Go.ParseDuration_outcome frac_ns s = Go.Done (Go.ParseDuration frac_ns s).
Proof.
  unfold Go.ParseDuration.
  destruct (Go.ParseDuration_outcome frac_ns s) eqn:H; [reflexivity|].
  exfalso. unfold Go.ParseDuration_outcome in H.
  destruct (match s with String c r => _ | EmptyString => _ end) as [neg body].
  destruct (String.eqb body "0"); [discriminate|].
  destruct (String.eqb body ""); [discriminate|].
  destruct (Go.ParseDuration_loop frac_ns (String.length body) body 0) as [[d|]|] eqn:Hl;
    try discriminate.
  eapply ParseDuration_loop_fuel; [|exact Hl]. lia.
Qed.

(** * Health checks *)

Section HealthCheckFacts.

Variable time_ParseDuration : string -> option Z.
Variable strconv_ParseInt : string -> option Z.

Local Abbreviation parseTime :=
  (Utils.parseHealthCheckTimeField time_ParseDuration strconv_ParseInt).
Local Abbreviation parse :=
  (Utils.parse_healthcheck time_ParseDuration strconv_ParseInt).

Lemma parseHealthCheckCommand_command l h :
  Utils.hc_Command (Utils.embedded (Utils.parseHealthCheckCommand l h))
  = Samples.canonical_command l.
Proof. destruct l as [|a [|b l]]; reflexivity. Qed.

(** A time field parses to a value without an error, or to an error without
    a value. *)
Lemma parseTime_cases field :
  (exists v, parseTime field = (v, None)) \/
  parseTime field = (None, Some (Utils.time_field_error field)).
Proof.
  unfold Utils.parseHealthCheckTimeField.
  destruct (negb (String.eqb field "")); [|left; eauto].
  destruct (time_ParseDuration field); [left; eauto|].
  destruct (strconv_ParseInt field); [left; eauto | right; reflexivity].
Qed.

(** What a successful parse gives, field by field. *)
Lemma parse_success n hc :
  parse n = (hc, None) ->
  let c := Utils.Stringorslice_decode (Utils.node_command n) [] in
  let t := Utils.Stringorslice_decode (Utils.node_test n) [] in
  (c = [] \/ t = []) /\
  Utils.hc_Command (Utils.embedded hc)
    = (if (0 <? length t)%nat then Samples.canonical_command t else Samples.canonical_command c) /\
  Utils.hc_Retries (Utils.embedded hc)
    = Some (Utils.retries_decode (Utils.node_retries n) 3) /\
  parseTime (default "" (Utils.node_timeout n))
    = (Utils.hc_Timeout (Utils.embedded hc), None) /\
  parseTime (default "" (Utils.node_start_period n))
    = (Utils.hc_StartPeriod (Utils.embedded hc), None) /\
  parseTime (default "" (Utils.node_interval n))
    = (Utils.hc_Interval (Utils.embedded hc), None).
Proof.
  unfold Utils.parse_healthcheck, Utils.UnmarshalYAML, Utils.yaml_unmarshal.
  cbn [Utils.Command Utils.Test Utils.Timeout Utils.Interval Utils.Retries
       Utils.StartPeriod].
  set (c := Utils.Stringorslice_decode (Utils.node_command n) []).
  set (t := Utils.Stringorslice_decode (Utils.node_test n) []).
  intros H.
  destruct (parseTime_cases (default "" (Utils.node_timeout n))) as [[v1 E1]|E1];
  destruct (parseTime_cases (default "" (Utils.node_start_period n))) as [[v2 E2]|E2];
  destruct (parseTime_cases (default "" (Utils.node_interval n))) as [[v3 E3]|E3];
  destruct c as [|c0 c]; destruct t as [|t0 t]; simpl in H;
  rewrite ?E1, ?E2, ?E3 in H; simpl in H; try discriminate;
  inversion H; subst hc; clear H; simpl;
  rewrite ?E1, ?E2, ?E3;
  repeat split; auto;
  try (destruct c as [|? ?]; reflexivity);
  try (destruct t as [|? ?]; reflexivity).
Qed.

(** C5. For a value the decoder accepts in which both [command] and [test]
    are non-empty sequences, parsing fails with the conflict error and the
    receiver keeps the value it had: no health check is produced. *)
Theorem both_command_and_test_conflict :
  forall (h : Utils.HealthCheck) (n : Utils.healthCheckNode) (c t : list string),
    Utils.node_command n = Utils.SSSequence c -> c <> [] ->
    Utils.node_test n = Utils.SSSequence t -> t <> [] ->
    Utils.UnmarshalYAML time_ParseDuration strconv_ParseInt h
      (Utils.unmarshal_healthcheck (Utils.HealthcheckAccepted n))
    = (h, Some Utils.conflict_error).
Proof.
  intros h n c t Hc Hcne Ht Htne.
  unfold Utils.UnmarshalYAML, Utils.unmarshal_healthcheck, Utils.yaml_unmarshal.
  cbn [Utils.Command Utils.Test]. rewrite Hc, Ht. simpl.
  destruct c; [congruence|]. destruct t; [congruence|]. reflexivity.
Qed.

(** C3 (amended). Whenever the value of a [healthcheck] key parses, the
    decoder has accepted it, and the retries are 3 when the [retries] key is
    absent, 0 when it holds null, and the supplied integer otherwise, a
    supplied zero included. *)
Theorem retries_default_when_absent :
  forall (y : Utils.healthcheck_yaml),
    snd (Utils.parse_healthcheck_yaml time_ParseDuration strconv_ParseInt y) = None ->
    exists n : Utils.healthCheckNode,
      y = Utils.HealthcheckAccepted n /\
      Utils.hc_Retries
        (Utils.embedded
           (fst (Utils.parse_healthcheck_yaml time_ParseDuration strconv_ParseInt y)))
      = Some (match Utils.node_retries n with
              | Utils.RetriesAbsent => 3
              | Utils.RetriesNull => 0
              | Utils.RetriesValue v => Go.int64_val v
              end).
Proof.
  intros [n|err] H.
  - exists n. split; [reflexivity|].
    change (Utils.parse_healthcheck_yaml time_ParseDuration strconv_ParseInt
              (Utils.HealthcheckAccepted n)) with (parse n) in *.
    destruct (parse n) as [hc e] eqn:E. simpl in H. subst e.
    apply parse_success in E. simpl. destruct E as (_ & _ & -> & _).
    destruct (Utils.node_retries n); reflexivity.
  - discriminate H.
Qed.

(** What the test on the length does: whenever a health check parses and
    exactly one of [command] and [test] holds elements, a single element is
    wrapped as [CMD-SHELL] followed by that element, whether it was written
    as a string or as a sequence of one element, and two or more elements
    are the literal command. *)
Lemma single_element_is_shell_wrapped :
  forall (n : Utils.healthCheckNode) (l : list string),
    (Utils.Stringorslice_decode (Utils.node_command n) [] = l /\
     Utils.Stringorslice_decode (Utils.node_test n) [] = []) \/
    (Utils.Stringorslice_decode (Utils.node_test n) [] = l /\
     Utils.Stringorslice_decode (Utils.node_command n) [] = []) ->
    snd (parse n) = None ->
    Utils.hc_Command (Utils.embedded (fst (parse n)))
    = match l with
      | [e] => [Some "CMD-SHELL"; Some e]
      | _ => map Some l
      end.
Proof.
  intros n l Hshape H. destruct (parse n) as [hc e] eqn:E. simpl in H. subst e.
  apply parse_success in E. simpl. destruct E as (_ & -> & _).
  destruct Hshape as [[Hc Ht]|[Ht Hc]]; rewrite Hc, Ht.
  - reflexivity.
  - destruct l as [|a [|b l]]; reflexivity.
Qed.

(** C6. An empty time field is unset, without an error. A non-empty field is
    first read as a duration, and gives its whole seconds; when that fails
    it is read as an integer of seconds; it is an error exactly when both
    fail. With Go's parsers, "1m30s" is 90 seconds, "45" is 45 seconds and
    "abc" is an error. *)
Theorem time_field_duration_then_integer :
  parseTime "" = (None, None) /\
  (forall field d, field <> "" -> time_ParseDuration field = Some d ->
     parseTime field = (Some (Z.quot d 1000000000), None)) /\
  (forall field v, field <> "" -> time_ParseDuration field = None ->
     strconv_ParseInt field = Some v -> parseTime field = (Some v, None)) /\
  (forall field, field <> "" ->
     (snd (parseTime field) <> None <->
      time_ParseDuration field = None /\ strconv_ParseInt field = None) /\
     (snd (parseTime field) <> None -> fst (parseTime field) = None)) /\
  (forall frac_ns,
     let go := Utils.parseHealthCheckTimeField (Go.ParseDuration frac_ns) Go.ParseInt in
     go "1m30s" = (Some 90, None) /\
     go "45" = (Some 45, None) /\
     go "abc" = (None, Some (Utils.time_field_error "abc"))).
Proof.
  unfold Utils.parseHealthCheckTimeField.
  split; [reflexivity|].
  split.
  { intros field d Hne Hd. apply String.eqb_neq in Hne. rewrite Hne, Hd. reflexivity. }
  split.
  { intros field v Hne Hd Hi. apply String.eqb_neq in Hne.
    rewrite Hne, Hd, Hi. reflexivity. }
  split.
  { intros field Hne. apply String.eqb_neq in Hne. rewrite Hne. simpl.
    destruct (time_ParseDuration field); simpl.
    - split; [split; [congruence | intros [? _]; discriminate] | congruence].
    - destruct (strconv_ParseInt field); simpl.
      + split; [split; [congruence | intros [_ ?]; discriminate] | congruence].
      + split; [split; [auto | discriminate] | reflexivity]. }
  intros frac_ns. repeat split; vm_compute; reflexivity.
Qed.

End HealthCheckFacts.

(** * The network configuration *)

(** C7. Outside of the awsvpc mode the extraction gives no configuration and
    no error. In awsvpc mode it fails, with the subnet error, exactly when
    there is no subnet; otherwise it gives the subnets and the security groups
    of the source, in their order, and the public IP assignment only when the
    source has a non-empty one. *)
Theorem network_configuration_extraction :
  forall (p : Utils.ECSParams),
    let vpc := Utils.nc_AwsVpcConfiguration
                 (Utils.rp_NetworkConfiguration (Utils.ecs_RunParams p)) in
    let r := Utils.ConvertToECSNetworkConfiguration (Some p) in
    (Utils.NetworkMode (Utils.TaskDefinition p) <> "awsvpc" -> r = (None, None)) /\
    (Utils.NetworkMode (Utils.TaskDefinition p) = "awsvpc" ->
       (snd r <> None <-> Utils.Subnets vpc = []) /\
       (Utils.Subnets vpc = [] ->
          r = (None,
               Some "at least one subnet is required in the network configuration")) /\
       (Utils.Subnets vpc <> [] ->
          r = (Some {| Utils.ecs_AwsvpcConfiguration :=
                         Some {| Utils.ecs_AssignPublicIp :=
                                   if decide (Utils.vpc_AssignPublicIp vpc = "")
                                   then None
                                   else Some (Utils.vpc_AssignPublicIp vpc);
                                 Utils.ecs_SecurityGroups :=
                                   map Some (Utils.SecurityGroups vpc);
                                 Utils.ecs_Subnets := map Some (Utils.Subnets vpc) |} |},
               None))).
Proof.
  intros p vpc r. subst r. unfold Utils.ConvertToECSNetworkConfiguration.
  fold vpc. split.
  - intros Hmode. apply String.eqb_neq in Hmode. rewrite Hmode. reflexivity.
  - intros Hmode. rewrite Hmode. simpl.
    destruct (Utils.Subnets vpc) as [|s0 subnets] eqn:Hs; simpl.
    + repeat split; congruence.
    + split; [split; [congruence | discriminate]|].
      split; [discriminate|]. intros _.
      unfold Utils.aws_String.
      destruct (decide (Utils.vpc_AssignPublicIp vpc = "")) as [E|E].
      * rewrite E. reflexivity.
      * apply String.eqb_neq in E. rewrite E. reflexivity.
Qed.

(** C10. For a nil document the extraction gives no configuration and no
    error. *)
Theorem network_configuration_of_nil :
  Utils.ConvertToECSNetworkConfiguration None = (None, None).
Proof. reflexivity. Qed.

(** * The loader *)

(** C9. With an empty path and no ecs-params.yml in the working directory, the
    loader gives no document and no error. *)
Theorem no_default_file_is_no_error :
  forall (os_ExpandEnv : string -> string)
         (yaml_Unmarshal :
            string -> option Utils.ECSParams -> option Utils.ECSParams * option error)
         (fs : gmap string Utils.file),
    fs !! "ecs-params.yml" = None ->
    Utils.ReadECSParams os_ExpandEnv yaml_Unmarshal fs "" = (None, None).
Proof.
  intros os_ExpandEnv yaml_Unmarshal fs Habsent.
  unfold Utils.ReadECSParams, Utils.os_Stat_ok. simpl. rewrite Habsent. reflexivity.
Qed.

(** * Resolution of the configuration *)

(** Once both documents are read, [GetConfigs] returns a nil error whatever
    [processProfileMap] and [processClusterMap] found. *)
Lemma GetConfigs_yaml_error_nil legacy rdwr clusterConfig profileConfig w
    profileDoc clusterDoc r :
  Config.os_Stat_ok w (Config.clusterConfigPath (Config.destination rdwr)) = true ->
  Config.ioutil_ReadFile w (Config.clusterConfigPath (Config.destination rdwr))
    = (Config.Yaml clusterDoc, None) ->
  Config.ioutil_ReadFile w (Config.profileConfigPath (Config.destination rdwr))
    = (Config.Yaml profileDoc, None) ->
  Config.GetConfigs legacy rdwr clusterConfig profileConfig w = Config.Returns r ->
  snd r = None.
Proof.
  intros Hstat Hc Hp. unfold Config.GetConfigs.
  rewrite Hstat, Hc, Hp, andb_false_r. simpl.
  destruct (Config.processProfileMap _ _ _ _) as [[[cm c] e]|]; [|discriminate].
  destruct (Config.processClusterMap _ _ _ _) as [[[cm' c'] e']|]; [|discriminate].
  intros H. inversion H. reflexivity.
Qed.

(** C1. A profile entry without its secret key: [processProfileMap] answers
    with the format error, and [GetConfigs] still returns a configuration, with
    an empty secret key next to the access key, the cluster and the region,
    and a nil error. *)
Theorem GetConfigs_returns_partial_config :
  forall legacy : Config.LegacyReader,
    Config.processProfileMap "" Samples.profiles_without_secret ∅ Config.new_CliConfig
    = Config.Returns
        (<[Config.awsSecretKey := Config.VNil]>
           (<[Config.awsAccessKey := Config.VString "AKID"]> ∅),
         Config.set_AwsAccessKey "AKID" Config.new_CliConfig,
         Some Config.format_error_profile) /\
    Config.GetConfigs legacy Samples.rdwr "" "" Samples.world_without_secret
    = Config.Returns
        (Some {| Config.Cluster := "prod"; Config.AwsProfile := "";
                 Config.Region := "us-west-2"; Config.AwsAccessKey := "AKID";
                 Config.AwsSecretKey := ""; Config.ComposeProjectNamePrefix := "";
                 Config.ComposeServiceNamePrefix := "";
                 Config.CFNStackNamePrefix := "" |},
         Some (<[Config.regionKey := Config.VString "us-west-2"]>
                 (<[Config.clusterKey := Config.VString "prod"]>
                    (<[Config.awsSecretKey := Config.VNil]>
                       (<[Config.awsAccessKey := Config.VString "AKID"]> ∅)))),
         None).
Proof.
  intros legacy. split; [vm_compute; reflexivity|].
  unfold Config.GetConfigs.
  replace (Config.os_Stat_ok Samples.world_without_secret
             (Config.clusterConfigPath (Config.destination Samples.rdwr)))
    with true by (vm_compute; reflexivity).
  rewrite andb_false_r. vm_compute. reflexivity.
Qed.

(** * The write path *)

Section WritePathFacts.

Variable yaml_Marshal : gmap string Config.value -> Config.bytes.

(** When [saveToFile] returns no error, the file at the path holds the
    bytes [yaml.Marshal] gives for the document. *)
Lemma saveToFile_stores rdwr path config w :
  snd (Config.saveToFile yaml_Marshal rdwr path config w) = None ->
  Config.data <$> (Config.files (fst (Config.saveToFile yaml_Marshal rdwr path config w)) !! path)
  = Some (yaml_Marshal config).
Proof.
  unfold Config.saveToFile.
  destruct (Config.mkdir_error w _); [discriminate|].
  destruct (Config.os_Stat_ok w path).
  - unfold Config.os_Chmod.
    destruct (Config.chmod_error w path); [discriminate|].
    destruct (Config.files w !! path); [|discriminate].
    unfold Config.ioutil_WriteFile. simpl.
    destruct (Config.open_error w path); [discriminate|].
    destruct (Config.write_error w path); [discriminate|].
    simpl. intros _. rewrite lookup_insert_eq. reflexivity.
  - unfold Config.ioutil_WriteFile.
    destruct (Config.open_error w path); [discriminate|].
    destruct (Config.write_error w path); [discriminate|].
    simpl. intros _. rewrite lookup_insert_eq. reflexivity.
Qed.

Lemma size_zero_decide (m : gmap string Config.value) :
  (size m =? 0)%nat = bool_decide (m = ∅).
Proof.
  destruct (decide (m = ∅)) as [->|Hne].
  - rewrite map_size_empty. reflexivity.
  - rewrite bool_decide_eq_false_2 by assumption.
    apply Nat.eqb_neq. intros Hs. apply map_size_empty_iff in Hs. contradiction.
Qed.

Lemma SaveProfile_inserts rdwr profile w doc profiles :
  Config.ioutil_ReadFile w (Config.profileConfigPath (Config.destination rdwr))
    = (Config.Yaml doc, None) ->
  doc !! "ecs_profiles" = Some (Config.VMap profiles) ->
  exists doc' : gmap string Config.value,
    let path := Config.profileConfigPath (Config.destination rdwr) in
    let entry : gmap string Config.value :=
      <[Config.awsSecretKey := Config.VString (Config.pc_awsSecretKey profile)]>
        (<[Config.awsAccessKey := Config.VString (Config.pc_awsAccessKey profile)]> ∅) in
    Config.SaveProfile yaml_Marshal rdwr profile w
      = (fst (Config.saveToFile yaml_Marshal rdwr path doc' w), None) /\
    doc' !! "ecs_profiles"
      = Some (Config.VMap (<[Config.profileName profile := Config.VMap entry]> profiles)) /\
    doc' !! "default"
      = (if decide (profiles = ∅)
         then Some (Config.VString (Config.profileName profile))
         else doc !! "default") /\
    (forall k, k <> "default" -> k <> "ecs_profiles" -> doc' !! k = doc !! k) /\
    (snd (Config.saveToFile yaml_Marshal rdwr path doc' w) = None ->
     Config.data <$> (Config.files (fst (Config.SaveProfile yaml_Marshal rdwr profile w)) !! path)
     = Some (yaml_Marshal doc')).
Proof.
  intros Hread Hprofiles.
  exists (Config.SaveProfile_document profile doc profiles). cbv zeta.
  assert (Hsave : Config.SaveProfile yaml_Marshal rdwr profile w
                  = (fst (Config.saveToFile yaml_Marshal rdwr
                            (Config.profileConfigPath (Config.destination rdwr))
                            (Config.SaveProfile_document profile doc profiles) w), None)).
  { unfold Config.SaveProfile. rewrite Hread. simpl.
    rewrite (right_id_L ∅ (∪)). unfold Config.index. rewrite Hprofiles. simpl.
    destruct (Config.saveToFile _ _ _ _ _). reflexivity. }
  split; [exact Hsave|].
  split; [|split; [|split]].
  - unfold Config.SaveProfile_document. apply lookup_insert_eq.
  - unfold Config.SaveProfile_document. rewrite size_zero_decide.
    rewrite lookup_insert_ne by discriminate.
    destruct (decide (profiles = ∅)) as [E|E].
    + rewrite bool_decide_eq_true_2 by assumption. apply lookup_insert_eq.
    + rewrite bool_decide_eq_false_2 by assumption. reflexivity.
  - intros k Hd He. unfold Config.SaveProfile_document.
    rewrite lookup_insert_ne by congruence.
    destruct (size profiles =? 0)%nat; [|reflexivity].
    rewrite lookup_insert_ne by congruence. reflexivity.
  - intros Hok. rewrite Hsave. simpl. apply saveToFile_stores. exact Hok.
Qed.

Lemma SaveCluster_inserts rdwr cluster w doc clusters :
  Config.ioutil_ReadFile w (Config.clusterConfigPath (Config.destination rdwr))
    = (Config.Yaml doc, None) ->
  doc !! "clusters" = Some (Config.VMap clusters) ->
  exists doc' : gmap string Config.value,
    let path := Config.clusterConfigPath (Config.destination rdwr) in
    let entry : gmap string Config.value :=
      <[Config.regionKey := Config.VString (Config.cc_region cluster)]>
        (<[Config.clusterKey := Config.VString (Config.cc_cluster cluster)]> ∅) in
    Config.SaveCluster yaml_Marshal rdwr cluster w
      = (fst (Config.saveToFile yaml_Marshal rdwr path doc' w), None) /\
    doc' !! "clusters"
      = Some (Config.VMap (<[Config.clusterName cluster := Config.VMap entry]> clusters)) /\
    doc' !! "default"
      = (if decide (clusters = ∅)
         then Some (Config.VString (Config.clusterName cluster))
         else doc !! "default") /\
    (forall k, k <> "default" -> k <> "clusters" -> doc' !! k = doc !! k) /\
    (snd (Config.saveToFile yaml_Marshal rdwr path doc' w) = None ->
     Config.data <$> (Config.files (fst (Config.SaveCluster yaml_Marshal rdwr cluster w)) !! path)
     = Some (yaml_Marshal doc')).
Proof.
  intros Hread Hclusters.
  exists (Config.SaveCluster_document cluster doc clusters). cbv zeta.
  assert (Hsave : Config.SaveCluster yaml_Marshal rdwr cluster w
                  = (fst (Config.saveToFile yaml_Marshal rdwr
                            (Config.clusterConfigPath (Config.destination rdwr))
                            (Config.SaveCluster_document cluster doc clusters) w), None)).
  { unfold Config.SaveCluster. rewrite Hread. simpl.
    rewrite (right_id_L ∅ (∪)). unfold Config.index. rewrite Hclusters. simpl.
    destruct (Config.saveToFile _ _ _ _ _). reflexivity. }
  split; [exact Hsave|].
  split; [|split; [|split]].
  - unfold Config.SaveCluster_document. apply lookup_insert_eq.
  - unfold Config.SaveCluster_document. rewrite size_zero_decide.
    rewrite lookup_insert_ne by discriminate.
    destruct (decide (clusters = ∅)) as [E|E].
    + rewrite bool_decide_eq_true_2 by assumption. apply lookup_insert_eq.
    + rewrite bool_decide_eq_false_2 by assumption. reflexivity.
  - intros k Hd He. unfold Config.SaveCluster_document.
    rewrite lookup_insert_ne by congruence.
    destruct (size clusters =? 0)%nat; [|reflexivity].
    rewrite lookup_insert_ne by congruence. reflexivity.
  - intros Hok. rewrite Hsave. simpl. apply saveToFile_stores. exact Hok.
Qed.

(** C8. For a document the save reads, with its container mapping, the
    document handed to the final write has the entry inserted (or overwritten)
    under its name in the container, the default pointer set to that name
    exactly when the container was empty and unchanged otherwise, and every
    other key as it was; when the write goes through, the file holds the
    bytes [yaml.Marshal] gives for that document. This holds for
    [SaveProfile] and for [SaveCluster]. *)
Theorem save_inserts_entry_first_is_default :
  forall (rdwr : Config.YamlReadWriter) (w : Config.World),
    (forall (profile : Config.ProfileConfiguration) (doc profiles : gmap string Config.value),
       Config.ioutil_ReadFile w (Config.profileConfigPath (Config.destination rdwr))
         = (Config.Yaml doc, None) ->
       doc !! "ecs_profiles" = Some (Config.VMap profiles) ->
       exists doc' : gmap string Config.value,
         let path := Config.profileConfigPath (Config.destination rdwr) in
         let entry : gmap string Config.value :=
           <[Config.awsSecretKey := Config.VString (Config.pc_awsSecretKey profile)]>
             (<[Config.awsAccessKey := Config.VString (Config.pc_awsAccessKey profile)]> ∅) in
         Config.SaveProfile yaml_Marshal rdwr profile w
           = (fst (Config.saveToFile yaml_Marshal rdwr path doc' w), None) /\
         doc' !! "ecs_profiles"
           = Some (Config.VMap (<[Config.profileName profile := Config.VMap entry]> profiles)) /\
         doc' !! "default"
           = (if decide (profiles = ∅)
              then Some (Config.VString (Config.profileName profile))
              else doc !! "default") /\
         (forall k, k <> "default" -> k <> "ecs_profiles" -> doc' !! k = doc !! k) /\
         (snd (Config.saveToFile yaml_Marshal rdwr path doc' w) = None ->
          Config.data <$> (Config.files (fst (Config.SaveProfile yaml_Marshal rdwr profile w)) !! path)
          = Some (yaml_Marshal doc'))) /\
    (forall (cluster : Config.ClusterConfiguration) (doc clusters : gmap string Config.value),
       Config.ioutil_ReadFile w (Config.clusterConfigPath (Config.destination rdwr))
         = (Config.Yaml doc, None) ->
       doc !! "clusters" = Some (Config.VMap clusters) ->
       exists doc' : gmap string Config.value,
         let path := Config.clusterConfigPath (Config.destination rdwr) in
         let entry : gmap string Config.value :=
           <[Config.regionKey := Config.VString (Config.cc_region cluster)]>
             (<[Config.clusterKey := Config.VString (Config.cc_cluster cluster)]> ∅) in
         Config.SaveCluster yaml_Marshal rdwr cluster w
           = (fst (Config.saveToFile yaml_Marshal rdwr path doc' w), None) /\
         doc' !! "clusters"
           = Some (Config.VMap (<[Config.clusterName cluster := Config.VMap entry]> clusters)) /\
         doc' !! "default"
           = (if decide (clusters = ∅)
              then Some (Config.VString (Config.clusterName cluster))
              else doc !! "default") /\
         (forall k, k <> "default" -> k <> "clusters" -> doc' !! k = doc !! k) /\
         (snd (Config.saveToFile yaml_Marshal rdwr path doc' w) = None ->
          Config.data <$> (Config.files (fst (Config.SaveCluster yaml_Marshal rdwr cluster w)) !! path)
          = Some (yaml_Marshal doc'))).
Proof.
  intros rdwr w. split.
  - intros profile doc profiles Hread Hc. exact (SaveProfile_inserts rdwr profile w doc profiles Hread Hc).
  - intros cluster doc clusters Hread Hc. exact (SaveCluster_inserts rdwr cluster w doc clusters Hread Hc).
Qed.

End WritePathFacts.

(** C4. On a full disk the final write of [saveToFile] fails, after the file
    has been truncated, and where the permission change is refused
    [saveToFile] fails too. The four operations return a nil error all the
    same: after the failed write the file is left empty, after the refused
    permission change the files are as they were. *)
Theorem save_operations_return_nil_on_write_failure :
  forall yaml_Marshal : gmap string Config.value -> Config.bytes,
  snd (Config.saveToFile yaml_Marshal Samples.rdwr "/home/user/.ecs/profile.yml"
         (Config.SaveProfile_document Samples.profile_p1 Samples.no_profiles ∅)
         Samples.world_disk_full)
  = Some "write /home/user/.ecs/profile.yml: no space left on device" /\
  Config.data <$> (Config.files Samples.world_disk_full !! "/home/user/.ecs/profile.yml")
  = Some (Config.Yaml Samples.no_profiles) /\
  Config.SaveProfile yaml_Marshal Samples.rdwr Samples.profile_p1 Samples.world_disk_full
  = (Samples.world_profiles_emptied, None) /\
  Config.SaveCluster yaml_Marshal Samples.rdwr Samples.cluster_c1 Samples.world_disk_full
  = (Samples.world_clusters_emptied, None) /\
  Config.SetDefaultProfile yaml_Marshal Samples.rdwr "p1" Samples.world_disk_full
  = Config.Returns (Samples.world_profiles_emptied, None) /\
  Config.SetDefaultCluster yaml_Marshal Samples.rdwr "c1" Samples.world_disk_full
  = Config.Returns (Samples.world_clusters_emptied, None) /\
  Config.data <$> (Config.files Samples.world_profiles_emptied !! "/home/user/.ecs/profile.yml")
  = Some (Config.Yaml ∅) /\
  Config.data <$> (Config.files Samples.world_clusters_emptied !! "/home/user/.ecs/config.yml")
  = Some (Config.Yaml ∅) /\
  snd (Config.saveToFile yaml_Marshal Samples.rdwr "/home/user/.ecs/profile.yml"
         (Config.SaveProfile_document Samples.profile_p1 Samples.no_profiles ∅)
         Samples.world_chmod_denied)
  = Some "chmod /home/user/.ecs/profile.yml: operation not permitted" /\
  Config.SaveProfile yaml_Marshal Samples.rdwr Samples.profile_p1 Samples.world_chmod_denied
  = (Samples.world_chmod_denied, None) /\
  Config.SetDefaultProfile yaml_Marshal Samples.rdwr "p1" Samples.world_chmod_denied
  = Config.Returns (Samples.world_chmod_denied, None).
Proof. intros yaml_Marshal. repeat split; vm_compute; reflexivity. Qed.

(** * The statements at concrete inputs *)

(** [test: "curl -f http://x"] gives the shell command and three retries. *)
Example shorthand_string_example :
  Utils.parse_healthcheck Samples.ParseDuration Go.ParseInt Samples.test_string
  = ({| Utils.embedded :=
          {| Utils.hc_Command := [Some "CMD-SHELL"; Some "curl -f http://x"];
             Utils.hc_Interval := None; Utils.hc_Retries := Some 3;
             Utils.hc_StartPeriod := None; Utils.hc_Timeout := None |} |}, None).
Proof. vm_compute. reflexivity. Qed.

(** The bridge mode needs no network configuration; awsvpc without a subnet is
    an error. *)
Example network_mode_examples :
  Utils.ConvertToECSNetworkConfiguration (Some (Samples.params "bridge" [] [] ""))
  = (None, None) /\
  Utils.ConvertToECSNetworkConfiguration (Some (Samples.params "awsvpc" [] ["sg-1"] ""))
  = (None, Some "at least one subnet is required in the network configuration").
Proof. split; reflexivity. Qed.

Lemma both_command_and_test_conflict_witness :
  Utils.UnmarshalYAML Samples.ParseDuration Go.ParseInt Utils.empty_HealthCheck
    (Utils.unmarshal_healthcheck (Utils.HealthcheckAccepted Samples.command_and_test))
  = (Utils.empty_HealthCheck, Some Utils.conflict_error).
Proof.
  apply (both_command_and_test_conflict Samples.ParseDuration Go.ParseInt
           Utils.empty_HealthCheck Samples.command_and_test ["a"; "b"] ["c"]);
    [reflexivity | discriminate | reflexivity | discriminate].
Defined.

(** With [retries: 0] the parse succeeds and the retries are 0, not 3. *)
Lemma retries_zero_is_kept :
  Utils.node_retries Samples.retries_zero = Utils.RetriesValue Samples.zero_int64 /\
  Go.int64_val Samples.zero_int64 = 0 /\
  snd (Utils.parse_healthcheck_yaml Samples.ParseDuration Go.ParseInt
         (Utils.HealthcheckAccepted Samples.retries_zero))
  = None /\
  Utils.hc_Retries
    (Utils.embedded
       (fst (Utils.parse_healthcheck_yaml Samples.ParseDuration Go.ParseInt
               (Utils.HealthcheckAccepted Samples.retries_zero))))
  = Some 0 /\
  Utils.hc_Retries
    (Utils.embedded
       (fst (Utils.parse_healthcheck_yaml Samples.ParseDuration Go.ParseInt
               (Utils.HealthcheckAccepted Samples.retries_zero))))
  <> Some 3.
Proof. repeat split; vm_compute; congruence. Qed.

Lemma retries_default_when_absent_witness :
  Utils.hc_Retries
    (Utils.embedded
       (fst (Utils.parse_healthcheck_yaml Samples.ParseDuration Go.ParseInt
               (Utils.HealthcheckAccepted Samples.test_sequence))))
  = Some 3 /\
  Utils.hc_Retries
    (Utils.embedded
       (fst (Utils.parse_healthcheck_yaml Samples.ParseDuration Go.ParseInt
               (Utils.HealthcheckAccepted Samples.retries_null))))
  = Some 0.
Proof.
  split.
  - destruct (retries_default_when_absent Samples.ParseDuration Go.ParseInt
                (Utils.HealthcheckAccepted Samples.test_sequence))
      as (n & Hn & Hretries); [vm_compute; reflexivity|].
    injection Hn as <-. exact Hretries.
  - destruct (retries_default_when_absent Samples.ParseDuration Go.ParseInt
                (Utils.HealthcheckAccepted Samples.retries_null))
      as (n & Hn & Hretries); [vm_compute; reflexivity|].
    injection Hn as <-. exact Hretries.
Defined.

(** C2. With [command: ["echo"]], a sequence of one element and no [test],
    the parse succeeds and the command is the shell form, [CMD-SHELL]
    followed by the element, not the literal one-element command. *)
Theorem one_element_sequence_is_wrapped :
  Utils.node_command Samples.command_one_element = Utils.SSSequence ["echo"] /\
  Utils.node_test Samples.command_one_element = Utils.SSAbsent /\
  snd (Utils.parse_healthcheck_yaml Samples.ParseDuration Go.ParseInt
         (Utils.HealthcheckAccepted Samples.command_one_element))
  = None /\
  Utils.hc_Command
    (Utils.embedded
       (fst (Utils.parse_healthcheck_yaml Samples.ParseDuration Go.ParseInt
               (Utils.HealthcheckAccepted Samples.command_one_element))))
  = [Some "CMD-SHELL"; Some "echo"] /\
  Utils.hc_Command
    (Utils.embedded
       (fst (Utils.parse_healthcheck_yaml Samples.ParseDuration Go.ParseInt
               (Utils.HealthcheckAccepted Samples.command_one_element))))
  <> Utils.aws_StringSlice ["echo"].
Proof. repeat split; vm_compute; congruence. Qed.

(** Two or more elements are the literal command. *)
Example sequence_of_several_is_literal :
  Utils.hc_Command
    (Utils.embedded
       (fst (Utils.parse_healthcheck Samples.ParseDuration Go.ParseInt
               Samples.test_sequence)))
  = [Some "CMD"; Some "curl"; Some "-f"; Some "http://x"].
Proof.
  apply (single_element_is_shell_wrapped Samples.ParseDuration Go.ParseInt
           Samples.test_sequence ["CMD"; "curl"; "-f"; "http://x"]).
  - right. split; reflexivity.
  - vm_compute. reflexivity.
Qed.

Lemma time_field_duration_then_integer_witness :
  Utils.parseHealthCheckTimeField Samples.ParseDuration Go.ParseInt "2h"
  = (Some 7200, None) /\
  Utils.parseHealthCheckTimeField Samples.ParseDuration Go.ParseInt "15"
  = (Some 15, None).
Proof.
  destruct (time_field_duration_then_integer Samples.ParseDuration Go.ParseInt)
    as (_ & Hduration & Hinteger & _).
  split.
  - apply (Hduration "2h" 7200000000000); [discriminate | vm_compute; reflexivity].
  - apply (Hinteger "15" 15);
      [discriminate | vm_compute; reflexivity | vm_compute; reflexivity].
Defined.

Lemma network_configuration_extraction_witness :
  Utils.ConvertToECSNetworkConfiguration
    (Some (Samples.params "awsvpc" ["subnet-1"] ["sg-1"; "sg-2"] ""))
  = (Some {| Utils.ecs_AwsvpcConfiguration :=
               Some {| Utils.ecs_AssignPublicIp := None;
                       Utils.ecs_SecurityGroups := [Some "sg-1"; Some "sg-2"];
                       Utils.ecs_Subnets := [Some "subnet-1"] |} |},
     None).
Proof.
  destruct (network_configuration_extraction
              (Samples.params "awsvpc" ["subnet-1"] ["sg-1"; "sg-2"] ""))
    as [_ Hawsvpc].
  destruct (Hawsvpc eq_refl) as (_ & _ & Hsubnets).
  rewrite Hsubnets; [reflexivity | discriminate].
Defined.

Lemma no_default_file_is_no_error_witness :
  Utils.ReadECSParams (fun s => s) Samples.decode_nothing Samples.other_file_only ""
  = (None, None).
Proof.
  apply (no_default_file_is_no_error (fun s => s) Samples.decode_nothing
           Samples.other_file_only).
  vm_compute. reflexivity.
Defined.

Lemma save_inserts_entry_first_is_default_witness :
  exists doc' : gmap string Config.value,
    Config.SaveProfile Samples.marshal Samples.rdwr Samples.profile_p1 Samples.world_fresh
    = (fst (Config.saveToFile Samples.marshal Samples.rdwr "/home/user/.ecs/profile.yml"
              doc' Samples.world_fresh), None) /\
    doc' !! "default" = Some (Config.VString "p1") /\
    Config.data <$>
      (Config.files (fst (Config.SaveProfile Samples.marshal Samples.rdwr
                            Samples.profile_p1 Samples.world_fresh))
         !! "/home/user/.ecs/profile.yml")
    = Some (Samples.marshal doc').
Proof.
  destruct (save_inserts_entry_first_is_default Samples.marshal Samples.rdwr
              Samples.world_fresh)
    as [Hprofile _].
  destruct (Hprofile Samples.profile_p1 Samples.no_profiles ∅)
    as (doc' & Hsave & Hentry & Hdefault & _ & Hfile).
  - vm_compute. reflexivity.
  - vm_compute. reflexivity.
  - exists doc'. split; [exact Hsave|]. split.
    + rewrite Hdefault. destruct (decide (∅ = ∅)); [reflexivity | congruence].
    + apply Hfile. unfold Config.saveToFile. vm_compute. reflexivity.
Defined.

(** * The edges of the read/writer *)

(** A document that is read but has no mapping under its container key makes
    the save fail with the format error; nothing is written. *)
Lemma SaveProfile_without_container yaml_Marshal rdwr profile w doc :
  Config.ioutil_ReadFile w (Config.profileConfigPath (Config.destination rdwr))
    = (Config.Yaml doc, None) ->
  (forall m, doc !! "ecs_profiles" <> Some (Config.VMap m)) ->
  Config.SaveProfile yaml_Marshal rdwr profile w = (w, Some Config.format_error_profile).
Proof.
  intros Hread Hno. unfold Config.SaveProfile. rewrite Hread. simpl.
  rewrite (right_id_L ∅ (∪)). unfold Config.index.
  destruct (doc !! "ecs_profiles") as [[]|] eqn:E; simpl; try reflexivity.
  exfalso. eapply Hno. reflexivity.
Qed.

(** Resolution of a named profile in a document without a mapping under
    ["ecs_profiles"] panics: the assertion on the container has one result. *)
Lemma processProfileMap_panics_without_container profileKey profileMap configMap cliConfig :
  profileKey <> "" ->
  (forall m, profileMap !! "ecs_profiles" <> Some (Config.VMap m)) ->
  Config.processProfileMap profileKey profileMap configMap cliConfig = Config.Panics.
Proof.
  intros Hkey Hno. unfold Config.processProfileMap.
  apply String.eqb_neq in Hkey. rewrite Hkey. simpl. unfold Config.index at 1.
  destruct (profileMap !! "ecs_profiles") as [[]|] eqn:E; simpl; try reflexivity.
  exfalso. eapply Hno. reflexivity.
Qed.

(** * More on health checks *)

Section HealthCheckMore.

Variable time_ParseDuration : string -> option Z.
Variable strconv_ParseInt : string -> option Z.

Local Abbreviation parseTime :=
  (Utils.parseHealthCheckTimeField time_ParseDuration strconv_ParseInt).
Local Abbreviation parse :=
  (Utils.parse_healthcheck time_ParseDuration strconv_ParseInt).
Local Abbreviation UnmarshalYAML :=
  (Utils.UnmarshalYAML time_ParseDuration strconv_ParseInt).

(** What [UnmarshalYAML] returns, for any callback: the receiver and the error
    of the first step that fails, or a health check built from nothing but the
    decoded fields. *)
Lemma UnmarshalYAML_cases h unmarshal :
  (exists e, UnmarshalYAML h unmarshal = (h, Some e)) \/
  (exists hc, forall h', UnmarshalYAML h' unmarshal = (hc, None)).
Proof.
  unfold Utils.UnmarshalYAML.
  destruct (unmarshal _) as [raw [e|]]; [left; eauto|].
  destruct (_ && _); [left; eauto|].
  destruct (parseTime (Utils.Timeout raw)) as [v1 [e|]]; [left; eauto|].
  destruct (parseTime (Utils.StartPeriod raw)) as [v2 [e|]]; [left; eauto|].
  destruct (parseTime (Utils.Interval raw)) as [v3 [e|]]; [left; eauto|].
  right. eexists. intros h'. reflexivity.
Qed.

(** X1. Whatever the callback decodes, a health check that fails to parse
    leaves the receiver as it was. *)
Theorem UnmarshalYAML_failure_keeps_receiver :
  forall (h : Utils.HealthCheck)
         (unmarshal : Utils.healthCheckFormat -> Utils.healthCheckFormat * option error),
    snd (UnmarshalYAML h unmarshal) <> None ->
    fst (UnmarshalYAML h unmarshal) = h.
Proof.
  intros h unmarshal Herr.
  destruct (UnmarshalYAML_cases h unmarshal) as [[e E]|[hc E]].
  - rewrite E. reflexivity.
  - rewrite (E h) in Herr. simpl in Herr. congruence.
Qed.

(** X2. A health check that parses does not depend on what the receiver held:
    no field of the old value survives. *)
Theorem UnmarshalYAML_success_forgets_receiver :
  forall (h1 h2 : Utils.HealthCheck)
         (unmarshal : Utils.healthCheckFormat -> Utils.healthCheckFormat * option error),
    snd (UnmarshalYAML h1 unmarshal) = None ->
    UnmarshalYAML h2 unmarshal = UnmarshalYAML h1 unmarshal.
Proof.
  intros h1 h2 unmarshal Hok.
  destruct (UnmarshalYAML_cases h1 unmarshal) as [[e E]|[hc E]].
  - rewrite E in Hok. discriminate.
  - rewrite (E h1), (E h2). reflexivity.
Qed.

(** X3. The error of parsing the value of a [healthcheck] key: the error of
    the decoder when it refuses the value; otherwise the conflict error when
    both [command] and [test] hold elements; otherwise the error of the first
    time field that does not parse, in the order timeout, start period,
    interval; otherwise none. *)
Theorem parse_error_order :
  forall (y : Utils.healthcheck_yaml),
    snd (Utils.parse_healthcheck_yaml time_ParseDuration strconv_ParseInt y)
    = match y with
      | Utils.HealthcheckRejected err => Some err
      | Utils.HealthcheckAccepted n =>
          if (0 <? length (Utils.Stringorslice_decode (Utils.node_command n) []))%nat
             && (0 <? length (Utils.Stringorslice_decode (Utils.node_test n) []))%nat
          then Some Utils.conflict_error
          else
            match snd (parseTime (default "" (Utils.node_timeout n))) with
            | Some e => Some e
            | None =>
                match snd (parseTime (default "" (Utils.node_start_period n))) with
                | Some e => Some e
                | None => snd (parseTime (default "" (Utils.node_interval n)))
                end
            end
      end.
Proof.
  intros [n|err]; [|reflexivity].
  unfold Utils.parse_healthcheck_yaml, Utils.UnmarshalYAML, Utils.unmarshal_healthcheck,
    Utils.yaml_unmarshal.
  cbn [Utils.Command Utils.Test Utils.Timeout Utils.Interval Utils.Retries
       Utils.StartPeriod].
  destruct (_ && _); [reflexivity|].
  destruct (parseTime (default "" (Utils.node_timeout n))) as [v1 [e|]]; [reflexivity|].
  destruct (parseTime (default "" (Utils.node_start_period n))) as [v2 [e|]];
    [reflexivity|].
  destruct (parseTime (default "" (Utils.node_interval n))) as [v3 [e|]]; reflexivity.
Qed.

(** X4. [test] and [command] are interchangeable: two nodes that differ only
    by holding under [test] what the other holds under [command] parse to the
    same result. *)
Theorem test_and_command_interchangeable :
  forall (n1 n2 : Utils.healthCheckNode),
    Utils.node_test n1 = Utils.node_command n2 ->
    Utils.node_command n1 = Utils.node_test n2 ->
    Utils.node_timeout n1 = Utils.node_timeout n2 ->
    Utils.node_interval n1 = Utils.node_interval n2 ->
    Utils.node_retries n1 = Utils.node_retries n2 ->
    Utils.node_start_period n1 = Utils.node_start_period n2 ->
    parse n1 = parse n2.
Proof.
  intros n1 n2 Ht Hc Hto Hi Hr Hs.
  unfold Utils.parse_healthcheck, Utils.UnmarshalYAML, Utils.yaml_unmarshal.
  cbn [Utils.Command Utils.Test Utils.Timeout Utils.Interval Utils.Retries
       Utils.StartPeriod].
  rewrite Ht, Hc, Hto, Hi, Hr, Hs.
  destruct (Utils.Stringorslice_decode (Utils.node_test n2) []) as [|a l];
    destruct (Utils.Stringorslice_decode (Utils.node_command n2) []) as [|b k];
    reflexivity.
Qed.

(** X5. The command of a health check that parses never has exactly one
    element: it is empty, or the shell form of two elements, or a sequence of
    two or more elements. *)
Theorem parsed_command_never_single :
  forall (n : Utils.healthCheckNode),
    snd (parse n) = None ->
    length (Utils.hc_Command (Utils.embedded (fst (parse n)))) <> 1%nat.
Proof.
  intros n H. destruct (parse n) as [hc e] eqn:E. simpl in H. subst e.
  apply parse_success in E. simpl. destruct E as (_ & -> & _).
  destruct (0 <? length _)%nat.
  - destruct (Utils.Stringorslice_decode (Utils.node_test n) []) as [|a [|b l]];
      simpl; discriminate.
  - destruct (Utils.Stringorslice_decode (Utils.node_command n) []) as [|a [|b l]];
      simpl; discriminate.
Qed.

(** X7. The value of a container definition: decoding fails with the error
    of the decoder when it refuses the value, and otherwise exactly when the
    health check fails, with the error of the health check; on a failure the
    receiver is as it was. When it succeeds the decoder has accepted the
    value, [essential] is true when its key is absent, false when it holds
    null and the value given otherwise, the numbers are those given, zero
    when absent, and the health check is the parsed one. *)
Theorem container_definition_parsing :
  forall (cd : Utils.ContainerDef) (y : Utils.container_yaml),
    let r := Utils.parse_ContainerDef time_ParseDuration strconv_ParseInt cd y in
    snd r = match y with
            | Utils.ContainerRejected err => Some err
            | Utils.ContainerAccepted n =>
                match Utils.node_healthcheck n with
                | Some hn => snd (parse hn)
                | None => None
                end
            end /\
    (snd r <> None -> fst r = cd) /\
    (snd r = None ->
     exists n : Utils.containerDefNode,
       y = Utils.ContainerAccepted n /\
       Utils.Essential (fst r)
         = match Utils.node_essential n with
           | Utils.EssentialAbsent => true
           | Utils.EssentialNull => false
           | Utils.EssentialValue b => b
           end /\
       Utils.Cpu (fst r)
         = match Utils.node_cpu_shares n with Some v => Go.int64_val v | None => 0 end /\
       Utils.Memory (fst r)
         = match Utils.node_mem_limit n with Some v => Go.int64_val v | None => 0 end /\
       Utils.MemoryReservation (fst r)
         = match Utils.node_mem_reservation n with
           | Some v => Go.int64_val v
           | None => 0
           end /\
       Utils.cd_HealthCheck (fst r)
         = match Utils.node_healthcheck n with
           | Some hn => fst (parse hn)
           | None => Utils.empty_HealthCheck
           end).
Proof.
  intros cd [n|err] r; subst r.
  - unfold Utils.parse_ContainerDef, Utils.ContainerDef_UnmarshalYAML,
      Utils.unmarshal_container, Utils.yaml_unmarshal_ContainerDef,
      Utils.parse_healthcheck.
    cbn [Utils.Essential Utils.cd_HealthCheck Utils.Cpu Utils.Memory
         Utils.MemoryReservation].
    destruct (Utils.node_healthcheck n) as [hn|] eqn:Eh.
    + destruct (Utils.UnmarshalYAML _ _ _ _) as [hc [e|]] eqn:Eu; simpl.
      * repeat split; congruence.
      * split; [reflexivity|]. split; [congruence|]. intros _. exists n.
        rewrite Eh, Eu.
        destruct (Utils.node_essential n), (Utils.node_cpu_shares n),
          (Utils.node_mem_limit n), (Utils.node_mem_reservation n);
          repeat split; reflexivity.
    + simpl. split; [reflexivity|]. split; [congruence|]. intros _. exists n.
      rewrite Eh.
      destruct (Utils.node_essential n), (Utils.node_cpu_shares n),
        (Utils.node_mem_limit n), (Utils.node_mem_reservation n);
        repeat split; reflexivity.
  - simpl. repeat split; congruence.
Qed.

(** X9. For a non-empty string, the string format and the parser agree: the
    command [healthCheckWithTestAsString] gives for the string is the command
    of a node holding that string under [test]. *)
Theorem string_format_agrees_with_parser :
  forall (n : Utils.healthCheckNode) (s : string) (h : Utils.HealthCheck),
    s <> "" ->
    Utils.node_test n = Utils.SSString s ->
    Utils.Stringorslice_decode (Utils.node_command n) [] = [] ->
    snd (parse n) = None ->
    Utils.hc_Command
      (Utils.embedded
         (Utils.healthCheckWithTestAsString_toHealthCheck {| Utils.str_Test := s |} h))
    = Utils.hc_Command (Utils.embedded (fst (parse n))).
Proof.
  intros n s h Hs Ht Hc H. destruct (parse n) as [hc e] eqn:E. simpl in H. subst e.
  apply parse_success in E. simpl. destruct E as (_ & -> & _).
  rewrite Ht. simpl.
  unfold Utils.healthCheckWithTestAsString_toHealthCheck. simpl.
  apply String.eqb_neq in Hs. rewrite Hs. reflexivity.
Qed.

End HealthCheckMore.

(** X8. [healthCheckECSFormat.toHealthCheck] only adds: applying it twice is
    applying it once, a field of the health check that was set stays set, and
    a zero is never copied into a field. *)
Theorem ecs_format_only_adds :
  forall (h : Utils.healthCheckECSFormat) (hc : Utils.HealthCheck),
    let r := Utils.embedded (Utils.healthCheckECSFormat_toHealthCheck h hc) in
    let e := Utils.embedded hc in
    Utils.healthCheckECSFormat_toHealthCheck h
      (Utils.healthCheckECSFormat_toHealthCheck h hc)
    = Utils.healthCheckECSFormat_toHealthCheck h hc /\
    (Utils.hc_Command e <> [] -> Utils.hc_Command r <> []) /\
    (Utils.hc_Interval e <> None -> Utils.hc_Interval r <> None) /\
    (Utils.hc_Retries e <> None -> Utils.hc_Retries r <> None) /\
    (Utils.hc_StartPeriod e <> None -> Utils.hc_StartPeriod r <> None) /\
    (Utils.hc_Timeout e <> None -> Utils.hc_Timeout r <> None) /\
    (Utils.hc_Interval r = Some 0 -> Utils.hc_Interval e = Some 0) /\
    (Utils.hc_Retries r = Some 0 -> Utils.hc_Retries e = Some 0) /\
    (Utils.hc_StartPeriod r = Some 0 -> Utils.hc_StartPeriod e = Some 0) /\
    (Utils.hc_Timeout r = Some 0 -> Utils.hc_Timeout e = Some 0).
Proof.
  intros [c t i r s] [[c0 i0 r0 s0 t0]].
  unfold Utils.healthCheckECSFormat_toHealthCheck, Utils.set_and_nonzero; simpl.
  destruct c as [|c1 c]; destruct i as [i|]; destruct r as [r|];
    destruct s as [s|]; destruct t as [t|]; simpl;
    repeat match goal with
           | |- context [Z.eqb ?x 0] => destruct (Z.eqb_spec x 0)
           end;
    simpl; repeat split; intros; subst; congruence.
Qed.

(** * Plain integers in time fields *)

Lemma is_digit_not_sign c :
  Go.is_digit c = true ->
  Ascii.eqb c "-" = false /\ Ascii.eqb c "+" = false /\ Ascii.eqb c "." = false.
Proof.
  destruct c as [[] [] [] [] [] [] [] []]; vm_compute; intros H;
    try discriminate H; repeat split.
Qed.

Lemma digits_value_first acc c r n :
  Go.digits_value acc (String c r) = Some n -> Go.is_digit c = true.
Proof. simpl. destruct (Go.is_digit c); [reflexivity | discriminate]. Qed.

(** On a string of digits [leadingInt] overflows or consumes everything. *)
Lemma leadingInt_from_digits s :
  forall acc n x,
    Go.digits_value acc s = Some n ->
    Go.leadingInt_from x s = None \/ exists v, Go.leadingInt_from x s = Some (v, "").
Proof.
  induction s as [|c r IH]; intros acc n x H; simpl in *.
  - right. eauto.
  - destruct (Go.is_digit c); [|discriminate].
    destruct (Go.maxInt64 / 10 <? x); [left; reflexivity|].
    destruct (Go.maxInt64 <? x * 10 + Go.digit_value c); [left; reflexivity|].
    eapply IH. exact H.
Qed.

(** A string of digits other than "0" is no duration: its unit is missing. *)
Lemma ParseDuration_digits frac_ns s n :
  s <> "" -> s <> "0" -> Go.digits_value 0 s = Some n ->
  Go.ParseDuration frac_ns s = None.
Proof.
  intros Hne H0 Hd. destruct s as [|c r]; [congruence|].
  pose proof (digits_value_first _ _ _ _ Hd) as Hc.
  destruct (is_digit_not_sign c Hc) as (Hm & Hp & Hdot).
  unfold Go.ParseDuration, Go.ParseDuration_outcome. rewrite Hm, Hp.
  apply String.eqb_neq in H0. rewrite H0.
  replace (String.eqb (String c r) "") with false by reflexivity.
  cbn [String.length Go.ParseDuration_loop]. rewrite Hc, orb_true_r. cbn [negb].
  unfold Go.leadingInt.
  destruct (leadingInt_from_digits (String c r) 0 n 0 Hd) as [E|[v E]]; rewrite E.
  - reflexivity.
  - reflexivity.
Qed.

(** X6. A time field written as a plain decimal integer within [int64] is
    that many seconds: it is never taken for a duration, whatever the number
    of digits. *)
Theorem plain_integer_is_seconds :
  forall (frac_ns : Z -> nat -> Z -> Z) (s : string) (n : Z),
    s <> "" ->
    Go.digits_value 0 s = Some n ->
    n < 2 ^ 63 ->
    Utils.parseHealthCheckTimeField (Go.ParseDuration frac_ns) Go.ParseInt s
    = (Some n, None).
Proof.
  intros frac_ns s n Hne Hd Hn.
  unfold Utils.parseHealthCheckTimeField.
  pose proof Hne as Hne'. apply String.eqb_neq in Hne'. rewrite Hne'. cbn [negb].
  destruct (string_dec s "0") as [->|H0].
  - vm_compute in Hd. inversion Hd. subst n. vm_compute. reflexivity.
  - rewrite (ParseDuration_digits frac_ns s n Hne H0 Hd).
    destruct s as [|c r]; [congruence|].
    pose proof (digits_value_first _ _ _ _ Hd) as Hc.
    destruct (is_digit_not_sign c Hc) as (Hm & Hp & _).
    unfold Go.ParseInt. rewrite Hm, Hp. cbn [orb negb andb]. rewrite Hd.
    replace (2 ^ 63 <=? n) with false by (symmetry; apply Z.leb_gt; exact Hn).
    reflexivity.
Qed.

(** * More on the loader *)

Lemma append_assoc (a b c : string) : ((a ++ b) ++ c = a ++ (b ++ c))%string.
Proof.
  induction a as [|x a IH]; [reflexivity|].
  change (String x ((a ++ b) ++ c) = String x (a ++ (b ++ c)))%string.
  rewrite IH. reflexivity.
Qed.

Section LoaderFacts.

Variable os_ExpandEnv : string -> string.
Variable yaml_Unmarshal :
  string -> option Utils.ECSParams -> option Utils.ECSParams * option error.

Local Abbreviation ReadECSParams := (Utils.ReadECSParams os_ExpandEnv yaml_Unmarshal).

(** X10. A named file that does not exist is an error that carries the name;
    only the default file may be missing. *)
Theorem named_file_missing_is_error :
  forall (fs : gmap string Utils.file) (filename : string),
    filename <> "" ->
    fs !! filename = None ->
    ReadECSParams fs filename
    = (None,
       Some ("Error reading file '" ++ filename ++ "': open " ++ filename
               ++ ": no such file or directory")).
Proof.
  intros fs filename Hne Habsent. unfold Utils.ReadECSParams.
  apply String.eqb_neq in Hne. rewrite Hne.
  unfold Utils.ioutil_ReadFile. rewrite Habsent.
  unfold Utils.errors_Wrapf. rewrite !append_assoc. reflexivity.
Qed.

(** X11. With an empty path and ecs-params.yml in the working directory, the
    loader does what it does for the path ecs-params.yml. *)
Theorem empty_path_reads_default_file :
  forall (fs : gmap string Utils.file),
    fs !! "ecs-params.yml" <> None ->
    ReadECSParams fs "" = ReadECSParams fs "ecs-params.yml".
Proof.
  intros fs Hpresent. unfold Utils.ReadECSParams, Utils.os_Stat_ok.
  replace (String.eqb "" "") with true by reflexivity.
  replace (String.eqb "ecs-params.yml" "") with false by reflexivity.
  destruct (fs !! "ecs-params.yml"); [reflexivity | congruence].
Qed.

(** X12. The loader never returns a document together with an error, and a
    named file that cannot be read never reaches the decoder: the error is the
    one of the read, with the name of the file. *)
Theorem loader_error_means_no_document :
  forall (fs : gmap string Utils.file) (filename : string),
    (snd (ReadECSParams fs filename) <> None -> fst (ReadECSParams fs filename) = None) /\
    (forall err, filename <> "" -> fs !! filename = Some (Utils.Unreadable err) ->
       ReadECSParams fs filename
       = (None, Some ("Error reading file '" ++ filename ++ "': " ++ err))).
Proof.
  intros fs filename. split.
  - unfold Utils.ReadECSParams.
    destruct (String.eqb filename "").
    + destruct (Utils.os_Stat_ok fs "ecs-params.yml"); [|simpl; congruence].
      destruct (Utils.ioutil_ReadFile fs "ecs-params.yml") as [b [e|]]; [reflexivity|].
      destruct (yaml_Unmarshal _ _) as [d [e|]]; simpl; congruence.
    + destruct (Utils.ioutil_ReadFile fs filename) as [b [e|]]; [reflexivity|].
      destruct (yaml_Unmarshal _ _) as [d [e|]]; simpl; congruence.
  - intros err Hne Hfile. unfold Utils.ReadECSParams.
    apply String.eqb_neq in Hne. rewrite Hne.
    unfold Utils.ioutil_ReadFile. rewrite Hfile.
    unfold Utils.errors_Wrapf. rewrite !append_assoc. reflexivity.
Qed.

End LoaderFacts.

(** * More on resolution *)

(** An empty selector is the document's default. *)
Lemma processProfileMap_default profileMap configMap cliConfig d :
  profileMap !! "default" = Some (Config.VString d) ->
  Config.processProfileMap "" profileMap configMap cliConfig
  = Config.processProfileMap d profileMap configMap cliConfig.
Proof.
  intros Hd. unfold Config.processProfileMap, Config.index.
  replace (String.eqb "" "") with true by reflexivity.
  rewrite Hd. simpl. destruct (String.eqb d ""); reflexivity.
Qed.

Lemma processClusterMap_default clusterMap configMap cliConfig d :
  clusterMap !! "default" = Some (Config.VString d) ->
  Config.processClusterMap "" clusterMap configMap cliConfig
  = Config.processClusterMap d clusterMap configMap cliConfig.
Proof.
  intros Hd. unfold Config.processClusterMap, Config.index.
  replace (String.eqb "" "") with true by reflexivity.
  rewrite Hd. simpl. destruct (String.eqb d ""); reflexivity.
Qed.

Lemma processProfileMap_ok selector key profileMap profiles entry a s configMap cliConfig :
  Samples.selects selector profileMap key ->
  profileMap !! "ecs_profiles" = Some (Config.VMap profiles) ->
  profiles !! key = Some (Config.VMap entry) ->
  entry !! Config.awsAccessKey = Some (Config.VString a) ->
  entry !! Config.awsSecretKey = Some (Config.VString s) ->
  Config.processProfileMap selector profileMap configMap cliConfig
  = Config.Returns
      (<[Config.awsSecretKey := Config.VString s]>
         (<[Config.awsAccessKey := Config.VString a]> configMap),
       Config.set_AwsSecretKey s (Config.set_AwsAccessKey a cliConfig),
       None).
Proof.
  intros Hsel Hc Hk Ha Hs.
  assert (E : Config.processProfileMap selector profileMap configMap cliConfig
              = Config.processProfileMap key profileMap configMap cliConfig /\
              (key <> "" \/ profileMap !! "default" = Some (Config.VString key))).
  { destruct Hsel as [[Hne ->]|[-> Hd]].
    - split; [reflexivity | left; exact Hne].
    - split; [apply processProfileMap_default; exact Hd | right; exact Hd]. }
  destruct E as [-> Hkey].
  unfold Config.processProfileMap, Config.index.
  destruct (String.eqb_spec key "") as [Hempty|Hne].
  - destruct Hkey as [Hkey|Hd]; [congruence|]. subst key. rewrite Hd. simpl.
    rewrite Hc. simpl. rewrite Hk. simpl. rewrite Ha, Hs. reflexivity.
  - simpl. rewrite Hc. simpl. rewrite Hk. simpl. rewrite Ha, Hs. reflexivity.
Qed.

Local Ltac step :=
  cbv beta iota zeta delta
    [default from_option id negb Config.assert_map Config.assert_string].

Lemma processClusterMap_ok selector key clusterMap clusters entry cl rg configMap cliConfig :
  Samples.selects selector clusterMap key ->
  clusterMap !! "clusters" = Some (Config.VMap clusters) ->
  clusters !! key = Some (Config.VMap entry) ->
  entry !! Config.clusterKey = Some (Config.VString cl) ->
  entry !! Config.regionKey = Some (Config.VString rg) ->
  (entry !! Config.composeProjectNamePrefixKey = None \/
   exists p, entry !! Config.composeProjectNamePrefixKey = Some (Config.VString p)) ->
  (entry !! Config.composeServiceNamePrefixKey = None \/
   exists p, entry !! Config.composeServiceNamePrefixKey = Some (Config.VString p)) ->
  (entry !! Config.cfnStackNamePrefixKey = None \/
   exists p, entry !! Config.cfnStackNamePrefixKey = Some (Config.VString p)) ->
  exists configMap' cliConfig',
    Config.processClusterMap selector clusterMap configMap cliConfig
    = Config.Returns (configMap', cliConfig', None) /\
    Config.Cluster cliConfig' = cl /\
    Config.Region cliConfig' = rg /\
    Config.ComposeProjectNamePrefix cliConfig'
    = match entry !! Config.composeProjectNamePrefixKey with
      | Some (Config.VString p) => p
      | _ => Config.ComposeProjectNamePrefix cliConfig
      end /\
    Config.ComposeServiceNamePrefix cliConfig'
    = match entry !! Config.composeServiceNamePrefixKey with
      | Some (Config.VString p) => p
      | _ => Config.ComposeServiceNamePrefix cliConfig
      end /\
    Config.CFNStackNamePrefix cliConfig'
    = match entry !! Config.cfnStackNamePrefixKey with
      | Some (Config.VString p) => p
      | _ => Config.CFNStackNamePrefix cliConfig
      end /\
    Config.AwsProfile cliConfig' = Config.AwsProfile cliConfig /\
    Config.AwsAccessKey cliConfig' = Config.AwsAccessKey cliConfig /\
    Config.AwsSecretKey cliConfig' = Config.AwsSecretKey cliConfig /\
    configMap' !! Config.clusterKey = Some (Config.VString cl) /\
    configMap' !! Config.regionKey = Some (Config.VString rg) /\
    (forall k,
       k = Config.composeProjectNamePrefixKey \/ k = Config.composeServiceNamePrefixKey \/
       k = Config.cfnStackNamePrefixKey ->
       configMap' !! k
       = match entry !! k with Some v => Some v | None => configMap !! k end).
Proof.
  intros Hsel Hc Hk Hcl Hrg H1 H2 H3.
  assert (E : Config.processClusterMap selector clusterMap configMap cliConfig
              = Config.processClusterMap key clusterMap configMap cliConfig /\
              (key <> "" \/ clusterMap !! "default" = Some (Config.VString key))).
  { destruct Hsel as [[Hne ->]|[-> Hd]].
    - split; [reflexivity | left; exact Hne].
    - split; [apply processClusterMap_default; exact Hd | right; exact Hd]. }
  destruct E as [-> Hkey].
  unfold Config.processClusterMap, Config.copy_prefix, Config.index.
  unfold Config.clusterKey, Config.regionKey, Config.composeProjectNamePrefixKey,
    Config.composeServiceNamePrefixKey, Config.cfnStackNamePrefixKey in *.
  assert (Hfirst :
            (if String.eqb key ""
             then Config.assert_string (default Config.VNil (clusterMap !! "default"))
             else (key, true)) = (key, true)).
  { destruct (String.eqb_spec key "") as [Hempty|Hne]; [|reflexivity].
    destruct Hkey as [Hkey|Hd]; [congruence|]. rewrite Hd. reflexivity. }
  rewrite Hfirst. step. rewrite Hc. step. rewrite Hk. step. rewrite Hcl, Hrg. step.
  destruct H1 as [H1|[p1 H1]]; destruct H2 as [H2|[p2 H2]]; destruct H3 as [H3|[p3 H3]];
    rewrite H1, H2, H3; step;
    do 2 eexists; (split; [reflexivity|]); simpl;
    repeat split;
    try (intros k [-> | [-> | ->]]; rewrite ?H1, ?H2, ?H3);
    simplify_map_eq; reflexivity.
Qed.

Local Ltac case_matches H :=
  repeat match type of H with
         | context [match ?x with _ => _ end] =>
             lazymatch x with
             | context [match _ with _ => _ end] => fail
             | _ => destruct x; simpl in H
             end
         end.

(** X13. With a default in each document, resolving with empty selectors is
    resolving with the names the defaults hold. *)
Theorem empty_selectors_resolve_defaults :
  forall (legacy : Config.LegacyReader) (rdwr : Config.YamlReadWriter) (w : Config.World)
         (profileDoc clusterDoc : gmap string Config.value) (dp dc : string),
    Config.ioutil_ReadFile w (Config.profileConfigPath (Config.destination rdwr))
      = (Config.Yaml profileDoc, None) ->
    Config.ioutil_ReadFile w (Config.clusterConfigPath (Config.destination rdwr))
      = (Config.Yaml clusterDoc, None) ->
    profileDoc !! "default" = Some (Config.VString dp) ->
    clusterDoc !! "default" = Some (Config.VString dc) ->
    Config.GetConfigs legacy rdwr "" "" w = Config.GetConfigs legacy rdwr dc dp w.
Proof.
  intros legacy rdwr w profileDoc clusterDoc dp dc Hp Hc Hdp Hdc.
  unfold Config.GetConfigs.
  destruct (_ && _); [reflexivity|].
  rewrite Hp, Hc. simpl. rewrite !(right_id_L ∅ (∪)).
  rewrite (processProfileMap_default profileDoc ∅ Config.new_CliConfig dp Hdp).
  destruct (Config.processProfileMap dp profileDoc ∅ Config.new_CliConfig)
    as [[[cm c] e]|]; [|reflexivity].
  rewrite (processClusterMap_default clusterDoc cm c dc Hdc). reflexivity.
Qed.

(** X14. A profile entry that holds both credentials as strings resolves: the
    credentials are put into the configuration and under their keys in the
    configuration map, and the error is nil. *)
Theorem profile_resolution_succeeds :
  forall (selector key : string) (profileMap profiles entry : gmap string Config.value)
         (a s : string) (configMap : gmap string Config.value)
         (cliConfig : Config.CliConfig),
    Samples.selects selector profileMap key ->
    profileMap !! "ecs_profiles" = Some (Config.VMap profiles) ->
    profiles !! key = Some (Config.VMap entry) ->
    entry !! Config.awsAccessKey = Some (Config.VString a) ->
    entry !! Config.awsSecretKey = Some (Config.VString s) ->
    Config.processProfileMap selector profileMap configMap cliConfig
    = Config.Returns
        (<[Config.awsSecretKey := Config.VString s]>
           (<[Config.awsAccessKey := Config.VString a]> configMap),
         Config.set_AwsSecretKey s (Config.set_AwsAccessKey a cliConfig),
         None).
Proof. intros. eapply processProfileMap_ok; eassumption. Qed.

(** X15. When [processProfileMap] returns a nil error, the configuration and
    the configuration map agree: both credentials are strings, the same in
    each. *)
Theorem profile_resolution_consistent :
  forall (selector : string) (profileMap configMap configMap' : gmap string Config.value)
         (cliConfig cliConfig' : Config.CliConfig),
    Config.processProfileMap selector profileMap configMap cliConfig
    = Config.Returns (configMap', cliConfig', None) ->
    configMap' !! Config.awsAccessKey
    = Some (Config.VString (Config.AwsAccessKey cliConfig')) /\
    configMap' !! Config.awsSecretKey
    = Some (Config.VString (Config.AwsSecretKey cliConfig')).
Proof.
  intros selector profileMap configMap configMap' cliConfig cliConfig' H.
  unfold Config.processProfileMap in H.
  destruct (if String.eqb selector "" then _ else _) as [key [|]];
    simpl in H; [|discriminate H].
  destruct (Config.index profileMap "ecs_profiles") as [| | | | |profiles];
    try discriminate H.
  destruct (Config.index profiles key) as [| | | | |entry]; simpl in H;
    try discriminate H.
  unfold Config.index in H.
  destruct (entry !! Config.awsAccessKey) as [[]|]; simpl in H; try discriminate H.
  destruct (entry !! Config.awsSecretKey) as [[]|]; simpl in H; try discriminate H.
  inversion H; subst. unfold Config.awsAccessKey, Config.awsSecretKey. simpl.
  simplify_map_eq. split; reflexivity.
Qed.

(** X16. A cluster entry that holds the cluster and the region as strings, and
    each of the three prefixes as a string or not at all, resolves: cluster
    and region are set, a prefix that is present is copied and one that is
    absent leaves the configuration and the map as they were, and the
    credentials are not touched. *)
Theorem cluster_resolution_optional_prefixes :
  forall (selector key : string) (clusterMap clusters entry : gmap string Config.value)
         (cl rg : string) (configMap : gmap string Config.value)
         (cliConfig : Config.CliConfig),
    Samples.selects selector clusterMap key ->
    clusterMap !! "clusters" = Some (Config.VMap clusters) ->
    clusters !! key = Some (Config.VMap entry) ->
    entry !! Config.clusterKey = Some (Config.VString cl) ->
    entry !! Config.regionKey = Some (Config.VString rg) ->
    (entry !! Config.composeProjectNamePrefixKey = None \/
     exists p, entry !! Config.composeProjectNamePrefixKey = Some (Config.VString p)) ->
    (entry !! Config.composeServiceNamePrefixKey = None \/
     exists p, entry !! Config.composeServiceNamePrefixKey = Some (Config.VString p)) ->
    (entry !! Config.cfnStackNamePrefixKey = None \/
     exists p, entry !! Config.cfnStackNamePrefixKey = Some (Config.VString p)) ->
    exists configMap' cliConfig',
      Config.processClusterMap selector clusterMap configMap cliConfig
      = Config.Returns (configMap', cliConfig', None) /\
      Config.Cluster cliConfig' = cl /\
      Config.Region cliConfig' = rg /\
      Config.ComposeProjectNamePrefix cliConfig'
      = match entry !! Config.composeProjectNamePrefixKey with
        | Some (Config.VString p) => p
        | _ => Config.ComposeProjectNamePrefix cliConfig
        end /\
      Config.ComposeServiceNamePrefix cliConfig'
      = match entry !! Config.composeServiceNamePrefixKey with
        | Some (Config.VString p) => p
        | _ => Config.ComposeServiceNamePrefix cliConfig
        end /\
      Config.CFNStackNamePrefix cliConfig'
      = match entry !! Config.cfnStackNamePrefixKey with
        | Some (Config.VString p) => p
        | _ => Config.CFNStackNamePrefix cliConfig
        end /\
      Config.AwsProfile cliConfig' = Config.AwsProfile cliConfig /\
      Config.AwsAccessKey cliConfig' = Config.AwsAccessKey cliConfig /\
      Config.AwsSecretKey cliConfig' = Config.AwsSecretKey cliConfig /\
      configMap' !! Config.clusterKey = Some (Config.VString cl) /\
      configMap' !! Config.regionKey = Some (Config.VString rg) /\
      (forall k,
         k = Config.composeProjectNamePrefixKey \/
         k = Config.composeServiceNamePrefixKey \/
         k = Config.cfnStackNamePrefixKey ->
         configMap' !! k
         = match entry !! k with Some v => Some v | None => configMap !! k end).
Proof. intros. eapply processClusterMap_ok; eassumption. Qed.

(** X17. Whatever they return, [processProfileMap] leaves the cluster, the
    region, the profile name and the prefixes of the configuration as they
    were, and [processClusterMap] leaves the credentials and the profile
    name. *)
Theorem resolution_frames :
  forall (selector : string) (doc configMap configMap' : gmap string Config.value)
         (c c' : Config.CliConfig) (e : option error),
    (Config.processProfileMap selector doc configMap c = Config.Returns (configMap', c', e) ->
     Config.Cluster c' = Config.Cluster c /\
     Config.Region c' = Config.Region c /\
     Config.AwsProfile c' = Config.AwsProfile c /\
     Config.ComposeProjectNamePrefix c' = Config.ComposeProjectNamePrefix c /\
     Config.ComposeServiceNamePrefix c' = Config.ComposeServiceNamePrefix c /\
     Config.CFNStackNamePrefix c' = Config.CFNStackNamePrefix c) /\
    (Config.processClusterMap selector doc configMap c = Config.Returns (configMap', c', e) ->
     Config.AwsAccessKey c' = Config.AwsAccessKey c /\
     Config.AwsSecretKey c' = Config.AwsSecretKey c /\
     Config.AwsProfile c' = Config.AwsProfile c).
Proof.
  intros selector doc configMap configMap' c c' e. split; intros H.
  - unfold Config.processProfileMap, Config.assert_map, Config.assert_string,
      Config.index in H.
    destruct (String.eqb selector ""); case_matches H; try discriminate H;
      inversion H; subst; repeat split; reflexivity.
  - unfold Config.processClusterMap, Config.copy_prefix, Config.assert_map,
      Config.assert_string, Config.index in H.
    destruct (String.eqb selector ""); case_matches H; try discriminate H;
      inversion H; subst; repeat split; reflexivity.
Qed.

(** X18. With the ini file present and no cluster document, resolution is the
    legacy reader's: its configuration and its map come back unchanged, and
    an error of its construction or of its read comes back with a nil
    configuration; the selectors and the profile document play no part. *)
Theorem legacy_format_delegation :
  forall (legacy : Config.LegacyReader) (rdwr : Config.YamlReadWriter)
         (clusterConfig profileConfig : string) (w : Config.World),
    Config.os_Stat_ok w (Config.iniConfigPath legacy (Config.destination rdwr)) = true ->
    Config.os_Stat_ok w (Config.clusterConfigPath (Config.destination rdwr)) = false ->
    let made := Config.NewIniReadWriter legacy (Config.destination rdwr) w in
    (forall err, snd made = Some err ->
       Config.GetConfigs legacy rdwr clusterConfig profileConfig w
       = Config.Returns (None, None, Some err)) /\
    (snd made = None ->
     forall cliConfig configMap,
       Config.ini_GetConfig legacy (fst made) w = (cliConfig, configMap, None) ->
       Config.GetConfigs legacy rdwr clusterConfig profileConfig w
       = Config.Returns (cliConfig, configMap, None)) /\
    (snd made = None ->
     forall cliConfig configMap err,
       Config.ini_GetConfig legacy (fst made) w = (cliConfig, configMap, Some err) ->
       Config.GetConfigs legacy rdwr clusterConfig profileConfig w
       = Config.Returns (None, None, Some err)).
Proof.
  intros legacy rdwr clusterConfig profileConfig w Hini Hyaml made. subst made.
  unfold Config.GetConfigs. rewrite Hini, Hyaml. simpl.
  destruct (Config.NewIniReadWriter legacy (Config.destination rdwr) w) as [rw [e|]];
    simpl.
  - split; [intros err H; inversion H; reflexivity|]. split; intros H; discriminate H.
  - split; [intros err H; discriminate H|].
    split; intros _ cliConfig configMap; [|intros err]; intros E; rewrite E; reflexivity.
Qed.

(** X19. When the cluster document exists the legacy reader is never asked:
    resolution is the same with any legacy reader. *)
Theorem current_format_wins :
  forall (legacy1 legacy2 : Config.LegacyReader) (rdwr : Config.YamlReadWriter)
         (clusterConfig profileConfig : string) (w : Config.World),
    Config.os_Stat_ok w (Config.clusterConfigPath (Config.destination rdwr)) = true ->
    Config.GetConfigs legacy1 rdwr clusterConfig profileConfig w
    = Config.GetConfigs legacy2 rdwr clusterConfig profileConfig w.
Proof.
  intros legacy1 legacy2 rdwr clusterConfig profileConfig w Hyaml.
  unfold Config.GetConfigs. rewrite Hyaml, !andb_false_r. reflexivity.
Qed.

(** X20. With neither the ini file nor the cluster document, resolution
    returns the error of reading the cluster document; with the cluster
    document read and no profile document, the error of reading the profile
    document. Both come with a nil configuration and a nil map. *)
Theorem missing_documents_are_errors :
  forall (legacy : Config.LegacyReader) (rdwr : Config.YamlReadWriter)
         (clusterConfig profileConfig : string) (w : Config.World),
    let clusterPath := Config.clusterConfigPath (Config.destination rdwr) in
    let profilePath := Config.profileConfigPath (Config.destination rdwr) in
    (Config.os_Stat_ok w (Config.iniConfigPath legacy (Config.destination rdwr)) = false ->
     Config.files w !! clusterPath = None ->
     Config.GetConfigs legacy rdwr clusterConfig profileConfig w
     = Config.Returns
         (None, None, Some ("open " ++ clusterPath ++ ": no such file or directory"))) /\
    (forall clusterDoc,
       Config.ioutil_ReadFile w clusterPath = (Config.Yaml clusterDoc, None) ->
       Config.files w !! profilePath = None ->
       Config.GetConfigs legacy rdwr clusterConfig profileConfig w
       = Config.Returns
           (None, None, Some ("open " ++ profilePath ++ ": no such file or directory"))).
Proof.
  intros legacy rdwr clusterConfig profileConfig w clusterPath profilePath.
  subst clusterPath profilePath. split.
  - intros Hini Hc. unfold Config.GetConfigs. rewrite Hini. simpl.
    unfold Config.ioutil_ReadFile. rewrite Hc. reflexivity.
  - intros clusterDoc Hc Hp. unfold Config.GetConfigs.
    assert (Hstat : Config.os_Stat_ok w (Config.clusterConfigPath (Config.destination rdwr))
                    = true).
    { unfold Config.os_Stat_ok. unfold Config.ioutil_ReadFile in Hc.
      destruct (Config.files w !! _); [reflexivity | discriminate Hc]. }
    rewrite Hstat, andb_false_r, Hc. simpl.
    unfold Config.ioutil_ReadFile. rewrite Hp. reflexivity.
Qed.

(** * More on the write path *)

Section WritePathMore.

Variable yaml_Marshal : gmap string Config.value -> Config.bytes.

Local Abbreviation saveToFile := (Config.saveToFile yaml_Marshal).
Local Abbreviation SaveProfile := (Config.SaveProfile yaml_Marshal).
Local Abbreviation SaveCluster := (Config.SaveCluster yaml_Marshal).
Local Abbreviation SetDefaultProfile := (Config.SetDefaultProfile yaml_Marshal).
Local Abbreviation SetDefaultCluster := (Config.SetDefaultCluster yaml_Marshal).

Lemma saveToFile_faults rdwr path config w :
  let w' := fst (saveToFile rdwr path config w) in
  Config.mkdir_error w' = Config.mkdir_error w /\
  Config.chmod_error w' = Config.chmod_error w /\
  Config.open_error w' = Config.open_error w /\
  Config.write_error w' = Config.write_error w /\
  Config.umask w' = Config.umask w.
Proof.
  unfold Config.saveToFile, Config.os_Chmod, Config.ioutil_WriteFile.
  destruct (Config.mkdir_error w _); [simpl; auto|].
  destruct (Config.os_Stat_ok w path).
  - destruct (Config.chmod_error w path); [simpl; tauto|].
    destruct (Config.files w !! path); [|simpl; tauto]. simpl.
    destruct (Config.open_error w path); [simpl; tauto|].
    destruct (Config.write_error w path); simpl; tauto.
  - destruct (Config.open_error w path); [simpl; tauto|].
    destruct (Config.write_error w path); simpl; tauto.
Qed.

Lemma saveToFile_other_paths rdwr path config w path' :
  path' <> path ->
  Config.files (fst (saveToFile rdwr path config w)) !! path'
  = Config.files w !! path'.
Proof.
  intros Hne.
  unfold Config.saveToFile, Config.os_Chmod, Config.ioutil_WriteFile.
  destruct (Config.mkdir_error w _); [reflexivity|].
  destruct (Config.os_Stat_ok w path).
  - destruct (Config.chmod_error w path); [reflexivity|].
    destruct (Config.files w !! path); [|reflexivity]. simpl.
    destruct (Config.open_error w path); simpl.
    + rewrite lookup_insert_ne by congruence. reflexivity.
    + destruct (Config.write_error w path); simpl;
        rewrite !lookup_insert_ne by congruence; reflexivity.
  - destruct (Config.open_error w path); simpl; [reflexivity|].
    destruct (Config.write_error w path); simpl;
      rewrite lookup_insert_ne by congruence; reflexivity.
Qed.

Lemma saveToFile_succeeds rdwr path config w :
  Config.mkdir_error w (Config.Path (Config.destination rdwr)) = None ->
  Config.chmod_error w path = None ->
  Config.open_error w path = None ->
  Config.write_error w path = None ->
  snd (saveToFile rdwr path config w) = None.
Proof.
  intros Hm Hc Ho Hw.
  unfold Config.saveToFile, Config.os_Chmod, Config.ioutil_WriteFile, Config.os_Stat_ok.
  rewrite Hm, Hc. destruct (Config.files w !! path); simpl; rewrite Ho, Hw; reflexivity.
Qed.

(** The file a successful [saveToFile] leaves at the path. *)
Lemma saveToFile_file rdwr path config w :
  snd (saveToFile rdwr path config w) = None ->
  Config.files (fst (saveToFile rdwr path config w)) !! path
  = Some {| Config.perm :=
              if Config.os_Stat_ok w path then Config.configFileMode
              else Z.ldiff Config.configFileMode (Config.umask w);
            Config.read_error :=
              match Config.files w !! path with
              | Some f => Config.read_error f
              | None => None
              end;
            Config.data := yaml_Marshal config |}.
Proof.
  unfold Config.saveToFile, Config.os_Chmod, Config.ioutil_WriteFile, Config.os_Stat_ok.
  destruct (Config.mkdir_error w _); [discriminate|].
  destruct (Config.files w !! path) as [f|] eqn:Hf.
  - destruct (Config.chmod_error w path); [discriminate|]. simpl.
    destruct (Config.open_error w path); [discriminate|].
    destruct (Config.write_error w path); [discriminate|]. simpl. intros _.
    rewrite lookup_insert_eq. simpl. rewrite lookup_insert_eq. reflexivity.
  - destruct (Config.open_error w path); [discriminate|].
    destruct (Config.write_error w path); [discriminate|]. simpl. intros _.
    rewrite Hf. rewrite lookup_insert_eq. reflexivity.
Qed.

Lemma ReadFile_ok_inv w path dat :
  Config.ioutil_ReadFile w path = (dat, None) ->
  exists f, Config.files w !! path = Some f /\ Config.read_error f = None /\
            Config.data f = dat.
Proof.
  unfold Config.ioutil_ReadFile.
  destruct (Config.files w !! path) as [f|]; [|discriminate].
  destruct (Config.read_error f) eqn:E; [discriminate|].
  intros H. inversion H. eauto.
Qed.

(** After a successful [saveToFile] over a file that could be read, the file
    reads as the bytes of the document. *)
Lemma saveToFile_then_read rdwr path config w dat :
  Config.ioutil_ReadFile w path = (dat, None) ->
  snd (saveToFile rdwr path config w) = None ->
  Config.ioutil_ReadFile (fst (saveToFile rdwr path config w)) path
  = (yaml_Marshal config, None).
Proof.
  intros Hread Hok. destruct (ReadFile_ok_inv _ _ _ Hread) as (f & Hf & Hr & _).
  unfold Config.ioutil_ReadFile at 1. rewrite (saveToFile_file _ _ _ _ Hok), Hf. simpl.
  rewrite Hr. reflexivity.
Qed.

Lemma saveToFile_read_other rdwr path config w path' :
  path' <> path ->
  Config.ioutil_ReadFile (fst (saveToFile rdwr path config w)) path'
  = Config.ioutil_ReadFile w path'.
Proof.
  intros Hne. unfold Config.ioutil_ReadFile.
  rewrite (saveToFile_other_paths _ _ _ _ _ Hne). reflexivity.
Qed.

Lemma config_paths_differ dest :
  Config.profileConfigPath dest <> Config.clusterConfigPath dest.
Proof.
  unfold Config.profileConfigPath, Config.clusterConfigPath, Config.filepath_Join.
  intros H. apply String.app_inj in H. discriminate H.
Qed.

Lemma ReadFile_ok_stat w path dat :
  Config.ioutil_ReadFile w path = (dat, None) ->
  Config.os_Stat_ok w path = true.
Proof.
  intros H. destruct (ReadFile_ok_inv _ _ _ H) as (f & Hf & _).
  unfold Config.os_Stat_ok. rewrite Hf. reflexivity.
Qed.

(** [SaveProfile] when nothing fails and the bytes written read back as the
    document: what the world is afterwards. *)
Lemma SaveProfile_no_fault rdwr profile w doc profiles :
  let path := Config.profileConfigPath (Config.destination rdwr) in
  let doc' := Config.SaveProfile_document profile doc profiles in
  Config.ioutil_ReadFile w path = (Config.Yaml doc, None) ->
  doc !! "ecs_profiles" = Some (Config.VMap profiles) ->
  Config.mkdir_error w (Config.Path (Config.destination rdwr)) = None ->
  Config.chmod_error w path = None ->
  Config.open_error w path = None ->
  Config.write_error w path = None ->
  yaml_Marshal doc' = Config.Yaml doc' ->
  let w' := fst (SaveProfile rdwr profile w) in
  w' = fst (saveToFile rdwr path doc' w) /\
  Config.ioutil_ReadFile w' path = (Config.Yaml doc', None) /\
  doc' !! "ecs_profiles"
  = Some (Config.VMap
            (<[Config.profileName profile :=
                 Config.VMap
                   (<[Config.awsSecretKey := Config.VString (Config.pc_awsSecretKey profile)]>
                      (<[Config.awsAccessKey :=
                           Config.VString (Config.pc_awsAccessKey profile)]> ∅))]>
               profiles)) /\
  doc' !! "default"
  = (if decide (profiles = ∅)
     then Some (Config.VString (Config.profileName profile))
     else doc !! "default").
Proof.
  intros path doc' Hread Hc Hm Hch Ho Hw Hround w'. subst w' path doc'.
  assert (Hsave : SaveProfile rdwr profile w
                  = (fst (saveToFile rdwr
                            (Config.profileConfigPath (Config.destination rdwr))
                            (Config.SaveProfile_document profile doc profiles) w), None)).
  { unfold Config.SaveProfile. rewrite Hread. simpl.
    rewrite (right_id_L ∅ (∪)). unfold Config.index. rewrite Hc. simpl.
    destruct (Config.saveToFile _ _ _ _ _). reflexivity. }
  rewrite Hsave. simpl.
  split; [reflexivity|]. split; [|split].
  - rewrite <- Hround. apply (saveToFile_then_read _ _ _ _ _ Hread).
    apply saveToFile_succeeds; assumption.
  - unfold Config.SaveProfile_document. apply lookup_insert_eq.
  - unfold Config.SaveProfile_document. rewrite size_zero_decide.
    rewrite lookup_insert_ne by discriminate.
    destruct (decide (profiles = ∅)) as [E|E].
    + rewrite bool_decide_eq_true_2 by assumption. apply lookup_insert_eq.
    + rewrite bool_decide_eq_false_2 by assumption. reflexivity.
Qed.

Lemma SaveCluster_no_fault rdwr cluster w doc clusters :
  let path := Config.clusterConfigPath (Config.destination rdwr) in
  let doc' := Config.SaveCluster_document cluster doc clusters in
  Config.ioutil_ReadFile w path = (Config.Yaml doc, None) ->
  doc !! "clusters" = Some (Config.VMap clusters) ->
  Config.mkdir_error w (Config.Path (Config.destination rdwr)) = None ->
  Config.chmod_error w path = None ->
  Config.open_error w path = None ->
  Config.write_error w path = None ->
  yaml_Marshal doc' = Config.Yaml doc' ->
  let w' := fst (SaveCluster rdwr cluster w) in
  w' = fst (saveToFile rdwr path doc' w) /\
  Config.ioutil_ReadFile w' path = (Config.Yaml doc', None) /\
  doc' !! "clusters"
  = Some (Config.VMap
            (<[Config.clusterName cluster :=
                 Config.VMap
                   (<[Config.regionKey := Config.VString (Config.cc_region cluster)]>
                      (<[Config.clusterKey :=
                           Config.VString (Config.cc_cluster cluster)]> ∅))]>
               clusters)) /\
  doc' !! "default"
  = (if decide (clusters = ∅)
     then Some (Config.VString (Config.clusterName cluster))
     else doc !! "default").
Proof.
  intros path doc' Hread Hc Hm Hch Ho Hw Hround w'. subst w' path doc'.
  assert (Hsave : SaveCluster rdwr cluster w
                  = (fst (saveToFile rdwr
                            (Config.clusterConfigPath (Config.destination rdwr))
                            (Config.SaveCluster_document cluster doc clusters) w), None)).
  { unfold Config.SaveCluster. rewrite Hread. simpl.
    rewrite (right_id_L ∅ (∪)). unfold Config.index. rewrite Hc. simpl.
    destruct (Config.saveToFile _ _ _ _ _). reflexivity. }
  rewrite Hsave. simpl.
  split; [reflexivity|]. split; [|split].
  - rewrite <- Hround. apply (saveToFile_then_read _ _ _ _ _ Hread).
    apply saveToFile_succeeds; assumption.
  - unfold Config.SaveCluster_document. apply lookup_insert_eq.
  - unfold Config.SaveCluster_document. rewrite size_zero_decide.
    rewrite lookup_insert_ne by discriminate.
    destruct (decide (clusters = ∅)) as [E|E].
    + rewrite bool_decide_eq_true_2 by assumption. apply lookup_insert_eq.
    + rewrite bool_decide_eq_false_2 by assumption. reflexivity.
Qed.

(** Saving a profile and a cluster, then resolving them: by name, or by the
    empty selector when the container was empty before the save. *)
Lemma save_then_GetConfigs legacy rdwr w profile cluster
    profileDoc clusterDoc profiles clusters profileSelector clusterSelector :
  let profilePath := Config.profileConfigPath (Config.destination rdwr) in
  let clusterPath := Config.clusterConfigPath (Config.destination rdwr) in
  let profileDoc' := Config.SaveProfile_document profile profileDoc profiles in
  let clusterDoc' := Config.SaveCluster_document cluster clusterDoc clusters in
  Config.ioutil_ReadFile w profilePath = (Config.Yaml profileDoc, None) ->
  profileDoc !! "ecs_profiles" = Some (Config.VMap profiles) ->
  Config.ioutil_ReadFile w clusterPath = (Config.Yaml clusterDoc, None) ->
  clusterDoc !! "clusters" = Some (Config.VMap clusters) ->
  Config.mkdir_error w (Config.Path (Config.destination rdwr)) = None ->
  Config.chmod_error w profilePath = None ->
  Config.open_error w profilePath = None ->
  Config.write_error w profilePath = None ->
  Config.chmod_error w clusterPath = None ->
  Config.open_error w clusterPath = None ->
  Config.write_error w clusterPath = None ->
  yaml_Marshal profileDoc' = Config.Yaml profileDoc' ->
  yaml_Marshal clusterDoc' = Config.Yaml clusterDoc' ->
  (profileSelector = Config.profileName profile /\ profileSelector <> "" \/
   profileSelector = "" /\ profiles = ∅) ->
  (clusterSelector = Config.clusterName cluster /\ clusterSelector <> "" \/
   clusterSelector = "" /\ clusters = ∅) ->
  exists configMap : gmap string Config.value,
    Config.GetConfigs legacy rdwr clusterSelector profileSelector
      (fst (SaveCluster rdwr cluster (fst (SaveProfile rdwr profile w))))
    = Config.Returns
        (Some {| Config.Cluster := Config.cc_cluster cluster;
                 Config.AwsProfile := "";
                 Config.Region := Config.cc_region cluster;
                 Config.AwsAccessKey := Config.pc_awsAccessKey profile;
                 Config.AwsSecretKey := Config.pc_awsSecretKey profile;
                 Config.ComposeProjectNamePrefix := "";
                 Config.ComposeServiceNamePrefix := "";
                 Config.CFNStackNamePrefix := "" |},
         Some configMap, None).
Proof.
  intros profilePath clusterPath profileDoc' clusterDoc'
    Hrp Hcp Hrc Hcc Hm Hchp Hop Hwp Hchc Hoc Hwc Hroundp Hroundc Hsp Hsc.
  subst profilePath clusterPath.
  pose proof (config_paths_differ (Config.destination rdwr)) as Hpaths.
  destruct (SaveProfile_no_fault rdwr profile w profileDoc profiles
              Hrp Hcp Hm Hchp Hop Hwp Hroundp)
    as (Hw1 & Hread1 & Hentry1 & Hdefault1).
  fold profileDoc' in Hw1, Hread1, Hentry1, Hdefault1.
  set (w1 := fst (SaveProfile rdwr profile w)) in *.
  destruct (saveToFile_faults rdwr (Config.profileConfigPath (Config.destination rdwr))
              profileDoc' w) as (Fm & Fc & Fo & Fw & _).
  rewrite <- Hw1 in Fm, Fc, Fo, Fw.
  assert (Hrc1 : Config.ioutil_ReadFile w1 (Config.clusterConfigPath (Config.destination rdwr))
                 = (Config.Yaml clusterDoc, None)).
  { rewrite Hw1, saveToFile_read_other by congruence. exact Hrc. }
  assert (Hm1 : Config.mkdir_error w1 (Config.Path (Config.destination rdwr)) = None)
    by (rewrite Fm; exact Hm).
  assert (Hchc1 : Config.chmod_error w1 (Config.clusterConfigPath (Config.destination rdwr))
                  = None) by (rewrite Fc; exact Hchc).
  assert (Hoc1 : Config.open_error w1 (Config.clusterConfigPath (Config.destination rdwr))
                 = None) by (rewrite Fo; exact Hoc).
  assert (Hwc1 : Config.write_error w1 (Config.clusterConfigPath (Config.destination rdwr))
                 = None) by (rewrite Fw; exact Hwc).
  destruct (SaveCluster_no_fault rdwr cluster w1 clusterDoc clusters
              Hrc1 Hcc Hm1 Hchc1 Hoc1 Hwc1 Hroundc)
    as (Hw2 & Hread2 & Hentry2 & Hdefault2).
  fold clusterDoc' in Hw2, Hread2, Hentry2, Hdefault2.
  set (w2 := fst (SaveCluster rdwr cluster w1)) in *.
  assert (Hread1' : Config.ioutil_ReadFile w2
                      (Config.profileConfigPath (Config.destination rdwr))
                    = (Config.Yaml profileDoc', None)).
  { rewrite Hw2, saveToFile_read_other by congruence. exact Hread1. }
  assert (Hselp : Samples.selects profileSelector profileDoc' (Config.profileName profile)).
  { destruct Hsp as [[-> Hne]|[-> ->]].
    - left. split; [exact Hne | reflexivity].
    - right. split; [reflexivity|]. rewrite Hdefault1.
      destruct (decide (∅ = ∅)); [reflexivity | congruence]. }
  assert (Hselc : Samples.selects clusterSelector clusterDoc' (Config.clusterName cluster)).
  { destruct Hsc as [[-> Hne]|[-> ->]].
    - left. split; [exact Hne | reflexivity].
    - right. split; [reflexivity|]. rewrite Hdefault2.
      destruct (decide (∅ = ∅)); [reflexivity | congruence]. }
  clearbody profileDoc' clusterDoc'.
  unfold Config.GetConfigs.
  rewrite (ReadFile_ok_stat _ _ _ Hread2), andb_false_r, Hread2, Hread1'.
  cbn [Config.yaml_Unmarshal Config.read_map default from_option id].
  rewrite !(right_id_L ∅ (∪)).
  erewrite processProfileMap_ok;
    [ | exact Hselp | exact Hentry1 | apply lookup_insert_eq
      | unfold Config.awsAccessKey, Config.awsSecretKey; simplify_map_eq; reflexivity
      | unfold Config.awsAccessKey, Config.awsSecretKey; simplify_map_eq; reflexivity ].
  edestruct (processClusterMap_ok clusterSelector (Config.clusterName cluster) clusterDoc')
    as (cm' & c' & E & F1 & F2 & F3 & F4 & F5 & F6 & F7 & F8 & _);
    [ exact Hselc | exact Hentry2 | apply lookup_insert_eq
      | unfold Config.clusterKey, Config.regionKey; simplify_map_eq; reflexivity
      | unfold Config.clusterKey, Config.regionKey; simplify_map_eq; reflexivity
      | left; unfold Config.composeProjectNamePrefixKey, Config.clusterKey, Config.regionKey;
        simplify_map_eq; reflexivity
      | left; unfold Config.composeServiceNamePrefixKey, Config.clusterKey, Config.regionKey;
        simplify_map_eq; reflexivity
      | left; unfold Config.cfnStackNamePrefixKey, Config.clusterKey, Config.regionKey;
        simplify_map_eq; reflexivity
      | ].
  rewrite E. exists cm'.
  revert F3 F4 F5.
  unfold Config.composeProjectNamePrefixKey, Config.composeServiceNamePrefixKey,
    Config.cfnStackNamePrefixKey, Config.clusterKey, Config.regionKey.
  rewrite !lookup_insert_ne by discriminate. rewrite !lookup_empty.
  intros F3 F4 F5.
  destruct c'; simpl in *; subst. reflexivity.
Qed.

(** X21. With nothing failing and the two documents written read back as
    they are, a profile and a cluster that were saved under non-empty names
    resolve by those names to what was saved: the credentials of the profile,
    the cluster and the region of the cluster, no profile name and no
    prefix. *)
Theorem save_then_resolve_by_name :
  forall (legacy : Config.LegacyReader) (rdwr : Config.YamlReadWriter) (w : Config.World)
         (profile : Config.ProfileConfiguration) (cluster : Config.ClusterConfiguration)
         (profileDoc clusterDoc profiles clusters : gmap string Config.value),
    let profilePath := Config.profileConfigPath (Config.destination rdwr) in
    let clusterPath := Config.clusterConfigPath (Config.destination rdwr) in
    let profileDoc' := Config.SaveProfile_document profile profileDoc profiles in
    let clusterDoc' := Config.SaveCluster_document cluster clusterDoc clusters in
    Config.ioutil_ReadFile w profilePath = (Config.Yaml profileDoc, None) ->
    profileDoc !! "ecs_profiles" = Some (Config.VMap profiles) ->
    Config.ioutil_ReadFile w clusterPath = (Config.Yaml clusterDoc, None) ->
    clusterDoc !! "clusters" = Some (Config.VMap clusters) ->
    Config.mkdir_error w (Config.Path (Config.destination rdwr)) = None ->
    Config.chmod_error w profilePath = None ->
    Config.open_error w profilePath = None ->
    Config.write_error w profilePath = None ->
    Config.chmod_error w clusterPath = None ->
    Config.open_error w clusterPath = None ->
    Config.write_error w clusterPath = None ->
    yaml_Marshal profileDoc' = Config.Yaml profileDoc' ->
    yaml_Marshal clusterDoc' = Config.Yaml clusterDoc' ->
    Config.profileName profile <> "" ->
    Config.clusterName cluster <> "" ->
    exists configMap : gmap string Config.value,
      Config.GetConfigs legacy rdwr (Config.clusterName cluster) (Config.profileName profile)
        (fst (SaveCluster rdwr cluster (fst (SaveProfile rdwr profile w))))
      = Config.Returns
          (Some {| Config.Cluster := Config.cc_cluster cluster;
                   Config.AwsProfile := "";
                   Config.Region := Config.cc_region cluster;
                   Config.AwsAccessKey := Config.pc_awsAccessKey profile;
                   Config.AwsSecretKey := Config.pc_awsSecretKey profile;
                   Config.ComposeProjectNamePrefix := "";
                   Config.ComposeServiceNamePrefix := "";
                   Config.CFNStackNamePrefix := "" |},
           Some configMap, None).
Proof.
  intros legacy rdwr w profile cluster profileDoc clusterDoc profiles clusters
    profilePath clusterPath profileDoc' clusterDoc'
    Hrp Hcp Hrc Hcc Hm Hchp Hop Hwp Hchc Hoc Hwc Hroundp Hroundc Hp Hc.
  eapply save_then_GetConfigs; try eassumption.
  - left. split; [reflexivity | exact Hp].
  - left. split; [reflexivity | exact Hc].
Qed.

(** X22. With nothing failing and the two documents written read back as
    they are, the first profile and the first cluster saved into empty
    containers become the defaults: resolving with empty selectors gives what
    was saved. *)
Theorem first_save_becomes_default :
  forall (legacy : Config.LegacyReader) (rdwr : Config.YamlReadWriter) (w : Config.World)
         (profile : Config.ProfileConfiguration) (cluster : Config.ClusterConfiguration)
         (profileDoc clusterDoc : gmap string Config.value),
    let profilePath := Config.profileConfigPath (Config.destination rdwr) in
    let clusterPath := Config.clusterConfigPath (Config.destination rdwr) in
    let profileDoc' := Config.SaveProfile_document profile profileDoc ∅ in
    let clusterDoc' := Config.SaveCluster_document cluster clusterDoc ∅ in
    Config.ioutil_ReadFile w profilePath = (Config.Yaml profileDoc, None) ->
    profileDoc !! "ecs_profiles" = Some (Config.VMap ∅) ->
    Config.ioutil_ReadFile w clusterPath = (Config.Yaml clusterDoc, None) ->
    clusterDoc !! "clusters" = Some (Config.VMap ∅) ->
    Config.mkdir_error w (Config.Path (Config.destination rdwr)) = None ->
    Config.chmod_error w profilePath = None ->
    Config.open_error w profilePath = None ->
    Config.write_error w profilePath = None ->
    Config.chmod_error w clusterPath = None ->
    Config.open_error w clusterPath = None ->
    Config.write_error w clusterPath = None ->
    yaml_Marshal profileDoc' = Config.Yaml profileDoc' ->
    yaml_Marshal clusterDoc' = Config.Yaml clusterDoc' ->
    exists configMap : gmap string Config.value,
      Config.GetConfigs legacy rdwr "" ""
        (fst (SaveCluster rdwr cluster (fst (SaveProfile rdwr profile w))))
      = Config.Returns
          (Some {| Config.Cluster := Config.cc_cluster cluster;
                   Config.AwsProfile := "";
                   Config.Region := Config.cc_region cluster;
                   Config.AwsAccessKey := Config.pc_awsAccessKey profile;
                   Config.AwsSecretKey := Config.pc_awsSecretKey profile;
                   Config.ComposeProjectNamePrefix := "";
                   Config.ComposeServiceNamePrefix := "";
                   Config.CFNStackNamePrefix := "" |},
           Some configMap, None).
Proof.
  intros legacy rdwr w profile cluster profileDoc clusterDoc
    profilePath clusterPath profileDoc' clusterDoc'
    Hrp Hcp Hrc Hcc Hm Hchp Hop Hwp Hchc Hoc Hwc Hroundp Hroundc.
  eapply save_then_GetConfigs; try eassumption.
  - right. split; reflexivity.
  - right. split; reflexivity.
Qed.

(** X23. [SetDefaultProfile] over a document that reads as a mapping, with
    nothing failing and the document written reading back as it is: it
    returns, the file then reads as the document with its default replaced by
    the name, whatever the entries are, and from then on the empty profile
    selector resolves as the name does. Over the null document it panics. *)
Theorem set_default_profile_then_resolve :
  forall (legacy : Config.LegacyReader) (rdwr : Config.YamlReadWriter) (w : Config.World)
         (name clusterSelector : string),
    let path := Config.profileConfigPath (Config.destination rdwr) in
    (forall doc : gmap string Config.value,
       let doc' := <["default" := Config.VString name]> doc in
       Config.ioutil_ReadFile w path = (Config.Yaml doc, None) ->
       Config.mkdir_error w (Config.Path (Config.destination rdwr)) = None ->
       Config.chmod_error w path = None ->
       Config.open_error w path = None ->
       Config.write_error w path = None ->
       yaml_Marshal doc' = Config.Yaml doc' ->
       exists w' : Config.World,
         SetDefaultProfile rdwr name w = Config.Returns (w', None) /\
         Config.ioutil_ReadFile w' path = (Config.Yaml doc', None) /\
         Config.GetConfigs legacy rdwr clusterSelector "" w'
         = Config.GetConfigs legacy rdwr clusterSelector name w') /\
    (Config.ioutil_ReadFile w path = (Config.YamlNull, None) ->
     SetDefaultProfile rdwr name w = Config.Panics).
Proof.
  intros legacy rdwr w name clusterSelector path. subst path. split.
  - intros doc doc' Hread Hm Hch Ho Hw Hround. subst doc'.
    exists (fst (saveToFile rdwr (Config.profileConfigPath (Config.destination rdwr))
                   (<["default" := Config.VString name]> doc) w)).
    assert (Hread' :
              Config.ioutil_ReadFile
                (fst (saveToFile rdwr
                        (Config.profileConfigPath (Config.destination rdwr))
                        (<["default" := Config.VString name]> doc) w))
                (Config.profileConfigPath (Config.destination rdwr))
              = (Config.Yaml (<["default" := Config.VString name]> doc), None)).
    { rewrite <- Hround. apply (saveToFile_then_read _ _ _ _ _ Hread).
      apply saveToFile_succeeds; assumption. }
    split; [|split; [exact Hread'|]].
    + unfold Config.SetDefaultProfile. rewrite Hread. simpl.
      rewrite (right_id_L ∅ (∪)). destruct (Config.saveToFile _ _ _ _ _). reflexivity.
    + unfold Config.GetConfigs. destruct (_ && _); [reflexivity|].
      destruct (Config.ioutil_ReadFile _ (Config.clusterConfigPath _)) as [dat [e|]];
        [reflexivity|].
      destruct (Config.yaml_Unmarshal dat ∅) as [clusterMap [e|]]; [reflexivity|].
      rewrite Hread'.
      cbn [Config.yaml_Unmarshal Config.read_map default from_option id].
      rewrite (right_id_L ∅ (∪)).
      rewrite (processProfileMap_default _ ∅ Config.new_CliConfig name)
        by apply lookup_insert_eq.
      reflexivity.
  - intros Hread. unfold Config.SetDefaultProfile. rewrite Hread. reflexivity.
Qed.

Lemma created_mode_owner_only (u : Z) : Z.land (Z.ldiff 384 u) 63 = 0.
Proof.
  apply Z.bits_inj'. intros i Hi.
  rewrite Z.land_spec, Z.ldiff_spec, Z.bits_0.
  assert (H : Z.testbit 384 i && Z.testbit 63 i = false).
  { rewrite <- Z.land_spec. change (Z.land 384 63) with 0. apply Z.bits_0. }
  destruct (Z.testbit 384 i), (Z.testbit 63 i), (Z.testbit u i);
    simpl in *; congruence.
Qed.

(** X24. A [saveToFile] that returns no error leaves at the path a file
    holding the bytes [yaml.Marshal] gives for the document. Its mode is 0600
    when the file existed, and 0600 less the umask when it was created; in
    both cases the group and the others have no access. *)
Theorem saveToFile_success_owner_only :
  forall (rdwr : Config.YamlReadWriter) (path : string)
         (config : gmap string Config.value) (w : Config.World),
    snd (saveToFile rdwr path config w) = None ->
    exists f : Config.file,
      Config.files (fst (saveToFile rdwr path config w)) !! path = Some f /\
      Config.perm f
        = (if Config.os_Stat_ok w path then 384 else Z.ldiff 384 (Config.umask w)) /\
      Z.land (Config.perm f) 63 = 0 /\
      Config.data f = yaml_Marshal config.
Proof.
  intros rdwr path config w Hok. eexists. split.
  - apply saveToFile_file. exact Hok.
  - cbn [Config.perm Config.data]. split; [reflexivity|]. split; [|reflexivity].
    destruct (Config.os_Stat_ok w path); [reflexivity|].
    apply created_mode_owner_only.
Qed.

(** X25. The four operations never create a document: when the file is not
    there they return the error of the read and leave the world as it was. *)
Theorem save_operations_need_the_file :
  forall (rdwr : Config.YamlReadWriter) (w : Config.World)
         (profile : Config.ProfileConfiguration) (cluster : Config.ClusterConfiguration)
         (name : string),
    let profilePath := Config.profileConfigPath (Config.destination rdwr) in
    let clusterPath := Config.clusterConfigPath (Config.destination rdwr) in
    (Config.files w !! profilePath = None ->
     SaveProfile rdwr profile w
     = (w, Some ("open " ++ profilePath ++ ": no such file or directory")) /\
     SetDefaultProfile rdwr name w
     = Config.Returns (w, Some ("open " ++ profilePath ++ ": no such file or directory"))) /\
    (Config.files w !! clusterPath = None ->
     SaveCluster rdwr cluster w
     = (w, Some ("open " ++ clusterPath ++ ": no such file or directory")) /\
     SetDefaultCluster rdwr name w
     = Config.Returns (w, Some ("open " ++ clusterPath ++ ": no such file or directory"))).
Proof.
  intros rdwr w profile cluster name profilePath clusterPath.
  subst profilePath clusterPath. split; intros Habsent.
  - unfold Config.SaveProfile, Config.SetDefaultProfile, Config.ioutil_ReadFile.
    rewrite Habsent. split; reflexivity.
  - unfold Config.SaveCluster, Config.SetDefaultCluster, Config.ioutil_ReadFile.
    rewrite Habsent. split; reflexivity.
Qed.

Lemma saveToFile_no_fault_world rdwr path config w f :
  Config.files w !! path = Some f ->
  Config.mkdir_error w (Config.Path (Config.destination rdwr)) = None ->
  Config.chmod_error w path = None ->
  Config.open_error w path = None ->
  Config.write_error w path = None ->
  fst (saveToFile rdwr path config w)
  = Config.with_files
      (<[path := {| Config.perm := Config.configFileMode;
                    Config.read_error := Config.read_error f;
                    Config.data := yaml_Marshal config |}]> (Config.files w)) w.
Proof.
  intros Hf Hm Hc Ho Hw.
  unfold Config.saveToFile, Config.os_Chmod, Config.ioutil_WriteFile, Config.os_Stat_ok.
  rewrite Hm, Hf, Hc. simpl. rewrite Ho, Hw. simpl.
  rewrite lookup_insert_eq. simpl. rewrite insert_insert_eq. reflexivity.
Qed.

(** X26. With nothing failing and the document written reading back as it
    is, saving the same profile a second time changes nothing: the world
    after two saves is the world after one. *)
Theorem SaveProfile_twice :
  forall (rdwr : Config.YamlReadWriter) (w : Config.World)
         (profile : Config.ProfileConfiguration)
         (doc profiles : gmap string Config.value),
    let path := Config.profileConfigPath (Config.destination rdwr) in
    let doc' := Config.SaveProfile_document profile doc profiles in
    Config.ioutil_ReadFile w path = (Config.Yaml doc, None) ->
    doc !! "ecs_profiles" = Some (Config.VMap profiles) ->
    Config.mkdir_error w (Config.Path (Config.destination rdwr)) = None ->
    Config.chmod_error w path = None ->
    Config.open_error w path = None ->
    Config.write_error w path = None ->
    yaml_Marshal doc' = Config.Yaml doc' ->
    SaveProfile rdwr profile (fst (SaveProfile rdwr profile w))
    = (fst (SaveProfile rdwr profile w), None).
Proof.
  intros rdwr w profile doc profiles path doc' Hread Hc Hm Hch Ho Hw Hround.
  subst path.
  destruct (SaveProfile_no_fault rdwr profile w doc profiles Hread Hc Hm Hch Ho Hw Hround)
    as (Hw1 & Hread1 & Hentry1 & _).
  fold doc' in Hw1, Hread1, Hentry1.
  set (w1 := fst (SaveProfile rdwr profile w)) in *.
  destruct (ReadFile_ok_inv _ _ _ Hread) as (f & Hf & Hr & _).
  pose proof (saveToFile_no_fault_world rdwr _ doc' w f Hf Hm Hch Ho Hw) as Hworld.
  rewrite <- Hw1 in Hworld.
  clearbody doc'.
  unfold Config.SaveProfile. rewrite Hread1.
  cbn [Config.yaml_Unmarshal Config.read_map default from_option id].
  rewrite (right_id_L ∅ (∪)).
  unfold Config.index. rewrite Hentry1. simpl.
  assert (Hdoc : Config.SaveProfile_document profile doc'
                   (<[Config.profileName profile :=
                        Config.VMap
                          (<[Config.awsSecretKey :=
                               Config.VString (Config.pc_awsSecretKey profile)]>
                             (<[Config.awsAccessKey :=
                                  Config.VString (Config.pc_awsAccessKey profile)]> ∅))]>
                      profiles)
                 = doc').
  { unfold Config.SaveProfile_document.
    rewrite size_zero_decide, bool_decide_eq_false_2 by apply insert_non_empty.
    rewrite insert_insert_eq. apply insert_id. exact Hentry1. }
  rewrite Hdoc.
  assert (Hsame : fst (saveToFile rdwr
                         (Config.profileConfigPath (Config.destination rdwr)) doc' w1)
                  = w1).
  { rewrite (saveToFile_no_fault_world rdwr _ doc' w1
               {| Config.perm := Config.configFileMode;
                  Config.read_error := Config.read_error f;
                  Config.data := yaml_Marshal doc' |}).
    - rewrite Hworld. unfold Config.with_files. simpl.
      rewrite insert_insert_eq. reflexivity.
    - rewrite Hworld. simpl. apply lookup_insert_eq.
    - rewrite Hworld. exact Hm.
    - rewrite Hworld. exact Hch.
    - rewrite Hworld. exact Ho.
    - rewrite Hworld. exact Hw. }
  destruct (Config.saveToFile yaml_Marshal rdwr _ doc' w1) as [w2 e].
  simpl in Hsame. subst w2.
  reflexivity.
Qed.

(** X27. Each operation of the write path touches its own document only:
    the profile operations leave every path but the profile document as it
    was, the cluster operations every path but the cluster document, whether
    they succeed or not. The two operations that set a default can panic
    instead of returning, and do so over a null document only. *)
Theorem save_operations_touch_their_document :
  forall (rdwr : Config.YamlReadWriter) (w : Config.World)
         (profile : Config.ProfileConfiguration) (cluster : Config.ClusterConfiguration)
         (name path' : string),
    (path' <> Config.profileConfigPath (Config.destination rdwr) ->
     Config.files (fst (SaveProfile rdwr profile w)) !! path'
     = Config.files w !! path' /\
     match SetDefaultProfile rdwr name w with
     | Config.Returns r => Config.files (fst r) !! path' = Config.files w !! path'
     | Config.Panics =>
         Config.ioutil_ReadFile w (Config.profileConfigPath (Config.destination rdwr))
         = (Config.YamlNull, None)
     end) /\
    (path' <> Config.clusterConfigPath (Config.destination rdwr) ->
     Config.files (fst (SaveCluster rdwr cluster w)) !! path'
     = Config.files w !! path' /\
     match SetDefaultCluster rdwr name w with
     | Config.Returns r => Config.files (fst r) !! path' = Config.files w !! path'
     | Config.Panics =>
         Config.ioutil_ReadFile w (Config.clusterConfigPath (Config.destination rdwr))
         = (Config.YamlNull, None)
     end).
Proof.
  intros rdwr w profile cluster name path'. split; intros Hne; split.
  - unfold Config.SaveProfile.
    destruct (Config.ioutil_ReadFile w _) as [dat [e|]]; [reflexivity|].
    destruct (Config.yaml_Unmarshal dat ∅) as [m [e|]]; [reflexivity|].
    destruct (Config.assert_map _) as [profiles [|]]; [|reflexivity].
    pose proof (saveToFile_other_paths rdwr _
                  (Config.SaveProfile_document profile (Config.read_map m) profiles)
                  w path' Hne) as H.
    destruct (Config.saveToFile _ _ _ _ _). exact H.
  - unfold Config.SetDefaultProfile.
    destruct (Config.ioutil_ReadFile w _) as [dat [e|]]; [reflexivity|].
    destruct dat as [doc| |err]; simpl; try reflexivity.
    pose proof (saveToFile_other_paths rdwr _
                  (<["default" := Config.VString name]> (doc ∪ ∅)) w path' Hne) as H.
    destruct (Config.saveToFile _ _ _ _ _). exact H.
  - unfold Config.SaveCluster.
    destruct (Config.ioutil_ReadFile w _) as [dat [e|]]; [reflexivity|].
    destruct (Config.yaml_Unmarshal dat ∅) as [m [e|]]; [reflexivity|].
    destruct (Config.assert_map _) as [clusters [|]]; [|reflexivity].
    pose proof (saveToFile_other_paths rdwr _
                  (Config.SaveCluster_document cluster (Config.read_map m) clusters)
                  w path' Hne) as H.
    destruct (Config.saveToFile _ _ _ _ _). exact H.
  - unfold Config.SetDefaultCluster.
    destruct (Config.ioutil_ReadFile w _) as [dat [e|]]; [reflexivity|].
    destruct dat as [doc| |err]; simpl; try reflexivity.
    pose proof (saveToFile_other_paths rdwr _
                  (<["default" := Config.VString name]> (doc ∪ ∅)) w path' Hne) as H.
    destruct (Config.saveToFile _ _ _ _ _). exact H.
Qed.

End WritePathMore.

(** * The configuration from the command line *)

Section CreateConfigFacts.

Variable command : Configure.Flags.
Variable NewCliConfig : string -> Config.CliConfig.

Local Abbreviation create := (Configure.createECSConfigFromCli command NewCliConfig).

(** X28. [createECSConfigFromCli] returns an error exactly when the cluster
    flag is empty, or a profile is given together with an access key or a
    secret key; it returns a configuration exactly when it returns no error. *)
Theorem createECSConfigFromCli_errors :
  forall (context : Configure.Context),
    (snd (create context) <> None <->
     context (Configure.ClusterFlag command) = "" \/
     (context (Configure.ProfileFlag command) <> "" /\
      (context (Configure.AccessKeyFlag command) <> "" \/
       context (Configure.SecretKeyFlag command) <> ""))) /\
    (fst (create context) = None <-> snd (create context) <> None).
Proof.
  intros context. unfold Configure.createECSConfigFromCli.
  destruct (String.eqb_spec (context (Configure.ClusterFlag command)) "") as [Hc|Hc];
    [simpl; split; split; intros; auto; congruence|].
  destruct (String.eqb_spec (context (Configure.ProfileFlag command)) "") as [Hp|Hp];
    destruct (String.eqb_spec (context (Configure.AccessKeyFlag command)) "") as [Ha|Ha];
    destruct (String.eqb_spec (context (Configure.SecretKeyFlag command)) "") as [Hs|Hs];
    simpl; split; split; intros H; try congruence; auto;
    try (destruct H as [H|[H1 [H2|H2]]]; congruence).
Qed.

(** X29. A configuration that [createECSConfigFromCli] returns carries the
    flags: profile, access key, secret key, region and the three prefixes are
    the values of their flags; and it never names a profile together with an
    access key or a secret key. *)
Theorem createECSConfigFromCli_config :
  forall (context : Configure.Context) (ecsConfig : Config.CliConfig),
    fst (create context) = Some ecsConfig ->
    Config.AwsProfile ecsConfig = context (Configure.ProfileFlag command) /\
    Config.AwsAccessKey ecsConfig = context (Configure.AccessKeyFlag command) /\
    Config.AwsSecretKey ecsConfig = context (Configure.SecretKeyFlag command) /\
    Config.Region ecsConfig = context (Configure.RegionFlag command) /\
    Config.ComposeProjectNamePrefix ecsConfig
    = context (Configure.ComposeProjectNamePrefixFlag command) /\
    Config.ComposeServiceNamePrefix ecsConfig
    = context (Configure.ComposeServiceNamePrefixFlag command) /\
    Config.CFNStackNamePrefix ecsConfig
    = context (Configure.CFNStackNamePrefixFlag command) /\
    (Config.AwsProfile ecsConfig = "" \/
     Config.AwsAccessKey ecsConfig = "" /\ Config.AwsSecretKey ecsConfig = "").
Proof.
  intros context ecsConfig. unfold Configure.createECSConfigFromCli.
  destruct (String.eqb_spec (context (Configure.ClusterFlag command)) "") as [Hc|Hc];
    [discriminate|].
  destruct (String.eqb_spec (context (Configure.ProfileFlag command)) "") as [Hp|Hp];
    destruct (String.eqb_spec (context (Configure.AccessKeyFlag command)) "") as [Ha|Ha];
    destruct (String.eqb_spec (context (Configure.SecretKeyFlag command)) "") as [Hs|Hs];
    simpl; intros H; try discriminate H; inversion H; subst ecsConfig; simpl;
    repeat split; auto.
Qed.

End CreateConfigFacts.

(** * The added statements at concrete inputs *)

Lemma UnmarshalYAML_failure_keeps_receiver_witness :
  fst (Utils.UnmarshalYAML Samples.ParseDuration Go.ParseInt Samples.health_check_set
         (Utils.yaml_unmarshal Samples.command_and_test))
  = Samples.health_check_set.
Proof.
  apply (UnmarshalYAML_failure_keeps_receiver Samples.ParseDuration Go.ParseInt
           Samples.health_check_set (Utils.yaml_unmarshal Samples.command_and_test)).
  vm_compute. discriminate.
Defined.

Lemma UnmarshalYAML_success_forgets_receiver_witness :
  Utils.UnmarshalYAML Samples.ParseDuration Go.ParseInt Samples.health_check_set
    (Utils.yaml_unmarshal Samples.test_string)
  = Utils.UnmarshalYAML Samples.ParseDuration Go.ParseInt Utils.empty_HealthCheck
      (Utils.yaml_unmarshal Samples.test_string).
Proof.
  apply (UnmarshalYAML_success_forgets_receiver Samples.ParseDuration Go.ParseInt
           Utils.empty_HealthCheck Samples.health_check_set
           (Utils.yaml_unmarshal Samples.test_string)).
  vm_compute. reflexivity.
Defined.

Lemma test_and_command_interchangeable_witness :
  Utils.parse_healthcheck Samples.ParseDuration Go.ParseInt Samples.test_sequence
  = Utils.parse_healthcheck Samples.ParseDuration Go.ParseInt Samples.command_sequence.
Proof.
  apply (test_and_command_interchangeable Samples.ParseDuration Go.ParseInt
           Samples.test_sequence Samples.command_sequence); reflexivity.
Defined.

Lemma parsed_command_never_single_witness :
  snd (Utils.parse_healthcheck Samples.ParseDuration Go.ParseInt Samples.test_string)
  = None /\
  length
    (Utils.hc_Command
       (Utils.embedded
          (fst (Utils.parse_healthcheck Samples.ParseDuration Go.ParseInt
                  Samples.test_string))))
  <> 1%nat.
Proof.
  assert (H : snd (Utils.parse_healthcheck Samples.ParseDuration Go.ParseInt
                     Samples.test_string) = None) by (vm_compute; reflexivity).
  split; [exact H|].
  exact (parsed_command_never_single Samples.ParseDuration Go.ParseInt
           Samples.test_string H).
Defined.

Lemma plain_integer_is_seconds_witness :
  Utils.parseHealthCheckTimeField Samples.ParseDuration Go.ParseInt "300"
  = (Some 300, None).
Proof.
  apply (plain_integer_is_seconds Samples.frac_ns_exact "300" 300).
  - discriminate.
  - vm_compute. reflexivity.
  - vm_compute. reflexivity.
Defined.

Lemma container_definition_parsing_witness :
  fst (Utils.parse_ContainerDef Samples.ParseDuration Go.ParseInt
         Samples.container_receiver (Utils.ContainerAccepted Samples.container_conflict))
  = Samples.container_receiver /\
  fst (Utils.parse_ContainerDef Samples.ParseDuration Go.ParseInt
         Samples.container_receiver Samples.container_cpu_beyond_int64)
  = Samples.container_receiver /\
  Utils.Essential
    (fst (Utils.parse_ContainerDef Samples.ParseDuration Go.ParseInt
            Samples.container_receiver (Utils.ContainerAccepted Samples.container_web)))
  = true.
Proof.
  split; [|split].
  - destruct (container_definition_parsing Samples.ParseDuration Go.ParseInt
                Samples.container_receiver
                (Utils.ContainerAccepted Samples.container_conflict))
      as (_ & Hkeep & _).
    apply Hkeep. vm_compute. discriminate.
  - destruct (container_definition_parsing Samples.ParseDuration Go.ParseInt
                Samples.container_receiver Samples.container_cpu_beyond_int64)
      as (_ & Hkeep & _).
    apply Hkeep. vm_compute. discriminate.
  - destruct (container_definition_parsing Samples.ParseDuration Go.ParseInt
                Samples.container_receiver (Utils.ContainerAccepted Samples.container_web))
      as (_ & _ & Hok).
    destruct Hok as (n & Hn & Hessential & _); [vm_compute; reflexivity|].
    injection Hn as <-. exact Hessential.
Defined.

Lemma ecs_format_only_adds_witness :
  Utils.hc_Retries
    (Utils.embedded
       (Utils.healthCheckECSFormat_toHealthCheck Samples.ecs_format_sample
          Samples.health_check_set))
  <> None /\
  Utils.hc_Timeout
    (Utils.embedded
       (Utils.healthCheckECSFormat_toHealthCheck Samples.ecs_format_sample
          Samples.health_check_set))
  <> None.
Proof.
  destruct (ecs_format_only_adds Samples.ecs_format_sample Samples.health_check_set)
    as (_ & _ & _ & Hretries & _ & Htimeout & _).
  split; [apply Hretries | apply Htimeout]; vm_compute; discriminate.
Defined.

Lemma string_format_agrees_with_parser_witness :
  Utils.hc_Command
    (Utils.embedded
       (Utils.healthCheckWithTestAsString_toHealthCheck
          {| Utils.str_Test := "curl -f http://x" |} Samples.health_check_set))
  = Utils.hc_Command
      (Utils.embedded
         (fst (Utils.parse_healthcheck Samples.ParseDuration Go.ParseInt
                 Samples.test_string))).
Proof.
  apply (string_format_agrees_with_parser Samples.ParseDuration Go.ParseInt
           Samples.test_string "curl -f http://x" Samples.health_check_set).
  - discriminate.
  - reflexivity.
  - reflexivity.
  - vm_compute. reflexivity.
Defined.

Lemma named_file_missing_is_error_witness :
  Utils.ReadECSParams (fun s => s) Samples.decode_nothing Samples.other_file_only
    "params.yml"
  = (None,
     Some "Error reading file 'params.yml': open params.yml: no such file or directory").
Proof.
  apply (named_file_missing_is_error (fun s => s) Samples.decode_nothing
           Samples.other_file_only "params.yml").
  - discriminate.
  - vm_compute. reflexivity.
Defined.

Lemma empty_path_reads_default_file_witness :
  Utils.ReadECSParams (fun s => s) Samples.decode_nothing Samples.default_file_only ""
  = Utils.ReadECSParams (fun s => s) Samples.decode_nothing Samples.default_file_only
      "ecs-params.yml".
Proof.
  apply (empty_path_reads_default_file (fun s => s) Samples.decode_nothing
           Samples.default_file_only).
  vm_compute. discriminate.
Defined.

Lemma loader_error_means_no_document_witness :
  Utils.ReadECSParams (fun s => s) Samples.decode_nothing Samples.unreadable_file_only
    "params.yml"
  = (None,
     Some "Error reading file 'params.yml': read params.yml: permission denied").
Proof.
  destruct (loader_error_means_no_document (fun s => s) Samples.decode_nothing
              Samples.unreadable_file_only "params.yml") as [_ Hunreadable].
  apply (Hunreadable "read params.yml: permission denied").
  - discriminate.
  - vm_compute. reflexivity.
Defined.

Lemma empty_selectors_resolve_defaults_witness :
  Config.GetConfigs Samples.legacy Samples.rdwr "" "" Samples.world_resolved
  = Config.GetConfigs Samples.legacy Samples.rdwr "c1" "p1" Samples.world_resolved.
Proof.
  apply (empty_selectors_resolve_defaults Samples.legacy Samples.rdwr
           Samples.world_resolved Samples.one_profile Samples.one_cluster "p1" "c1");
    vm_compute; reflexivity.
Defined.

Lemma profile_resolution_succeeds_witness :
  Config.processProfileMap "" Samples.one_profile ∅ Config.new_CliConfig
  = Config.Returns
      (<[Config.awsSecretKey := Config.VString "SECRET"]>
         (<[Config.awsAccessKey := Config.VString "AKID"]> ∅),
       Config.set_AwsSecretKey "SECRET"
         (Config.set_AwsAccessKey "AKID" Config.new_CliConfig),
       None).
Proof.
  apply (profile_resolution_succeeds "" "p1" Samples.one_profile
           Samples.profiles_container Samples.credentials_p1 "AKID" "SECRET").
  - right. split; vm_compute; reflexivity.
  - vm_compute. reflexivity.
  - vm_compute. reflexivity.
  - vm_compute. reflexivity.
  - vm_compute. reflexivity.
Defined.

Lemma profile_resolution_consistent_witness :
  Samples.credentials_p1 !! Config.awsAccessKey = Some (Config.VString "AKID") /\
  Samples.credentials_p1 !! Config.awsSecretKey = Some (Config.VString "SECRET").
Proof.
  apply (profile_resolution_consistent "p1" Samples.one_profile ∅ Samples.credentials_p1
           Config.new_CliConfig
           (Config.set_AwsSecretKey "SECRET"
              (Config.set_AwsAccessKey "AKID" Config.new_CliConfig))).
  vm_compute. reflexivity.
Defined.

Lemma cluster_resolution_optional_prefixes_witness :
  exists configMap' cliConfig',
    Config.processClusterMap "c1" Samples.one_cluster_prefixed ∅ Config.new_CliConfig
    = Config.Returns (configMap', cliConfig', None) /\
    Config.Cluster cliConfig' = "prod" /\
    Config.ComposeProjectNamePrefix cliConfig' = "proj-" /\
    Config.ComposeServiceNamePrefix cliConfig' = "".
Proof.
  destruct (cluster_resolution_optional_prefixes "c1" "c1" Samples.one_cluster_prefixed
              Samples.clusters_container Samples.cluster_c1_prefixed "prod" "us-west-2"
              ∅ Config.new_CliConfig)
    as (configMap' & cliConfig' & E & Hcluster & _ & Hproject & Hservice & _).
  - left. split; [discriminate | reflexivity].
  - vm_compute. reflexivity.
  - vm_compute. reflexivity.
  - vm_compute. reflexivity.
  - vm_compute. reflexivity.
  - right. exists "proj-". vm_compute. reflexivity.
  - left. vm_compute. reflexivity.
  - left. vm_compute. reflexivity.
  - exists configMap', cliConfig'.
    split; [exact E|]. split; [exact Hcluster|].
    split; [exact Hproject | exact Hservice].
Defined.

Lemma resolution_frames_witness :
  Config.Cluster
    (Config.set_AwsAccessKey "AKID" (Config.set_Cluster "kept" Config.new_CliConfig))
  = "kept".
Proof.
  destruct (resolution_frames "" Samples.profiles_without_secret ∅
              (<[Config.awsSecretKey := Config.VNil]>
                 (<[Config.awsAccessKey := Config.VString "AKID"]> ∅))
              (Config.set_Cluster "kept" Config.new_CliConfig)
              (Config.set_AwsAccessKey "AKID"
                 (Config.set_Cluster "kept" Config.new_CliConfig))
              (Some Config.format_error_profile)) as [Hprofile _].
  destruct Hprofile as [Hcluster _]; [vm_compute; reflexivity|].
  exact Hcluster.
Defined.

Lemma legacy_format_delegation_witness :
  Config.GetConfigs Samples.legacy Samples.rdwr "c1" "p1" Samples.world_legacy
  = Config.Returns (Some Samples.ini_config, Some ∅, None).
Proof.
  destruct (legacy_format_delegation Samples.legacy Samples.rdwr "c1" "p1"
              Samples.world_legacy) as (_ & Hread & _).
  - vm_compute. reflexivity.
  - vm_compute. reflexivity.
  - apply Hread; reflexivity.
Defined.

Lemma current_format_wins_witness :
  Config.os_Stat_ok Samples.world_both_formats
    (Config.iniConfigPath Samples.legacy Samples.dest) = true /\
  Config.os_Stat_ok Samples.world_both_formats (Config.clusterConfigPath Samples.dest)
  = true /\
  Config.GetConfigs Samples.legacy Samples.rdwr "" "" Samples.world_both_formats
  = Config.GetConfigs Samples.legacy_broken Samples.rdwr "" "" Samples.world_both_formats /\
  Config.GetConfigs Samples.legacy Samples.rdwr "" "" Samples.world_both_formats
  <> Config.Returns (Some Samples.ini_config, Some ∅, None).
Proof.
  split; [vm_compute; reflexivity|].
  split; [vm_compute; reflexivity|].
  split.
  - apply (current_format_wins Samples.legacy Samples.legacy_broken Samples.rdwr "" ""
             Samples.world_both_formats).
    vm_compute. reflexivity.
  - vm_compute. discriminate.
Defined.

Lemma missing_documents_are_errors_witness :
  Config.GetConfigs Samples.legacy Samples.rdwr "" "" Samples.world_empty
  = Config.Returns
      (None, None, Some "open /home/user/.ecs/config.yml: no such file or directory").
Proof.
  destruct (missing_documents_are_errors Samples.legacy Samples.rdwr "" ""
              Samples.world_empty) as [Hcluster _].
  apply Hcluster; vm_compute; reflexivity.
Defined.

Lemma save_then_resolve_by_name_witness :
  exists configMap : gmap string Config.value,
    Config.GetConfigs Samples.legacy Samples.rdwr "c1" "p1"
      (fst (Config.SaveCluster Samples.marshal Samples.rdwr Samples.cluster_c1
              (fst (Config.SaveProfile Samples.marshal Samples.rdwr Samples.profile_p1
                      Samples.world_fresh))))
    = Config.Returns
        (Some {| Config.Cluster := "prod"; Config.AwsProfile := "";
                 Config.Region := "us-west-2"; Config.AwsAccessKey := "AKID";
                 Config.AwsSecretKey := "SECRET"; Config.ComposeProjectNamePrefix := "";
                 Config.ComposeServiceNamePrefix := "";
                 Config.CFNStackNamePrefix := "" |},
         Some configMap, None).
Proof.
  apply (save_then_resolve_by_name Samples.marshal Samples.legacy Samples.rdwr
           Samples.world_fresh Samples.profile_p1 Samples.cluster_c1
           Samples.no_profiles Samples.no_clusters ∅ ∅);
    try (vm_compute; reflexivity); discriminate.
Defined.

Lemma first_save_becomes_default_witness :
  exists configMap : gmap string Config.value,
    Config.GetConfigs Samples.legacy Samples.rdwr "" ""
      (fst (Config.SaveCluster Samples.marshal Samples.rdwr Samples.cluster_c1
              (fst (Config.SaveProfile Samples.marshal Samples.rdwr Samples.profile_p1
                      Samples.world_fresh))))
    = Config.Returns
        (Some {| Config.Cluster := "prod"; Config.AwsProfile := "";
                 Config.Region := "us-west-2"; Config.AwsAccessKey := "AKID";
                 Config.AwsSecretKey := "SECRET"; Config.ComposeProjectNamePrefix := "";
                 Config.ComposeServiceNamePrefix := "";
                 Config.CFNStackNamePrefix := "" |},
         Some configMap, None).
Proof.
  apply (first_save_becomes_default Samples.marshal Samples.legacy Samples.rdwr
           Samples.world_fresh Samples.profile_p1 Samples.cluster_c1
           Samples.no_profiles Samples.no_clusters);
    vm_compute; reflexivity.
Defined.

Lemma set_default_profile_then_resolve_witness :
  (exists w' : Config.World,
     Config.SetDefaultProfile Samples.marshal Samples.rdwr "p2" Samples.world_resolved
     = Config.Returns (w', None) /\
     Config.GetConfigs Samples.legacy Samples.rdwr "c1" "" w'
     = Config.GetConfigs Samples.legacy Samples.rdwr "c1" "p2" w') /\
  Config.SetDefaultProfile Samples.marshal Samples.rdwr "p2" Samples.world_null_profiles
  = Config.Panics.
Proof.
  split.
  - destruct (set_default_profile_then_resolve Samples.marshal Samples.legacy Samples.rdwr
                Samples.world_resolved "p2" "c1") as [Hmapping _].
    destruct (Hmapping Samples.one_profile) as (w' & Hreturns & _ & Hresolve);
      try (vm_compute; reflexivity).
    exists w'. split; [exact Hreturns | exact Hresolve].
  - destruct (set_default_profile_then_resolve Samples.marshal Samples.legacy Samples.rdwr
                Samples.world_null_profiles "p2" "c1") as [_ Hnull].
    apply Hnull. vm_compute. reflexivity.
Defined.

Lemma saveToFile_success_owner_only_witness :
  exists f : Config.file,
    Config.files
      (fst (Config.saveToFile Samples.marshal Samples.rdwr "/home/user/.ecs/new.yml"
              Samples.one_profile Samples.world_umask_write))
      !! "/home/user/.ecs/new.yml" = Some f /\
    Config.perm f = 256 /\
    Config.data f = Samples.marshal Samples.one_profile.
Proof.
  destruct (saveToFile_success_owner_only Samples.marshal Samples.rdwr
              "/home/user/.ecs/new.yml" Samples.one_profile Samples.world_umask_write)
    as (f & Hfile & Hperm & _ & Hdata); [vm_compute; reflexivity|].
  exists f. split; [exact Hfile|]. split; [|exact Hdata].
  rewrite Hperm. vm_compute. reflexivity.
Defined.

Lemma save_operations_need_the_file_witness :
  Config.SaveProfile Samples.marshal Samples.rdwr Samples.profile_p1 Samples.world_empty
  = (Samples.world_empty,
     Some "open /home/user/.ecs/profile.yml: no such file or directory") /\
  Config.SetDefaultProfile Samples.marshal Samples.rdwr "p1" Samples.world_empty
  = Config.Returns
      (Samples.world_empty,
       Some "open /home/user/.ecs/profile.yml: no such file or directory").
Proof.
  destruct (save_operations_need_the_file Samples.marshal Samples.rdwr Samples.world_empty
              Samples.profile_p1 Samples.cluster_c1 "p1") as [Hprofile _].
  apply Hprofile. vm_compute. reflexivity.
Defined.

Lemma SaveProfile_twice_witness :
  Config.SaveProfile Samples.marshal Samples.rdwr Samples.profile_p1
    (fst (Config.SaveProfile Samples.marshal Samples.rdwr Samples.profile_p1
            Samples.world_fresh))
  = (fst (Config.SaveProfile Samples.marshal Samples.rdwr Samples.profile_p1
            Samples.world_fresh), None).
Proof.
  apply (SaveProfile_twice Samples.marshal Samples.rdwr Samples.world_fresh
           Samples.profile_p1 Samples.no_profiles ∅);
    vm_compute; reflexivity.
Defined.

Lemma save_operations_touch_their_document_witness :
  Config.files (fst (Config.SaveProfile Samples.marshal Samples.rdwr Samples.profile_p1
                       Samples.world_fresh))
    !! "/home/user/.ecs/config.yml"
  = Config.files Samples.world_fresh !! "/home/user/.ecs/config.yml" /\
  Config.ioutil_ReadFile Samples.world_null_profiles "/home/user/.ecs/profile.yml"
  = (Config.YamlNull, None).
Proof.
  split.
  - destruct (save_operations_touch_their_document Samples.marshal Samples.rdwr
                Samples.world_fresh Samples.profile_p1 Samples.cluster_c1 "p1"
                "/home/user/.ecs/config.yml")
      as [Hprofile _].
    destruct Hprofile as [Hsave _]; [vm_compute; discriminate|].
    exact Hsave.
  - destruct (save_operations_touch_their_document Samples.marshal Samples.rdwr
                Samples.world_null_profiles Samples.profile_p1 Samples.cluster_c1 "p1"
                "/home/user/.ecs/config.yml")
      as [Hprofile _].
    destruct Hprofile as [_ Hdefault]; [vm_compute; discriminate|].
    exact Hdefault.
Defined.

Lemma createECSConfigFromCli_errors_witness :
  snd (Configure.createECSConfigFromCli Samples.flags Samples.NewCliConfig
         Samples.context_profile_and_key)
  <> None /\
  fst (Configure.createECSConfigFromCli Samples.flags Samples.NewCliConfig
         Samples.context_profile_and_key)
  = None.
Proof.
  destruct (createECSConfigFromCli_errors Samples.flags Samples.NewCliConfig
              Samples.context_profile_and_key) as [Herror Hnil].
  assert (H : snd (Configure.createECSConfigFromCli Samples.flags Samples.NewCliConfig
                     Samples.context_profile_and_key) <> None).
  { apply Herror. right. split; [vm_compute; discriminate|].
    left. vm_compute. discriminate. }
  split; [exact H | apply Hnil; exact H].
Defined.

Lemma createECSConfigFromCli_config_witness :
  Config.AwsAccessKey
    (Config.set_CFNStackNamePrefix ""
       (Config.set_ComposeServiceNamePrefix ""
          (Config.set_ComposeProjectNamePrefix ""
             (Config.set_Region "us-west-2"
                (Config.set_AwsSecretKey "SECRET"
                   (Config.set_AwsAccessKey "AKID"
                      (Configure.set_AwsProfile "" (Samples.NewCliConfig "prod"))))))))
  = "AKID".
Proof.
  destruct (createECSConfigFromCli_config Samples.flags Samples.NewCliConfig
              Samples.context_keys
              (Config.set_CFNStackNamePrefix ""
                 (Config.set_ComposeServiceNamePrefix ""
                    (Config.set_ComposeProjectNamePrefix ""
                       (Config.set_Region "us-west-2"
                          (Config.set_AwsSecretKey "SECRET"
                             (Config.set_AwsAccessKey "AKID"
                                (Configure.set_AwsProfile ""
                                   (Samples.NewCliConfig "prod"))))))))
              ltac:(vm_compute; reflexivity))
    as (_ & Haccess & _).
  exact Haccess.
Defined.
